(** * HL7 prescription builder: segment encoding engine, message assembler
      and response reader of [main.py], embedded shallowly.

    Python values are modelled as follows.
    - [str] is [string]; the separators of the encoding profile are single
      characters ([ascii]).
    - [int] is [Z].
    - A list that is updated by index is a Rocq list read with [!!] and
      written with [<[ i := x ]>]; the bounds check that Python performs is
      written out ([py_index]) and an out-of-range access raises
      [IndexError].
    - A method of [HL7Segment] is a function from the segment before the call
      to an outcome (a result or the exception raised) paired with the
      segment as the call leaves it. *)

From Stdlib Require Import ZArith Lia.
From Stdlib Require Import Ascii.
From Stdlib Require String DecimalString.
From stdpp Require Import base list strings.

Local Open Scope Z_scope.

(** ** Python strings *)

Module PyStr.

(** [s.replace(c, r)] for a one-character pattern [c]. *)
Fixpoint replace (c : ascii) (r : string) (s : string) : string :=
  match s with
  | EmptyString => EmptyString
  | String a s' =>
      if Ascii.eqb a c then r +:+ replace c r s'
      else String a (replace c r s')
  end.

(** [s.split(sep)] for a one-character separator: never the empty list. *)
Fixpoint split (sep : ascii) (s : string) : list string :=
  match s with
  | EmptyString => [EmptyString]
  | String a s' =>
      if Ascii.eqb a sep then EmptyString :: split sep s'
      else match split sep s' with
           | [] => [String a EmptyString]
           | w :: ws => String a w :: ws
           end
  end.

(** [sep.join(parts)]. *)
Definition join (sep : ascii) (parts : list string) : string :=
  String.concat (String sep EmptyString) parts.

(** [s.startswith(p)]. *)
Definition startswith (s p : string) : bool := String.prefix p s.

(** [s[:n]]. *)
Definition take (n : nat) (s : string) : string := String.substring 0 n s.

(** [c in s]. *)
Fixpoint contains (c : ascii) (s : string) : bool :=
  match s with
  | EmptyString => false
  | String a s' => Ascii.eqb a c || contains c s'
  end.

(** Truth value of a string: [bool(s)]. *)
Definition nonempty (s : string) : bool :=
  match s with EmptyString => false | String _ _ => true end.

End PyStr.

(** ** Python lists addressed by an [int] *)

(** Resolution of an index [i] against a list of length [n]: a negative index
    counts from the end; [None] stands for [IndexError]. *)
Definition py_index (n : nat) (i : Z) : option nat :=
  let j := if i <? 0 then i + Z.of_nat n else i in
  if (0 <=? j) && (j <? Z.of_nat n) then Some (Z.to_nat j) else None.

(** [l[i]]. *)
Definition py_getitem {A} (l : list A) (i : Z) : option A :=
  match py_index (length l) i with
  | Some j => l !! j
  | None => None
  end.

(** [l[i] = x]. *)
Definition py_setitem {A} (l : list A) (i : Z) (x : A) : option (list A) :=
  match py_index (length l) i with
  | Some j => Some (<[ j := x ]> l)
  | None => None
  end.

(** [while len(l) < n: l.append(x)].  Each round tests the guard; the fuel
    bounds the number of rounds. *)
Fixpoint append_while_shorter {A} (fuel : nat) (n : Z) (x : A) (l : list A)
  : list A :=
  match fuel with
  | O => l
  | S k =>
      if Z.of_nat (length l) <? n
      then append_while_shorter k n x (l ++ [x])
      else l
  end.

(** The distance to the bound is enough fuel for the loop to leave through
    its guard. *)
Definition pad_to {A} (n : Z) (x : A) (l : list A) : list A :=
  append_while_shorter (Z.to_nat (n - Z.of_nat (length l))) n x l.

(** ** Values handed to the segment operations ([Optional[Any]]) *)

Inductive PyValue :=
| PyNone
| PyString (s : string)
| PyInt (n : Z)
| PyBool (b : bool).

(** [str(value)]. *)
Definition py_str (v : PyValue) : string :=
  match v with
  | PyNone => "None"
  | PyString s => s
  | PyInt n => DecimalString.NilZero.string_of_int (Z.to_int n)
  | PyBool true => "True"
  | PyBool false => "False"
  end.

(** Truth value of [value], as tested by [if value]. *)
Definition truthy (v : PyValue) : bool :=
  match v with
  | PyNone => false
  | PyString s => PyStr.nonempty s
  | PyInt n => negb (n =? 0)
  | PyBool b => b
  end.

(** ** Encoding profile *)

Module HL7_SEPARATORS.
Definition field : ascii := "|".
Definition component : ascii := "^".
Definition subcomponent : ascii := "&".
Definition repetition : ascii := "~".
Definition escape : ascii := "\".
End HL7_SEPARATORS.

Definition SEGMENT_DELIMITER : ascii := "013".

Record HL7EncodingCharacters := {
  field_separator : ascii;
  component_separator : ascii;
  repetition_separator : ascii;
  escape_character : ascii;
  subcomponent_separator : ascii
}.

(** [HL7EncodingCharacters()]. *)
Definition HL7EncodingCharacters_init : HL7EncodingCharacters := {|
  field_separator := HL7_SEPARATORS.field;
  component_separator := HL7_SEPARATORS.component;
  repetition_separator := HL7_SEPARATORS.repetition;
  escape_character := HL7_SEPARATORS.escape;
  subcomponent_separator := HL7_SEPARATORS.subcomponent
|}.

(** [HL7EncodingCharacters.__str__]. *)
Definition HL7EncodingCharacters_str (e : HL7EncodingCharacters) : string :=
  String (field_separator e) (String (component_separator e)
    (String (repetition_separator e) (String (escape_character e)
      (String (subcomponent_separator e) EmptyString)))).

(** ** The dict literal of [_escape_hl7]

    A dict keeps its keys in insertion order; storing under a key that is
    present replaces the value and keeps the key's place. *)
Fixpoint dict_set {V} (k : ascii) (v : V) (d : list (ascii * V))
  : list (ascii * V) :=
  match d with
  | [] => [(k, v)]
  | (k', v') :: d' =>
      if Ascii.eqb k' k then (k', v) :: d' else (k', v') :: dict_set k v d'
  end.

(** [f"{esc}{letter}{esc}"]. *)
Definition escape_token (esc letter : ascii) : string :=
  String esc (String letter (String esc EmptyString)).

Definition escape_map (e : HL7EncodingCharacters) : list (ascii * string) :=
  let esc := escape_character e in
  dict_set (subcomponent_separator e) (escape_token esc "T")
    (dict_set (escape_character e) (escape_token esc "E")
      (dict_set (repetition_separator e) (escape_token esc "R")
        (dict_set (component_separator e) (escape_token esc "S")
          (dict_set (field_separator e) (escape_token esc "F") [])))).

(** [HL7Segment._escape_hl7]: one [replace] per entry of the dict, each on
    the result of the one before. *)
Definition _escape_hl7 (e : HL7EncodingCharacters) (value : string) : string :=
  if negb (PyStr.nonempty value) then EmptyString
  else
    fold_left (fun result '(char, escape_seq) =>
                 PyStr.replace char escape_seq result)
              (escape_map e) value.

(** ** Segments *)

Record HL7Segment := {
  segment_id : string;
  encoding : HL7EncodingCharacters;
  fields : list string
}.

(** [HL7Segment(segment_id, encoding)]. *)
Definition HL7Segment_init (id : string) (e : HL7EncodingCharacters)
  : HL7Segment :=
  {| segment_id := id; encoding := e; fields := [] |}.

Inductive PyExn :=
| ValueError (msg : string)
| IndexError.

(** Code that runs on an object of type [S]: the outcome (the exception
    raised, or the value returned) and the object as the code leaves it. *)
Definition Py (S A : Type) : Type := S -> (PyExn + A) * S.

#[global] Instance py_ret {S} : MRet (Py S) := fun A a self => (inr a, self).

#[global] Instance py_bind {S} : MBind (Py S) := fun A B k m self =>
  match m self with
  | (inr a, self') => k a self'
  | (inl e, self') => (inl e, self')
  end.

Definition raise {S A} (e : PyExn) : Py S A := fun self => (inl e, self).

(** [for x in l: body(x)]. *)
Fixpoint for_each {S A} (l : list A) (body : A -> Py S unit) : Py S unit :=
  match l with
  | [] => mret tt
  | x :: l' => body x;; for_each l' body
  end.

(** A method of [HL7Segment]. *)
Abbreviation Method := (Py HL7Segment).

(** Reads and writes of [self.fields] and [self.encoding]. *)
Definition get_fields : Method (list string) :=
  fun self => (inr (fields self), self).

Definition get_encoding : Method HL7EncodingCharacters :=
  fun self => (inr (encoding self), self).

Definition put_fields (fs : list string) : Method unit :=
  fun self =>
    (inr tt, {| segment_id := segment_id self; encoding := encoding self;
                fields := fs |}).

(** [self.fields.append(x)]. *)
Definition fields_append (x : string) : Method unit :=
  fs ← get_fields; put_fields (fs ++ [x]).

(** [self.fields[i]]. *)
Definition fields_getitem (i : Z) : Method string :=
  fs ← get_fields;
  match py_getitem fs i with
  | Some x => mret x
  | None => raise IndexError
  end.

(** [self.fields[i] = x]. *)
Definition fields_setitem (i : Z) (x : string) : Method unit :=
  fs ← get_fields;
  match py_setitem fs i x with
  | Some fs' => put_fields fs'
  | None => raise IndexError
  end.

(** [HL7Segment.add_field]. *)
Definition add_field (value : PyValue) (position : Z) : Method unit :=
  fs ← get_fields;
  put_fields (pad_to position EmptyString fs);;
  match value with
  | PyNone => fields_append EmptyString
  | _ =>
      e ← get_encoding;
      let str_value := _escape_hl7 e (py_str value) in
      fields_append str_value
  end.

(** [HL7Segment.set_field]. *)
Definition set_field (value : PyValue) (position : Z) : Method unit :=
  if position <? 1 then raise (ValueError "Position must be >= 1")
  else
    fs ← get_fields;
    if Z.of_nat (length fs) <? position then add_field value position
    else
      match value with
      | PyNone => fields_setitem (position - 1) EmptyString
      | _ =>
          e ← get_encoding;
          fields_setitem (position - 1) (_escape_hl7 e (py_str value))
      end.

(** [HL7Segment.add_component]. *)
Definition add_component (value : PyValue) (field_pos comp_pos : Z)
  : Method unit :=
  if (field_pos <? 1) || (comp_pos <? 1)
  then raise (ValueError "Positions must be >= 1")
  else
    fs ← get_fields;
    (if Z.of_nat (length fs) <? field_pos
     then add_field (PyString EmptyString) field_pos
     else mret tt);;
    field ← fields_getitem (field_pos - 1);
    e ← get_encoding;
    let components :=
      if PyStr.nonempty field
      then PyStr.split (component_separator e) field
      else [] in
    let components := pad_to comp_pos EmptyString components in
    match py_setitem components (comp_pos - 1)
            (if truthy value then _escape_hl7 e (py_str value)
             else EmptyString) with
    | None => raise IndexError
    | Some components =>
        fields_setitem (field_pos - 1)
          (PyStr.join (component_separator e) components)
    end.

(** [HL7Segment.build]. *)
Definition build (self : HL7Segment) : string :=
  let field_str := PyStr.join (field_separator (encoding self)) (fields self) in
  segment_id self +:+ String (field_separator (encoding self)) field_str.

(** ** Message configuration *)

Inductive MessageType := ORM | ORU | ADT | RDE.

(** [MessageType.value]. *)
Definition MessageType_value (t : MessageType) : string :=
  match t with
  | ORM => "ORM^O01"
  | ORU => "ORU^R01"
  | ADT => "ADT^A01"
  | RDE => "RDE^O11"
  end.

Module HL7Config.
Record t := {
  version : string;
  message_type : MessageType;
  sending_application : string;
  sending_facility : string;
  receiving_application : string;
  receiving_facility : string;
  charset : string;
  country_code : string;
  processing_id : string;
  message_control_id : option string;
  include_msh : bool;
  include_bhs : bool;
  include_fhs : bool;
  auto_generate_control_id : bool;
  max_field_length : Z;
  escape_xml_chars : bool
}.

(** [HL7Config()]. *)
Definition default : t := {|
  version := "2.5";
  message_type := RDE;
  sending_application := "PRESCRIPTION_SYSTEM";
  sending_facility := "HEALTHCARE_PROVIDER";
  receiving_application := "PHARMACY_SYSTEM";
  receiving_facility := "PHARMACY";
  charset := "UTF-8";
  country_code := "USA";
  processing_id := "P";
  message_control_id := None;
  include_msh := true;
  include_bhs := false;
  include_fhs := false;
  auto_generate_control_id := true;
  max_field_length := 200;
  escape_xml_chars := true
|}.
End HL7Config.

(** ** The message assembler

    The clock is an input: [timestamp] is
    [datetime.now().strftime("%Y%m%d%H%M%S%f")[:-3]] and [now] is
    [datetime.now().strftime("%Y%m%d%H%M%S")] at the call. *)

Module HL7Builder.
Record t := {
  config : HL7Config.t;
  encoding : HL7EncodingCharacters;
  segments : list HL7Segment;
  message_control_id : string
}.

(** [HL7Builder._generate_control_id]. *)
Definition _generate_control_id (timestamp : string) : string :=
  "MSG" +:+ timestamp.

(** [HL7Builder.__init__]; [x or y] takes [y] when [x] is [None] or empty. *)
Definition init (timestamp : string) (cfg : HL7Config.t) : t := {|
  config := cfg;
  encoding := HL7EncodingCharacters_init;
  segments := [];
  message_control_id :=
    match HL7Config.message_control_id cfg with
    | Some id => if PyStr.nonempty id then id
                 else _generate_control_id timestamp
    | None => _generate_control_id timestamp
    end
|}.

(** Reads of the attributes of [self]. *)
Definition get_self : Py t t := fun self => (inr self, self).

(** The builder [self] with [segs] as its segments. *)
Definition with_segments (self : t) (segs : list HL7Segment) : t :=
  {| config := config self; encoding := encoding self; segments := segs;
     message_control_id := message_control_id self |}.

(** [self.segments.append(seg)]. *)
Definition segments_append (seg : HL7Segment) : Py t unit :=
  fun self => (inr tt, with_segments self (segments self ++ [seg])).

(** Runs code on a segment that is local to a method of the builder. *)
Definition on_segment {A} (seg : HL7Segment) (m : Method A)
  : Py t (A * HL7Segment) :=
  fun self =>
    match m seg with
    | (inr a, seg') => (inr (a, seg'), self)
    | (inl e, _) => (inl e, self)
    end.

(** [HL7Builder.add_msh_segment]. *)
Definition add_msh_segment (now : string) : Py t unit :=
  self ← get_self;
  let cfg := config self in
  r ← on_segment (HL7Segment_init "MSH" (encoding self))
         (add_field (PyString (HL7EncodingCharacters_str (encoding self))) 2;;
          add_field (PyString (HL7Config.sending_application cfg)) 3;;
          add_field (PyString (HL7Config.sending_facility cfg)) 4;;
          add_field (PyString (HL7Config.receiving_application cfg)) 5;;
          add_field (PyString (HL7Config.receiving_facility cfg)) 6;;
          add_field (PyString now) 7;;
          add_field (PyString EmptyString) 8;;
          add_field (PyString (MessageType_value (HL7Config.message_type cfg))) 9;;
          add_field (PyString (message_control_id self)) 10;;
          add_field (PyString (HL7Config.processing_id cfg)) 11;;
          add_field (PyString (HL7Config.version cfg)) 12;;
          add_field (PyString EmptyString) 13;;
          add_field (PyString EmptyString) 14;;
          add_field (PyString "AL") 15;;
          add_field (PyString "AL") 16;;
          add_field (PyString (HL7Config.country_code cfg)) 17;;
          add_field (PyString (HL7Config.charset cfg)) 18;;
          add_field (PyString EmptyString) 19;;
          add_field (PyString EmptyString) 20);
  segments_append r.2.

(** [any(s.segment_id == "MSH" for s in self.segments)]. *)
Definition has_msh (segs : list HL7Segment) : bool :=
  existsb (fun s => String.eqb (segment_id s) "MSH") segs.

(** [HL7Builder.build_message]. *)
Definition build_message (now : string) : Py t string :=
  self ← get_self;
  (if HL7Config.include_msh (config self)
   then if negb (has_msh (segments self))
        then add_msh_segment now
        else mret tt
   else mret tt);;
  self' ← get_self;
  let segments_str := map build (segments self') in
  mret (PyStr.join SEGMENT_DELIMITER segments_str).
End HL7Builder.

(** ** The response reader *)

Record Acknowledgment := {
  ack_code : string;
  ack_message : string;
  ack_control_id : string
}.

(** The result dict: the keys ["message_type"] and ["message_control_id"]
    are absent until a header line stores them. *)
Record Response := {
  r_segments : list string;
  r_acknowledgment : option Acknowledgment;
  r_status : string;
  r_message_type : option string;
  r_message_control_id : option string
}.

Definition set_message_type (x : string) : Py Response unit := fun r =>
  (inr tt, {| r_segments := r_segments r;
              r_acknowledgment := r_acknowledgment r;
              r_status := r_status r;
              r_message_type := Some x;
              r_message_control_id := r_message_control_id r |}).

Definition set_message_control_id (x : string) : Py Response unit := fun r =>
  (inr tt, {| r_segments := r_segments r;
              r_acknowledgment := r_acknowledgment r;
              r_status := r_status r;
              r_message_type := r_message_type r;
              r_message_control_id := Some x |}).

Definition set_acknowledgment (a : Acknowledgment) : Py Response unit := fun r =>
  (inr tt, {| r_segments := r_segments r;
              r_acknowledgment := Some a;
              r_status := r_status r;
              r_message_type := r_message_type r;
              r_message_control_id := r_message_control_id r |}).

Definition set_status (x : string) : Py Response unit := fun r =>
  (inr tt, {| r_segments := r_segments r;
              r_acknowledgment := r_acknowledgment r;
              r_status := x;
              r_message_type := r_message_type r;
              r_message_control_id := r_message_control_id r |}).

Definition segments_append (x : string) : Py Response unit := fun r =>
  (inr tt, {| r_segments := r_segments r ++ [x];
              r_acknowledgment := r_acknowledgment r;
              r_status := r_status r;
              r_message_type := r_message_type r;
              r_message_control_id := r_message_control_id r |}).

(** [parts[i]] inside the reader. *)
Definition item (parts : list string) (i : Z) : Py Response string :=
  match py_getitem parts i with
  | Some x => mret x
  | None => raise IndexError
  end.

(** [parts[i] if len(parts) > i else empty]. *)
Definition item_or_empty (parts : list string) (i : Z) : Py Response string :=
  if i <? Z.of_nat (length parts) then item parts i else mret EmptyString.

(** The body of the loop over the lines. *)
Definition parse_line (line : string) : Py Response unit :=
  (if PyStr.startswith line "MSH" then
     x ← item_or_empty (PyStr.split "|" line) 8;
     set_message_type x;;
     y ← item_or_empty (PyStr.split "|" line) 9;
     set_message_control_id y
   else if PyStr.startswith line "MSA" then
     let parts := PyStr.split "|" line in
     if 2 <=? Z.of_nat (length parts) then
       c ← item parts 1;
       m ← item_or_empty parts 2;
       i ← item_or_empty parts 3;
       set_acknowledgment
         {| ack_code := c; ack_message := m; ack_control_id := i |};;
       c1 ← item parts 1;
       if String.eqb c1 "AA" then set_status "accepted"
       else
         c2 ← item parts 1;
         if String.eqb c2 "AE" then set_status "error"
         else
           c3 ← item parts 1;
           if String.eqb c3 "AR" then set_status "rejected"
           else mret tt
     else mret tt
   else mret tt);;
  segments_append (PyStr.take 3 line).

(** [parse_hl7_response]. *)
Definition parse_hl7_response (hl7_message : string) : PyExn + Response :=
  let lines := PyStr.split SEGMENT_DELIMITER hl7_message in
  let result := {| r_segments := [];
                   r_acknowledgment := None;
                   r_status := "unknown";
                   r_message_type := None;
                   r_message_control_id := None |} in
  match for_each lines parse_line result with
  | (inr _, result') => inr result'
  | (inl e, _) => inl e
  end.

(** ** Auxiliary notions used to state the properties *)

(** What [add_field] and [set_field] store for [value]. *)
Definition stored_text (e : HL7EncodingCharacters) (value : PyValue) : string :=
  match value with
  | PyNone => EmptyString
  | _ => _escape_hl7 e (py_str value)
  end.

(** The segment [self] with [fs] as its fields. *)
Definition with_fields (self : HL7Segment) (fs : list string) : HL7Segment :=
  {| segment_id := segment_id self; encoding := encoding self; fields := fs |}.

(** The fields as [add_component] leaves them before it reads the field at
    [field_pos]: unchanged when that position exists, extended by
    [add_field] of the empty string at [field_pos] when it does not. *)
Definition ensured_fields (field_pos : Z) (fs : list string) : list string :=
  if Z.of_nat (length fs) <? field_pos
  then fs ++ replicate (Z.to_nat (field_pos - Z.of_nat (length fs))) EmptyString
          ++ [EmptyString]
  else fs.

(** [field.split(sep) if field else []]. *)
Definition components_of (sep : ascii) (field : string) : list string :=
  if PyStr.nonempty field then PyStr.split sep field else [].

(** What [add_component] stores for [value]. *)
Definition component_text (e : HL7EncodingCharacters) (value : PyValue)
  : string :=
  if truthy value then _escape_hl7 e (py_str value) else EmptyString.

(** [s] holds one of the five delimiter characters of [e]. *)
Definition has_delimiter (e : HL7EncodingCharacters) (s : string) : bool :=
  PyStr.contains (field_separator e) s
  || PyStr.contains (component_separator e) s
  || PyStr.contains (repetition_separator e) s
  || PyStr.contains (escape_character e) s
  || PyStr.contains (subcomponent_separator e) s.

(** The status that the reader holds after the line [line], when it held
    [previous] before it. *)
Definition status_after_line (line previous : string) : string :=
  if PyStr.startswith line "MSA" then
    match PyStr.split "|" line !! 1%nat with
    | Some c =>
        if String.eqb c "AA" then "accepted"
        else if String.eqb c "AE" then "error"
        else if String.eqb c "AR" then "rejected"
        else previous
    | None => previous
    end
  else previous.

(** The acknowledgment that the reader holds after the line [line], when it
    held [previous] before it. *)
Definition acknowledgment_after_line
    (line : string) (previous : option Acknowledgment)
  : option Acknowledgment :=
  if PyStr.startswith line "MSA" then
    let parts := PyStr.split "|" line in
    match parts !! 1%nat with
    | Some c =>
        Some {| ack_code := c;
                ack_message := default EmptyString (parts !! 2%nat);
                ack_control_id := default EmptyString (parts !! 3%nat) |}
    | None => previous
    end
  else previous.

(** The acknowledgment code of a line: the second of its parts between
    ["|"], when there is one. *)
Definition ack_code_of (line : string) : option string :=
  PyStr.split "|" line !! 1%nat.

(** [line] is a line at which the reader stores an acknowledgment: it begins
    with [MSA] and has a code. *)
Definition has_code (line : string) : bool :=
  PyStr.startswith line "MSA" &&
  match ack_code_of line with
  | Some _ => true
  | None => false
  end.

(** [line] is a line at which the reader sets the status: it begins with
    [MSA] and its code is one of [AA], [AE] and [AR]. *)
Definition has_known_code (line : string) : bool :=
  PyStr.startswith line "MSA" &&
  match ack_code_of line with
  | Some c => String.eqb c "AA" || String.eqb c "AE" || String.eqb c "AR"
  | None => false
  end.

(** A configuration that differs from the default one in [include_msh]. *)
Definition config_without_header : HL7Config.t := {|
  HL7Config.version := "2.5";
  HL7Config.message_type := RDE;
  HL7Config.sending_application := "PRESCRIPTION_SYSTEM";
  HL7Config.sending_facility := "HEALTHCARE_PROVIDER";
  HL7Config.receiving_application := "PHARMACY_SYSTEM";
  HL7Config.receiving_facility := "PHARMACY";
  HL7Config.charset := "UTF-8";
  HL7Config.country_code := "USA";
  HL7Config.processing_id := "P";
  HL7Config.message_control_id := None;
  HL7Config.include_msh := false;
  HL7Config.include_bhs := false;
  HL7Config.include_fhs := false;
  HL7Config.auto_generate_control_id := true;
  HL7Config.max_field_length := 200;
  HL7Config.escape_xml_chars := true
|}.

(** A builder with the header switched off and no segment yet. *)
Definition empty_builder : HL7Builder.t :=
  HL7Builder.init "20240101120000000" config_without_header.

(** A segment with three fields. *)
Definition three_field_segment : HL7Segment :=
  {| segment_id := "PID"; encoding := HL7EncodingCharacters_init;
     fields := ["a"; "b"; "c"] |}.

(** A segment without fields. *)
Definition empty_segment : HL7Segment :=
  HL7Segment_init "PID" HL7EncodingCharacters_init.

(** A builder with the default configuration (header switched on) that
    holds one segment and no header. *)
Definition builder_without_header : HL7Builder.t :=
  HL7Builder.with_segments
    (HL7Builder.init "20240101120000000" HL7Config.default) [empty_segment].

(** An acknowledgment message of two lines. *)
Definition acknowledgment_header_line : string :=
  "MSH|^~\&|PHARMACY_SYSTEM|PHARMACY|PRESCRIPTION_SYSTEM|HEALTHCARE_PROVIDER|20240101120000||ACK|MSG1|P|2.5".

Definition acknowledgment_message : string :=
  acknowledgment_header_line +:+ String SEGMENT_DELIMITER "MSA|AA|MSG1".

(** A message of three lines that holds two acknowledgment lines, the second
    with a code that the reader does not know. *)
Definition repeated_acknowledgment_message : string :=
  acknowledgment_message +:+ String SEGMENT_DELIMITER "MSA|XX|MSG2".

(** ** Auxiliary notions for the further properties *)

(** The text that stands for one character in escaped text, with the
    separators of the source. *)
Definition escape_char (a : ascii) : string :=
  if Ascii.eqb a HL7_SEPARATORS.field then "\E\F\E\"
  else if Ascii.eqb a HL7_SEPARATORS.component then "\E\S\E\"
  else if Ascii.eqb a HL7_SEPARATORS.repetition then "\E\R\E\"
  else if Ascii.eqb a HL7_SEPARATORS.escape then "\E\"
  else if Ascii.eqb a HL7_SEPARATORS.subcomponent then "\T\"
  else String a EmptyString.

(** The texts of the characters of [s], one after the other. *)
Fixpoint escape_each (s : string) : string :=
  match s with
  | EmptyString => EmptyString
  | String a s' => escape_char a +:+ escape_each s'
  end.

(** No string of [fs] holds the character [c]. *)
Definition free_of (c : ascii) (fs : list string) : Prop :=
  Forall (fun f => PyStr.contains c f = false) fs.

(** The positions [ps] go up strictly and start at [n] or later. *)
Fixpoint ascending_from (n : Z) (ps : list Z) : bool :=
  match ps with
  | [] => true
  | p :: ps' => (n <=? p) && ascending_from (p + 1) ps'
  end.

(** Consecutive calls [add_field(v, p)] on one segment, one for each pair
    of [items] in their order. *)
Definition add_fields (items : list (PyValue * Z)) : Method unit :=
  for_each items (fun item => add_field item.1 item.2).

(** The message type and the control id that the reader holds after the
    line [line], when it held [previous] before it: a header line stores
    its ninth and tenth part, or the empty text where it has fewer parts. *)
Definition message_type_after_line
    (line : string) (previous : option string) : option string :=
  if PyStr.startswith line "MSH"
  then Some (default EmptyString (PyStr.split "|" line !! 8%nat))
  else previous.

Definition message_control_id_after_line
    (line : string) (previous : option string) : option string :=
  if PyStr.startswith line "MSH"
  then Some (default EmptyString (PyStr.split "|" line !! 9%nat))
  else previous.

(** ** The segment catalog

    The further methods of [HL7Builder], [create_hl7_prescription] and the
    objects they read.  [Decimal], [datetime] and [date] are the library's
    types: they are taken as they come, with [str(d)] and [bool(d)] of a
    [Decimal] and [strftime] of a [datetime] or [date] as functions on them.
    Every call of [datetime.now()] is an input of its own. *)

(** [HL7_TABLES["route"]] and [HL7_TABLES["medication_form"]]. *)
Definition HL7_TABLES_route : list (string * string) :=
  [("PO", "Oral");
   ("IV", "Intravenous");
   ("IM", "Intramuscular");
   ("SC", "Subcutaneous");
   ("INH", "Inhalation");
   ("TOP", "Topical");
   ("PR", "Rectal");
   ("PV", "Vaginal");
   ("SL", "Sublingual");
   ("BUCC", "Buccal");
   ("NAS", "Nasal");
   ("OPH", "Ophthalmic");
   ("OT", "Otic");
   ("TD", "Transdermal");
   ("NG", "Nasogastric");
   ("GT", "Gastrostomy tube")].

Definition HL7_TABLES_medication_form : list (string * string) :=
  [("TAB", "Tablet");
   ("CAP", "Capsule");
   ("SYR", "Syrup");
   ("SUS", "Suspension");
   ("INJ", "Injection");
   ("CRE", "Cream");
   ("OIN", "Ointment");
   ("SUP", "Suppository");
   ("SOL", "Solution");
   ("POW", "Powder");
   ("GEL", "Gel");
   ("LOT", "Lotion");
   ("AER", "Aerosol");
   ("PAS", "Paste");
   ("FIL", "Film");
   ("IMP", "Implant")].

(** [d.get(key, default)] on a dict of strings given by its items. *)
Fixpoint dict_get (d : list (string * string)) (key default : string) : string :=
  match d with
  | [] => default
  | (k, v) :: d' => if String.eqb k key then v else dict_get d' key default
  end.

(** [range(start, stop)]. *)
Definition py_range (start stop : Z) : list Z := seqZ start (stop - start).

(** [enumerate(l, start)]. *)
Definition enumerate {A} (l : list A) (start : Z) : list (Z * A) :=
  zip (seqZ start (Z.of_nat (length l))) l.

(** [l[i]] in code that runs on any object. *)
Definition py_item {S A} (l : list A) (i : Z) : Py S A :=
  match py_getitem l i with
  | Some x => mret x
  | None => raise IndexError
  end.

(** [c.isspace()] for a character below 256. *)
Definition is_space (a : ascii) : bool :=
  let n := nat_of_ascii a in
  ((9 <=? n)%nat && (n <=? 13)%nat)
  || ((28 <=? n)%nat && (n <=? 32)%nat)
  || (n =? 133)%nat || (n =? 160)%nat.

(** [s.split()]: the words of [s] between runs of white space; [word] is
    the word that is being read. *)
Fixpoint words_after (word s : string) : list string :=
  match s with
  | EmptyString => if PyStr.nonempty word then [word] else []
  | String a s' =>
      if is_space a
      then if PyStr.nonempty word then word :: words_after EmptyString s'
           else words_after EmptyString s'
      else words_after (word +:+ String a EmptyString) s'
  end.

Definition split_whitespace (s : string) : list string :=
  words_after EmptyString s.

(** [l[1:-1]]. *)
Definition slice_1_m1 {A} (l : list A) : list A :=
  take (length l - 1 - 1) (drop 1 l).

(** Truth values of optional arguments. *)
Definition truthy_str (o : option string) : bool :=
  match o with Some s => PyStr.nonempty s | None => false end.

Definition truthy_int (o : option Z) : bool :=
  match o with Some n => negb (n =? 0) | None => false end.

Definition truthy_bool (o : option bool) : bool :=
  match o with Some b => b | None => false end.

Definition truthy_list {A} (o : option (list A)) : bool :=
  match o with Some (_ :: _) => true | _ => false end.

(** An optional text as the [Optional[str]] value handed to [add_field]. *)
Definition optional_text (o : option string) : PyValue :=
  match o with Some s => PyString s | None => PyNone end.

Module MedicationItem.
Record t {Decimal datetime : Type} := {
  medication_code : string;
  medication_name : string;
  form : string;
  strength : string;
  quantity : Decimal;
  unit : string;
  dosage_instruction : string;
  route : string;
  duration_days : option Z;
  refills : option Z;
  special_instructions : option string;
  substitution_allowed : option bool;
  frequency : option string;
  start_datetime : option datetime;
  end_datetime : option datetime
}.
Arguments t : clear implicits.
End MedicationItem.

Module PatientInfo.
Record t {Decimal date : Type} := {
  patient_id : string;
  name : string;
  date_of_birth : date;
  gender : string;
  weight_kg : option Decimal;
  height_cm : option Decimal;
  allergies : list string;
  diagnoses : list (string * string)
}.
Arguments t : clear implicits.
End PatientInfo.

Module PrescribingProvider.
Record t := {
  id : string;
  name : string;
  qualification : option string;
  specialty : option string;
  contact : option string;
  address : option string
}.
End PrescribingProvider.

(** [hl7_data["prescription_info"]] and [hl7_data], with the keys that
    [create_hl7_prescription] reads; [clinical_notes] is read with [get]. *)
Module PrescriptionInfo.
Record t {datetime : Type} := {
  prescription_id : string;
  prescription_date : datetime;
  clinical_notes : option string
}.
Arguments t : clear implicits.
End PrescriptionInfo.

Module HL7Data.
Record t {Decimal datetime date : Type} := {
  patient : PatientInfo.t Decimal date;
  provider : PrescribingProvider.t;
  medications : list (MedicationItem.t Decimal datetime);
  prescription_info : PrescriptionInfo.t datetime
}.
Arguments t : clear implicits.
End HL7Data.

(** The readings of the clock during [create_hl7_prescription], one for each
    call of [datetime.now()]: for the control id, the header, the two
    observations, the diagnosis and the dispense record of each index. *)
Module Clock.
Record t {datetime : Type} := {
  control_id_timestamp : string;
  at_header : datetime;
  at_weight : datetime;
  at_height : datetime;
  at_diagnosis : Z -> datetime;
  at_dispense : Z -> datetime
}.
Arguments t : clear implicits.
End Clock.

Definition MessageType_eqb (a b : MessageType) : bool :=
  match a, b with
  | ORM, ORM | ORU, ORU | ADT, ADT | RDE, RDE => true
  | _, _ => false
  end.

Section Catalog.
Variables Decimal datetime date : Type.
Variable Decimal_str : Decimal -> string.
Variable Decimal_bool : Decimal -> bool.
Variable strftime_datetime : datetime -> string.
Variable strftime_date : date -> string.

(** The argument of [_format_hl7_date]. *)
Inductive DateValue :=
| IsDatetime (d : datetime)
| IsDate (d : date).

(** Truth value of an optional [Decimal]. *)
Definition truthy_decimal (o : option Decimal) : bool :=
  match o with Some d => Decimal_bool d | None => false end.

(** [HL7Builder._format_hl7_date]. *)
Definition _format_hl7_date (dt : DateValue) : string :=
  match dt with
  | IsDatetime d => strftime_datetime d
  | IsDate d => strftime_date d
  end.

(** [HL7Builder._format_name]. *)
Definition _format_name {S} (name : string) : Py S string :=
  let parts := split_whitespace name in
  if 2 <=? Z.of_nat (length parts) then
    last_part ← py_item parts (-1);
    first_part ← py_item parts 0;
    mret (last_part +:+ "^" +:+ first_part +:+ "^"
            +:+ PyStr.join "^" (slice_1_m1 parts))
  else mret name.

(** The observation segment that [add_pid_segment] makes for the weight and
    for the height; the two places differ in the code, the value and the
    units. *)
Definition add_pid_segment_obx
    (code : string) (value : Decimal) (units : string) (now : datetime)
  : Py HL7Builder.t unit :=
  self ← HL7Builder.get_self;
  r ← HL7Builder.on_segment
        (HL7Segment_init "OBX" (HL7Builder.encoding self))
        (add_field
           (PyString
              (py_str
                 (PyInt
                    (Z.of_nat
                       (length
                          (List.filter
                             (fun s => String.eqb (segment_id s) "OBX")
                             (HL7Builder.segments self))) + 1)))) 1;;
         add_field (PyString "NM") 2;;
         add_field (PyString code) 3;;
         add_field (PyString EmptyString) 4;;
         add_field (PyString (Decimal_str value)) 5;;
         add_field (PyString units) 6;;
         add_field (PyString EmptyString) 7;;
         add_field (PyString EmptyString) 8;;
         add_field (PyString EmptyString) 9;;
         add_field (PyString EmptyString) 10;;
         add_field (PyString "F") 11;;
         add_field (PyString EmptyString) 12;;
         add_field (PyString EmptyString) 13;;
         add_field (PyString (_format_hl7_date (IsDatetime now))) 14;;
         add_field (PyString EmptyString) 15;;
         add_field (PyString EmptyString) 16);
  HL7Builder.segments_append r.2.

(** [HL7Builder.add_pid_segment]. *)
Definition add_pid_segment
    (now_weight now_height : datetime) (patient : PatientInfo.t Decimal date)
  : Py HL7Builder.t unit :=
  self ← HL7Builder.get_self;
  r ← HL7Builder.on_segment
        (HL7Segment_init "PID" (HL7Builder.encoding self))
        (add_field (PyString "1") 1;;
         add_field (PyString EmptyString) 2;;
         add_field
           (PyString
              (PatientInfo.patient_id patient +:+ "^^"
                 +:+ HL7Config.sending_facility (HL7Builder.config self)
                 +:+ "^MR")) 3;;
         add_field (PyString EmptyString) 4;;
         formatted ← _format_name (PatientInfo.name patient);
         add_field (PyString formatted) 5;;
         add_field (PyString EmptyString) 6;;
         add_field
           (PyString
              (_format_hl7_date (IsDate (PatientInfo.date_of_birth patient))))
           7;;
         add_field (PyString (PatientInfo.gender patient)) 8;;
         add_field (PyString EmptyString) 9;;
         add_field (PyString EmptyString) 10;;
         add_field (PyString EmptyString) 11;;
         add_field (PyString EmptyString) 12;;
         add_field (PyString EmptyString) 13;;
         add_field (PyString EmptyString) 14;;
         add_field (PyString EmptyString) 15;;
         add_field (PyString EmptyString) 16;;
         add_field (PyString EmptyString) 17;;
         add_field (PyString EmptyString) 18;;
         add_field (PyString EmptyString) 19;;
         add_field (PyString EmptyString) 20;;
         add_field (PyString EmptyString) 21;;
         add_field (PyString EmptyString) 22;;
         add_field (PyString EmptyString) 23;;
         add_field (PyString EmptyString) 24;;
         add_field (PyString EmptyString) 25;;
         add_field (PyString EmptyString) 26;;
         add_field (PyString EmptyString) 27;;
         add_field (PyString EmptyString) 28;;
         add_field (PyString EmptyString) 29;;
         add_field (PyString EmptyString) 30);
  HL7Builder.segments_append r.2;;
  match PatientInfo.weight_kg patient with
  | Some w =>
      if Decimal_bool w
      then add_pid_segment_obx "3141-9^Body weight Measured^LN" w "kg" now_weight
      else mret tt
  | None => mret tt
  end;;
  match PatientInfo.height_cm patient with
  | Some h =>
      if Decimal_bool h
      then add_pid_segment_obx "8302-2^Body height^LN" h "cm" now_height
      else mret tt
  | None => mret tt
  end.

(** [HL7Builder.add_pv1_segment]. *)
Definition add_pv1_segment (patient_class : string) : Py HL7Builder.t unit :=
  self ← HL7Builder.get_self;
  r ← HL7Builder.on_segment
        (HL7Segment_init "PV1" (HL7Builder.encoding self))
        (add_field (PyString "1") 1;;
         add_field (PyString patient_class) 2;;
         for_each (py_range 3 51)
           (fun i => add_field (PyString EmptyString) i));
  HL7Builder.segments_append r.2.

(** [f"{provider.name}^{provider.id}"]. *)
Definition provider_text (p : PrescribingProvider.t) : string :=
  PrescribingProvider.name p +:+ "^" +:+ PrescribingProvider.id p.

(** [HL7Builder.add_orc_segment]; [now] is read only when no
    [datetime_of_transaction] is given. *)
Definition add_orc_segment
    (now : datetime)
    (order_control placer_order_number filler_order_number order_status
       response_flag : string)
    (timing_quantity : option (list string))
    (parent_order : string)
    (datetime_of_transaction : option datetime)
    (entered_by verified_by ordering_provider : option PrescribingProvider.t)
  : Py HL7Builder.t unit :=
  self ← HL7Builder.get_self;
  r ← HL7Builder.on_segment
        (HL7Segment_init "ORC" (HL7Builder.encoding self))
        (add_field (PyString order_control) 1;;
         add_field (PyString placer_order_number) 2;;
         add_field (PyString filler_order_number) 3;;
         add_field (PyString EmptyString) 4;;
         add_field (PyString order_status) 5;;
         add_field (PyString response_flag) 6;;
         (if truthy_list timing_quantity
          then add_field
                 (PyString
                    (PyStr.join (component_separator (HL7Builder.encoding self))
                       (default [] timing_quantity))) 7
          else mret tt);;
         add_field (PyString parent_order) 8;;
         add_field
           (PyString
              (match datetime_of_transaction with
               | Some d => _format_hl7_date (IsDatetime d)
               | None => _format_hl7_date (IsDatetime now)
               end)) 9;;
         match entered_by with
         | Some p => add_field (PyString (provider_text p)) 10
         | None => mret tt
         end;;
         match verified_by with
         | Some p => add_field (PyString (provider_text p)) 11
         | None => mret tt
         end;;
         match ordering_provider with
         | Some p => add_field (PyString (provider_text p)) 12
         | None => mret tt
         end;;
         add_field (PyString EmptyString) 13;;
         add_field (PyString EmptyString) 14;;
         add_field (PyString EmptyString) 15;;
         add_field (PyString EmptyString) 16);
  HL7Builder.segments_append r.2.

(** [HL7Builder.add_rxr_segment]. *)
Definition add_rxr_segment (route : string) (site : option string)
  : Py HL7Builder.t unit :=
  self ← HL7Builder.get_self;
  r ← HL7Builder.on_segment
        (HL7Segment_init "RXR" (HL7Builder.encoding self))
        (add_field
           (PyString
              (route +:+ "^" +:+ dict_get HL7_TABLES_route route route
                 +:+ "^HL70162")) 1;;
         (if truthy_str site then add_field (optional_text site) 2
          else mret tt);;
         add_field (PyString EmptyString) 3;;
         add_field (PyString EmptyString) 4;;
         add_field (PyString EmptyString) 5;;
         add_field (PyString EmptyString) 6);
  HL7Builder.segments_append r.2.

(** The list [timing] of [add_rxe_segment]. *)
Definition rxe_timing (medication : MedicationItem.t Decimal datetime)
  : list string :=
  (if truthy_str (MedicationItem.frequency medication)
   then [default EmptyString (MedicationItem.frequency medication)]
   else [])
  ++ match MedicationItem.start_datetime medication with
     | Some d => [_format_hl7_date (IsDatetime d)]
     | None => []
     end
  ++ (if truthy_int (MedicationItem.duration_days medication)
      then [py_str (PyInt (default 0 (MedicationItem.duration_days medication)));
            "D"]
      else []).

(** [str(medication.refills) if medication.refills else "0"]. *)
Definition refills_text (medication : MedicationItem.t Decimal datetime)
  : string :=
  if truthy_int (MedicationItem.refills medication)
  then py_str (PyInt (default 0 (MedicationItem.refills medication)))
  else "0".

(** [HL7Builder.add_rxe_segment]. *)
Definition add_rxe_segment
    (medication : MedicationItem.t Decimal datetime)
    (give_per : string)
    (give_rate give_units give_strength give_strength_units
       provider_administration_instructions
       delivery_administration_instructions : option string)
  : Py HL7Builder.t unit :=
  self ← HL7Builder.get_self;
  r ← HL7Builder.on_segment
        (HL7Segment_init "RXE" (HL7Builder.encoding self))
        (let timing := rxe_timing medication in
         add_field
           (PyString
              (match timing with
               | _ :: _ =>
                   PyStr.join (component_separator (HL7Builder.encoding self))
                     timing
               | [] => EmptyString
               end)) 1;;
         add_field
           (PyString
              (MedicationItem.medication_code medication +:+ "^"
                 +:+ MedicationItem.medication_name medication +:+ "^NDC")) 2;;
         add_field
           (PyString (Decimal_str (MedicationItem.quantity medication))) 3;;
         add_field (PyString EmptyString) 4;;
         add_field (PyString (MedicationItem.unit medication)) 5;;
         add_field
           (PyString
              (dict_get HL7_TABLES_medication_form
                 (MedicationItem.form medication)
                 (MedicationItem.form medication))) 6;;
         let admin_instructions :=
           if truthy_str (MedicationItem.special_instructions medication)
           then MedicationItem.dosage_instruction medication +:+ "; "
                  +:+ default EmptyString
                        (MedicationItem.special_instructions medication)
           else MedicationItem.dosage_instruction medication in
         add_field (PyString admin_instructions) 7;;
         add_field (PyString EmptyString) 8;;
         add_field
           (PyString
              (if truthy_bool (MedicationItem.substitution_allowed medication)
               then "G" else "N")) 9;;
         add_field
           (PyString (Decimal_str (MedicationItem.quantity medication))) 10;;
         add_field (PyString (MedicationItem.unit medication)) 11;;
         add_field (PyString (refills_text medication)) 12;;
         add_field (PyString EmptyString) 13;;
         add_field (PyString EmptyString) 14;;
         add_field (PyString EmptyString) 15;;
         add_field (PyString (refills_text medication)) 16;;
         add_field (PyString "0") 17;;
         add_field (PyString EmptyString) 18;;
         add_field (PyString EmptyString) 19;;
         add_field (PyString EmptyString) 20;;
         add_field (PyString EmptyString) 21;;
         add_field (PyString give_per) 22;;
         add_field (optional_text give_rate) 23;;
         add_field (optional_text give_units) 24;;
         add_field (optional_text give_strength) 25;;
         add_field (optional_text give_strength_units) 26;;
         add_field (PyString EmptyString) 27;;
         add_field (PyString EmptyString) 28;;
         add_field (PyString EmptyString) 29;;
         add_field (PyString EmptyString) 30);
  HL7Builder.segments_append r.2;;
  add_rxr_segment (MedicationItem.route medication) None.

(** [HL7Builder.add_rxd_segment]; [now] is read only when no
    [fill_datetime] is given. *)
Definition add_rxd_segment
    (now : datetime)
    (medication : MedicationItem.t Decimal datetime)
    (dispense_number : Z)
    (quantity_dispensed : option Decimal)
    (fill_datetime : option datetime)
    (days_supply : option Z)
  : Py HL7Builder.t unit :=
  self ← HL7Builder.get_self;
  r ← HL7Builder.on_segment
        (HL7Segment_init "RXD" (HL7Builder.encoding self))
        (add_field (PyString (py_str (PyInt dispense_number))) 1;;
         add_field
           (PyString
              (MedicationItem.medication_code medication +:+ "^"
                 +:+ MedicationItem.medication_name medication +:+ "^NDC")) 2;;
         add_field
           (PyString
              (match fill_datetime with
               | Some d => _format_hl7_date (IsDatetime d)
               | None => _format_hl7_date (IsDatetime now)
               end)) 3;;
         add_field
           (PyString
              (Decimal_str
                 (if truthy_decimal quantity_dispensed
                  then default (MedicationItem.quantity medication)
                         quantity_dispensed
                  else MedicationItem.quantity medication))) 4;;
         add_field (PyString (MedicationItem.unit medication)) 5;;
         add_field
           (PyString
              (dict_get HL7_TABLES_medication_form
                 (MedicationItem.form medication)
                 (MedicationItem.form medication))) 6;;
         add_field (PyString EmptyString) 7;;
         add_field (PyString (refills_text medication)) 8;;
         add_field (PyString EmptyString) 9;;
         add_field (PyString EmptyString) 10;;
         add_field
           (PyString
              (if truthy_bool (MedicationItem.substitution_allowed medication)
               then "G" else "N")) 11;;
         add_field (PyString EmptyString) 12;;
         add_field (PyString EmptyString) 13;;
         add_field (PyString EmptyString) 14;;
         add_field (PyString EmptyString) 15;;
         add_field (PyString (MedicationItem.strength medication)) 16;;
         add_field (PyString EmptyString) 17;;
         add_field (PyString EmptyString) 18;;
         add_field (PyString EmptyString) 19;;
         add_field (PyString EmptyString) 20;;
         add_field (PyString EmptyString) 21;;
         add_field (PyString EmptyString) 22;;
         add_field (PyString EmptyString) 23;;
         add_field (PyString EmptyString) 24;;
         add_field (PyString EmptyString) 25;;
         add_field (PyString EmptyString) 26;;
         add_field (PyString EmptyString) 27;;
         add_field (PyString EmptyString) 28;;
         add_field (PyString EmptyString) 29;;
         add_field (PyString EmptyString) 30;;
         add_field (PyString EmptyString) 31;;
         add_field (PyString EmptyString) 32;;
         add_field (PyString EmptyString) 33;;
         add_field (PyString EmptyString) 34;;
         add_field (PyString EmptyString) 35;;
         add_field (PyString EmptyString) 36;;
         add_field (PyString EmptyString) 37;;
         add_field (PyString EmptyString) 38);
  HL7Builder.segments_append r.2.

(** [HL7Builder.add_diagnosis_segments]; [now idx] is the clock at the
    segment of index [idx]. *)
Definition add_diagnosis_segments
    (now : Z -> datetime) (diagnoses : list (string * string))
  : Py HL7Builder.t unit :=
  for_each (enumerate diagnoses 1)
    (fun item =>
       let idx := item.1 in
       let code := item.2.1 in
       let description := item.2.2 in
       self ← HL7Builder.get_self;
       r ← HL7Builder.on_segment
             (HL7Segment_init "DG1" (HL7Builder.encoding self))
             (add_field (PyString (py_str (PyInt idx))) 1;;
              add_field (PyString "I10") 2;;
              add_field
                (PyString (code +:+ "^" +:+ description +:+ "^I10")) 3;;
              add_field (PyString EmptyString) 4;;
              add_field
                (PyString (_format_hl7_date (IsDatetime (now idx)))) 5;;
              add_field (PyString "W") 6;;
              add_field (PyString EmptyString) 7;;
              add_field (PyString EmptyString) 8;;
              add_field (PyString EmptyString) 9;;
              add_field (PyString EmptyString) 10;;
              add_field (PyString EmptyString) 11;;
              add_field (PyString EmptyString) 12;;
              add_field (PyString EmptyString) 13;;
              add_field (PyString EmptyString) 14;;
              add_field (PyString EmptyString) 15;;
              add_field (PyString EmptyString) 16;;
              add_field (PyString EmptyString) 17;;
              add_field (PyString EmptyString) 18;;
              add_field (PyString EmptyString) 19;;
              add_field (PyString EmptyString) 20;;
              add_field (PyString EmptyString) 21);
       HL7Builder.segments_append r.2).

(** [HL7Builder.add_allergy_segments]. *)
Definition add_allergy_segments (allergies : list string)
  : Py HL7Builder.t unit :=
  for_each (enumerate allergies 1)
    (fun item =>
       let idx := item.1 in
       let allergy := item.2 in
       self ← HL7Builder.get_self;
       r ← HL7Builder.on_segment
             (HL7Segment_init "AL1" (HL7Builder.encoding self))
             (add_field (PyString (py_str (PyInt idx))) 1;;
              add_field (PyString "DA") 2;;
              add_field (PyString allergy) 3;;
              add_field (PyString EmptyString) 4;;
              add_field (PyString EmptyString) 5;;
              add_field (PyString EmptyString) 6);
       HL7Builder.segments_append r.2).

(** [HL7Builder.add_nte_segment]. *)
Definition add_nte_segment (comment : string) (set_id : Z) (source : string)
  : Py HL7Builder.t unit :=
  self ← HL7Builder.get_self;
  r ← HL7Builder.on_segment
        (HL7Segment_init "NTE" (HL7Builder.encoding self))
        (add_field (PyString (py_str (PyInt set_id))) 1;;
         add_field (PyString source) 2;;
         add_field (PyString comment) 3);
  HL7Builder.segments_append r.2.

(** [create_hl7_prescription]: the program that runs on the new builder. *)
Definition create_hl7_prescription_on_builder
    (clock : Clock.t datetime) (hl7_data : HL7Data.t Decimal datetime date)
    (config : HL7Config.t)
  : Py HL7Builder.t string :=
  let patient := HL7Data.patient hl7_data in
  let info := HL7Data.prescription_info hl7_data in
  HL7Builder.add_msh_segment
    (_format_hl7_date (IsDatetime (Clock.at_header clock)));;
  add_pid_segment (Clock.at_weight clock) (Clock.at_height clock) patient;;
  add_pv1_segment "O";;
  add_orc_segment (Clock.at_header clock)
    "NW" (PrescriptionInfo.prescription_id info) EmptyString "SC" EmptyString
    None EmptyString (Some (PrescriptionInfo.prescription_date info))
    None None (Some (HL7Data.provider hl7_data));;
  (match PatientInfo.diagnoses patient with
   | _ :: _ =>
       add_diagnosis_segments (Clock.at_diagnosis clock)
         (PatientInfo.diagnoses patient)
   | [] => mret tt
   end);;
  (match PatientInfo.allergies patient with
   | _ :: _ => add_allergy_segments (PatientInfo.allergies patient)
   | [] => mret tt
   end);;
  (if truthy_str (PrescriptionInfo.clinical_notes info)
   then add_nte_segment
          (default EmptyString (PrescriptionInfo.clinical_notes info)) 1 "P"
   else mret tt);;
  for_each (enumerate (HL7Data.medications hl7_data) 1)
    (fun item =>
       let idx := item.1 in
       let medication := item.2 in
       add_rxe_segment medication "DOSE" None None None None None None;;
       if MessageType_eqb (HL7Config.message_type config) RDE
       then add_rxd_segment (Clock.at_dispense clock idx) medication idx
              None None None
       else mret tt);;
  HL7Builder.build_message
    (_format_hl7_date (IsDatetime (Clock.at_header clock))).

(** [create_hl7_prescription]. *)
Definition create_hl7_prescription
    (clock : Clock.t datetime) (hl7_data : HL7Data.t Decimal datetime date)
    (config : option HL7Config.t)
  : PyExn + string :=
  let config := default HL7Config.default config in
  let builder := HL7Builder.init (Clock.control_id_timestamp clock) config in
  (create_hl7_prescription_on_builder clock hl7_data config builder).1.

End Catalog.

(** ** What the catalog appends, for the statements *)

(** The segment that [add_allergy_segments] makes for one allergy. *)
Definition allergy_segment
    (e : HL7EncodingCharacters) (item : Z * string) : HL7Segment :=
  {| segment_id := "AL1"; encoding := e;
     fields := [ EmptyString;
                 _escape_hl7 e (py_str (PyInt item.1));
                 _escape_hl7 e "DA";
                 _escape_hl7 e item.2;
                 EmptyString; EmptyString; EmptyString ] |}.

(** The segment that [add_diagnosis_segments] makes for one diagnosis, with
    [date_text] for the formatted reading of the clock. *)
Definition diagnosis_segment
    (e : HL7EncodingCharacters) (date_text : Z -> string)
    (item : Z * (string * string)) : HL7Segment :=
  {| segment_id := "DG1"; encoding := e;
     fields := [ EmptyString;
                 _escape_hl7 e (py_str (PyInt item.1));
                 _escape_hl7 e "I10";
                 _escape_hl7 e (item.2.1 +:+ "^" +:+ item.2.2 +:+ "^I10");
                 EmptyString;
                 _escape_hl7 e (date_text item.1);
                 _escape_hl7 e "W" ]
               ++ replicate 15 EmptyString |}.

(** What [add_field] stores for an optional text. *)
Definition escape_optional (e : HL7EncodingCharacters) (o : option string)
  : string :=
  match o with Some s => _escape_hl7 e s | None => EmptyString end.

(** The fields of the segment that [add_rxr_segment] makes. *)
Definition rxr_fields
    (e : HL7EncodingCharacters) (route : string) (site : option string)
  : list string :=
  [ EmptyString;
    _escape_hl7 e
      (route +:+ "^" +:+ dict_get HL7_TABLES_route route route +:+ "^HL70162");
    if truthy_str site then escape_optional e site else EmptyString ]
  ++ replicate 4 EmptyString.

(** The fields of the header that [add_msh_segment] makes. *)
Definition msh_fields
    (e : HL7EncodingCharacters) (cfg : HL7Config.t)
    (control_id now : string) : list string :=
  [ EmptyString; EmptyString;
    _escape_hl7 e (HL7EncodingCharacters_str e);
    _escape_hl7 e (HL7Config.sending_application cfg);
    _escape_hl7 e (HL7Config.sending_facility cfg);
    _escape_hl7 e (HL7Config.receiving_application cfg);
    _escape_hl7 e (HL7Config.receiving_facility cfg);
    _escape_hl7 e now;
    EmptyString;
    _escape_hl7 e (MessageType_value (HL7Config.message_type cfg));
    _escape_hl7 e control_id;
    _escape_hl7 e (HL7Config.processing_id cfg);
    _escape_hl7 e (HL7Config.version cfg);
    EmptyString; EmptyString;
    _escape_hl7 e "AL";
    _escape_hl7 e "AL";
    _escape_hl7 e (HL7Config.country_code cfg);
    _escape_hl7 e (HL7Config.charset cfg);
    EmptyString; EmptyString ].

(** The fields of the segment that [add_orc_segment] makes, with
    [date_text] for the formatted time of the transaction. *)
Definition orc_fields
    (e : HL7EncodingCharacters)
    (order_control placer_order_number filler_order_number order_status
       response_flag : string)
    (timing_quantity : option (list string))
    (parent_order date_text : string)
    (entered_by verified_by ordering_provider : option PrescribingProvider.t)
  : list string :=
  [ EmptyString;
    _escape_hl7 e order_control;
    _escape_hl7 e placer_order_number;
    _escape_hl7 e filler_order_number;
    EmptyString;
    _escape_hl7 e order_status;
    _escape_hl7 e response_flag;
    if truthy_list timing_quantity
    then _escape_hl7 e
           (PyStr.join (component_separator e) (default [] timing_quantity))
    else EmptyString;
    _escape_hl7 e parent_order;
    _escape_hl7 e date_text;
    escape_optional e (provider_text <$> entered_by);
    escape_optional e (provider_text <$> verified_by);
    escape_optional e (provider_text <$> ordering_provider) ]
  ++ replicate 4 EmptyString.

Section CatalogSegments.
Variables Decimal datetime date : Type.
Variable Decimal_str : Decimal -> string.
Variable Decimal_bool : Decimal -> bool.
Variable strftime_datetime : datetime -> string.
Variable strftime_date : date -> string.

(** The fields of the segment that [add_rxe_segment] makes. *)
Definition rxe_fields
    (e : HL7EncodingCharacters)
    (medication : MedicationItem.t Decimal datetime) (give_per : string)
    (give_rate give_units give_strength give_strength_units : option string)
  : list string :=
  let timing := rxe_timing Decimal datetime date strftime_datetime
                  strftime_date medication in
  [ EmptyString;
    _escape_hl7 e
      (match timing with
       | _ :: _ => PyStr.join (component_separator e) timing
       | [] => EmptyString
       end);
    _escape_hl7 e
      (MedicationItem.medication_code medication +:+ "^"
         +:+ MedicationItem.medication_name medication +:+ "^NDC");
    _escape_hl7 e (Decimal_str (MedicationItem.quantity medication));
    EmptyString;
    _escape_hl7 e (MedicationItem.unit medication);
    _escape_hl7 e
      (dict_get HL7_TABLES_medication_form (MedicationItem.form medication)
         (MedicationItem.form medication));
    _escape_hl7 e
      (if truthy_str (MedicationItem.special_instructions medication)
       then MedicationItem.dosage_instruction medication +:+ "; "
              +:+ default EmptyString
                    (MedicationItem.special_instructions medication)
       else MedicationItem.dosage_instruction medication);
    EmptyString;
    _escape_hl7 e
      (if truthy_bool (MedicationItem.substitution_allowed medication)
       then "G" else "N");
    _escape_hl7 e (Decimal_str (MedicationItem.quantity medication));
    _escape_hl7 e (MedicationItem.unit medication);
    _escape_hl7 e (refills_text Decimal datetime medication);
    EmptyString; EmptyString; EmptyString;
    _escape_hl7 e (refills_text Decimal datetime medication);
    _escape_hl7 e "0";
    EmptyString; EmptyString; EmptyString; EmptyString;
    _escape_hl7 e give_per;
    escape_optional e give_rate;
    escape_optional e give_units;
    escape_optional e give_strength;
    escape_optional e give_strength_units ]
  ++ replicate 4 EmptyString.

(** The fields of the segment that [add_rxd_segment] makes, with
    [date_text] for the formatted time of the fill. *)
Definition rxd_fields
    (e : HL7EncodingCharacters)
    (medication : MedicationItem.t Decimal datetime) (dispense_number : Z)
    (quantity_dispensed : option Decimal) (date_text : string)
  : list string :=
  [ EmptyString;
    _escape_hl7 e (py_str (PyInt dispense_number));
    _escape_hl7 e
      (MedicationItem.medication_code medication +:+ "^"
         +:+ MedicationItem.medication_name medication +:+ "^NDC");
    _escape_hl7 e date_text;
    _escape_hl7 e
      (Decimal_str
         (if truthy_decimal Decimal Decimal_bool quantity_dispensed
          then default (MedicationItem.quantity medication) quantity_dispensed
          else MedicationItem.quantity medication));
    _escape_hl7 e (MedicationItem.unit medication);
    _escape_hl7 e
      (dict_get HL7_TABLES_medication_form (MedicationItem.form medication)
         (MedicationItem.form medication));
    EmptyString;
    _escape_hl7 e (refills_text Decimal datetime medication);
    EmptyString; EmptyString;
    _escape_hl7 e
      (if truthy_bool (MedicationItem.substitution_allowed medication)
       then "G" else "N");
    EmptyString; EmptyString; EmptyString; EmptyString;
    _escape_hl7 e (MedicationItem.strength medication) ]
  ++ replicate 22 EmptyString.

(** The fields of an observation segment of [add_pid_segment], the [n]-th
    observation of the message. *)
Definition obx_fields
    (e : HL7EncodingCharacters) (n : Z) (code : string) (value : Decimal)
    (units date_text : string) : list string :=
  [ EmptyString;
    _escape_hl7 e (py_str (PyInt n));
    _escape_hl7 e "NM";
    _escape_hl7 e code;
    EmptyString;
    _escape_hl7 e (Decimal_str value);
    _escape_hl7 e units;
    EmptyString; EmptyString; EmptyString; EmptyString;
    _escape_hl7 e "F";
    EmptyString; EmptyString;
    _escape_hl7 e date_text;
    EmptyString; EmptyString ].

End CatalogSegments.

(** The text that [_format_name] returns. *)
Definition formatted_name (name : string) : string :=
  let parts := split_whitespace name in
  if 2 <=? Z.of_nat (length parts)
  then default EmptyString (last parts) +:+ "^"
         +:+ default EmptyString (head parts) +:+ "^"
         +:+ PyStr.join "^" (slice_1_m1 parts)
  else name.

(** The fields of the patient segment that [add_pid_segment] makes, with
    [birth_text] for the formatted date of birth. *)
Definition pid_fields
    (e : HL7EncodingCharacters) (cfg : HL7Config.t)
    (patient_id name birth_text gender : string) : list string :=
  [ EmptyString;
    _escape_hl7 e "1";
    EmptyString;
    _escape_hl7 e
      (patient_id +:+ "^^" +:+ HL7Config.sending_facility cfg +:+ "^MR");
    EmptyString;
    _escape_hl7 e (formatted_name name);
    EmptyString;
    _escape_hl7 e birth_text;
    _escape_hl7 e gender ]
  ++ replicate 22 EmptyString.

(** The number of observation segments among [segs]. *)
Definition obx_count (segs : list HL7Segment) : Z :=
  Z.of_nat
    (length (List.filter (fun s => String.eqb (segment_id s) "OBX") segs)).

(** [s] holds a white-space character. *)
Fixpoint has_space (s : string) : bool :=
  match s with
  | EmptyString => false
  | String a s' => is_space a || has_space s'
  end.

Section PatientSegments.
Variables Decimal datetime date : Type.
Variable Decimal_str : Decimal -> string.
Variable Decimal_bool : Decimal -> bool.
Variable strftime_datetime : datetime -> string.
Variable strftime_date : date -> string.

(** The observation segment for a measurement, when there is one and it
    counts as true; [n] is its number. *)
Definition observation_segments
    (e : HL7EncodingCharacters) (n : Z) (code : string)
    (measurement : option Decimal) (units : string) (now : datetime)
  : list HL7Segment :=
  match measurement with
  | Some value =>
      if Decimal_bool value
      then [ {| segment_id := "OBX"; encoding := e;
                fields := obx_fields Decimal Decimal_str e n code value units
                            (strftime_datetime now) |} ]
      else []
  | None => []
  end.

(** The segments that [add_pid_segment] appends to a builder with encoding
    [e] and configuration [cfg] that holds [count] observation segments. *)
Definition patient_segments
    (e : HL7EncodingCharacters) (cfg : HL7Config.t) (count : Z)
    (now_weight now_height : datetime) (patient : PatientInfo.t Decimal date)
  : list HL7Segment :=
  let weight :=
    observation_segments e (count + 1) "3141-9^Body weight Measured^LN"
      (PatientInfo.weight_kg patient) "kg" now_weight in
  let height :=
    observation_segments e (count + Z.of_nat (length weight) + 1)
      "8302-2^Body height^LN" (PatientInfo.height_cm patient) "cm"
      now_height in
  {| segment_id := "PID"; encoding := e;
     fields := pid_fields e cfg (PatientInfo.patient_id patient)
                 (PatientInfo.name patient)
                 (strftime_date (PatientInfo.date_of_birth patient))
                 (PatientInfo.gender patient) |}
  :: weight ++ height.

End PatientSegments.

Section PrescriptionSegments.
Variables Decimal datetime date : Type.
Variable Decimal_str : Decimal -> string.
Variable Decimal_bool : Decimal -> bool.
Variable strftime_datetime : datetime -> string.
Variable strftime_date : date -> string.

(** The segments that [create_hl7_prescription] appends for one medication:
    the order, its route and, for the message type [RDE], the dispense
    record. *)
Definition medication_segments
    (message_type : MessageType) (now : Z -> datetime)
    (e : HL7EncodingCharacters)
    (item : Z * MedicationItem.t Decimal datetime) : list HL7Segment :=
  [ {| segment_id := "RXE"; encoding := e;
       fields := rxe_fields Decimal datetime date Decimal_str
                   strftime_datetime strftime_date e item.2 "DOSE"
                   None None None None |};
    {| segment_id := "RXR"; encoding := e;
       fields := rxr_fields e (MedicationItem.route item.2) None |} ]
  ++ (if MessageType_eqb message_type RDE
      then [ {| segment_id := "RXD"; encoding := e;
                fields := rxd_fields Decimal datetime Decimal_str Decimal_bool
                            e item.2 item.1 None
                            (strftime_datetime (now item.1)) |} ]
      else []).

(** The segments that [create_hl7_prescription] appends to a builder with
    encoding [e], configuration [cfg] and control id [control_id] that holds
    [count] observation segments, in the order in which they are appended. *)
Definition prescription_segments
    (e : HL7EncodingCharacters) (cfg : HL7Config.t) (control_id : string)
    (count : Z) (clock : Clock.t datetime)
    (hl7_data : HL7Data.t Decimal datetime date) (config : HL7Config.t)
  : list HL7Segment :=
  let patient := HL7Data.patient hl7_data in
  let info := HL7Data.prescription_info hl7_data in
  [ {| segment_id := "MSH"; encoding := e;
       fields := msh_fields e cfg control_id
                   (strftime_datetime (Clock.at_header clock)) |} ]
  ++ patient_segments Decimal datetime date Decimal_str Decimal_bool
       strftime_datetime strftime_date e cfg count
       (Clock.at_weight clock) (Clock.at_height clock) patient
  ++ [ {| segment_id := "PV1"; encoding := e;
          fields := [ EmptyString; _escape_hl7 e "1"; _escape_hl7 e "O" ]
                    ++ replicate 48 EmptyString |};
       {| segment_id := "ORC"; encoding := e;
          fields := orc_fields e "NW" (PrescriptionInfo.prescription_id info)
                      EmptyString "SC" EmptyString None EmptyString
                      (strftime_datetime
                         (PrescriptionInfo.prescription_date info))
                      None None (Some (HL7Data.provider hl7_data)) |} ]
  ++ map (diagnosis_segment e
            (fun idx => strftime_datetime (Clock.at_diagnosis clock idx)))
       (enumerate (PatientInfo.diagnoses patient) 1)
  ++ map (allergy_segment e) (enumerate (PatientInfo.allergies patient) 1)
  ++ (if truthy_str (PrescriptionInfo.clinical_notes info)
      then [ {| segment_id := "NTE"; encoding := e;
                fields :=
                  [ EmptyString;
                    _escape_hl7 e (py_str (PyInt 1));
                    _escape_hl7 e "P";
                    _escape_hl7 e
                      (default EmptyString
                         (PrescriptionInfo.clinical_notes info)) ] |} ]
      else [])
  ++ concat
       (map (medication_segments (HL7Config.message_type config)
               (Clock.at_dispense clock) e)
          (enumerate (HL7Data.medications hl7_data) 1)).

(** The tags of the segments of [create_hl7_prescription]. *)
Definition prescription_tags
    (hl7_data : HL7Data.t Decimal datetime date) (config : HL7Config.t)
  : list string :=
  let patient := HL7Data.patient hl7_data in
  [ "MSH"; "PID" ]
  ++ (if truthy_decimal Decimal Decimal_bool (PatientInfo.weight_kg patient)
      then ["OBX"] else [])
  ++ (if truthy_decimal Decimal Decimal_bool (PatientInfo.height_cm patient)
      then ["OBX"] else [])
  ++ [ "PV1"; "ORC" ]
  ++ replicate (length (PatientInfo.diagnoses patient)) "DG1"
  ++ replicate (length (PatientInfo.allergies patient)) "AL1"
  ++ (if truthy_str
           (PrescriptionInfo.clinical_notes
              (HL7Data.prescription_info hl7_data))
      then ["NTE"] else [])
  ++ concat
       (map (fun _ : MedicationItem.t Decimal datetime =>
               [ "RXE"; "RXR" ]
               ++ (if MessageType_eqb (HL7Config.message_type config) RDE
                   then ["RXD"] else []))
          (HL7Data.medications hl7_data)).

End PrescriptionSegments.

(** ** A prescription, for the examples

    [Decimal] is taken as [Z] and the times as their formatted texts. *)
Definition example_medication : MedicationItem.t Z string := {|
  MedicationItem.medication_code := "C09AA01";
  MedicationItem.medication_name := "Lisinopril";
  MedicationItem.form := "TAB";
  MedicationItem.strength := "10 mg";
  MedicationItem.quantity := 30;
  MedicationItem.unit := "TAB";
  MedicationItem.dosage_instruction := "Take 1 tablet once daily";
  MedicationItem.route := "PO";
  MedicationItem.duration_days := Some 30;
  MedicationItem.refills := Some 3;
  MedicationItem.special_instructions := None;
  MedicationItem.substitution_allowed := Some true;
  MedicationItem.frequency := Some "QD";
  MedicationItem.start_datetime := None;
  MedicationItem.end_datetime := None
|}.

Definition example_data : HL7Data.t Z string string := {|
  HL7Data.patient := {|
    PatientInfo.patient_id := "PAT123456789";
    PatientInfo.name := "John Doe";
    PatientInfo.date_of_birth := "19800515";
    PatientInfo.gender := "M";
    PatientInfo.weight_kg := Some 85;
    PatientInfo.height_cm := None;
    PatientInfo.allergies := ["Penicillin"; "Sulfa drugs"];
    PatientInfo.diagnoses := [("I10", EmptyString)]
  |};
  HL7Data.provider := {|
    PrescribingProvider.id := "DOC987654321";
    PrescribingProvider.name := "Dr. Jane Smith";
    PrescribingProvider.qualification := Some "MD";
    PrescribingProvider.specialty := None;
    PrescribingProvider.contact := None;
    PrescribingProvider.address := None
  |};
  HL7Data.medications := [example_medication];
  HL7Data.prescription_info := {|
    PrescriptionInfo.prescription_id := "RX2025-0509-001";
    PrescriptionInfo.prescription_date := "20241210000000";
    PrescriptionInfo.clinical_notes := Some "Monitor blood pressure."
  |}
|}.

Definition example_clock : Clock.t string := {|
  Clock.control_id_timestamp := "20240101120000000";
  Clock.at_header := "20240101120000";
  Clock.at_weight := "20240101120001";
  Clock.at_height := "20240101120002";
  Clock.at_diagnosis := fun _ => "20240101120003";
  Clock.at_dispense := fun _ => "20240101120004"
|}.

(** [create_hl7_prescription] on the example. *)
Definition example_create (config : option HL7Config.t) : PyExn + string :=
  create_hl7_prescription Z string string
    (fun d => py_str (PyInt d)) (fun d => negb (d =? 0))
    (fun t => t) (fun t => t) example_clock example_data config.

(** * Properties *)

(** ** Lists *)

Section Lists.
Context {A : Type}.
Implicit Types (l : list A) (x : A) (n i : Z).

Lemma append_while_shorter_replicate k n x l :
  k = Z.to_nat (n - Z.of_nat (length l)) ->
  append_while_shorter k n x l = l ++ replicate k x.
Proof.
  revert l. induction k as [|k IH]; intros l Hk; simpl.
  - by rewrite app_nil_r.
  - destruct (Z.ltb_spec (Z.of_nat (length l)) n) as [Hlt|Hge]; [|lia].
    rewrite IH.
    + by rewrite <- app_assoc.
    + rewrite length_app. simpl. lia.
Qed.

(** The padding loop appends exactly the missing entries. *)
Lemma pad_to_replicate n x l :
  pad_to n x l = l ++ replicate (Z.to_nat (n - Z.of_nat (length l))) x.
Proof. unfold pad_to. by apply append_while_shorter_replicate. Qed.

(** It leaves through its guard: the list is no longer shorter than [n]. *)
Lemma pad_to_length n x l :
  Z.of_nat (length (pad_to n x l)) = Z.max n (Z.of_nat (length l)).
Proof. rewrite pad_to_replicate, length_app, length_replicate. lia. Qed.

Lemma pad_to_already n x l : n <= Z.of_nat (length l) -> pad_to n x l = l.
Proof.
  intros H. rewrite pad_to_replicate.
  replace (Z.to_nat (n - Z.of_nat (length l))) with O by lia.
  apply app_nil_r.
Qed.

Lemma py_index_in_range (len : nat) i :
  0 <= i < Z.of_nat len -> py_index len i = Some (Z.to_nat i).
Proof.
  intros H. unfold py_index.
  destruct (Z.ltb_spec i 0); [lia|].
  destruct (Z.leb_spec 0 i); [|lia].
  destruct (Z.ltb_spec i (Z.of_nat len)); [done|lia].
Qed.

Lemma py_setitem_in_range l i x :
  0 <= i < Z.of_nat (length l) ->
  py_setitem l i x = Some (<[ Z.to_nat i := x ]> l).
Proof. intros H. unfold py_setitem. by rewrite py_index_in_range. Qed.

Lemma py_getitem_in_range l i :
  0 <= i < Z.of_nat (length l) -> py_getitem l i = l !! Z.to_nat i.
Proof. intros H. unfold py_getitem. by rewrite py_index_in_range. Qed.

End Lists.

(** ** Segment operations *)

Lemma with_fields_same self : with_fields self (fields self) = self.
Proof. by destruct self. Qed.

(** Runs the primitive steps of a method. *)
Ltac run_method :=
  repeat (progress (unfold mbind, py_bind, mret, py_ret, raise, get_fields,
                      get_encoding, put_fields, fields_append, fields_setitem,
                      fields_getitem; cbn)).

(** [add_field] never raises: it pads up to length [position] and then
    appends the text, which so lands at index [position] (counted from 0)
    when the list was shorter than [position]. *)
Lemma add_field_run value position self :
  add_field value position self =
    (inr tt,
     with_fields self
       (fields self
          ++ replicate (Z.to_nat (position - Z.of_nat (length (fields self))))
               EmptyString
          ++ [stored_text (encoding self) value])).
Proof.
  unfold add_field, with_fields. run_method. rewrite pad_to_replicate.
  destruct value; run_method; by rewrite <- app_assoc.
Qed.

(** [set_field] below position 1. *)
Lemma set_field_invalid value position self :
  position < 1 ->
  set_field value position self =
    (inl (ValueError "Position must be >= 1"), self).
Proof.
  intros H. unfold set_field.
  by destruct (Z.ltb_spec position 1); [|lia].
Qed.

(** [set_field] at a position the list already has: the entry is
    overwritten in place. *)
Lemma set_field_within value position self :
  1 <= position <= Z.of_nat (length (fields self)) ->
  set_field value position self =
    (inr tt,
     with_fields self
       (<[ Z.to_nat (position - 1) := stored_text (encoding self) value ]>
          (fields self))).
Proof.
  intros H. unfold set_field.
  destruct (Z.ltb_spec position 1); [lia|].
  run_method.
  destruct (Z.ltb_spec (Z.of_nat (length (fields self))) position); [lia|].
  destruct value; run_method; by rewrite py_setitem_in_range by lia.
Qed.

(** [set_field] at a position beyond the list: the work is left to
    [add_field]. *)
Lemma set_field_beyond value position self :
  1 <= position -> Z.of_nat (length (fields self)) < position ->
  set_field value position self =
    (inr tt,
     with_fields self
       (fields self
          ++ replicate (Z.to_nat (position - Z.of_nat (length (fields self))))
               EmptyString
          ++ [stored_text (encoding self) value])).
Proof.
  intros H1 H2. unfold set_field.
  destruct (Z.ltb_spec position 1); [lia|].
  unfold mbind at 1, py_bind at 1, get_fields. cbn.
  destruct (Z.ltb_spec (Z.of_nat (length (fields self))) position); [|lia].
  apply add_field_run.
Qed.

(** In that case the requested position reads empty and the text is found
    one position later. *)
Lemma set_field_beyond_lookup value position self :
  1 <= position -> Z.of_nat (length (fields self)) < position ->
  let fs := fields (set_field value position self).2 in
  fs !! Z.to_nat (position - 1) = Some EmptyString /\
  fs !! Z.to_nat position = Some (stored_text (encoding self) value) /\
  Z.of_nat (length fs) = position + 1.
Proof.
  intros H1 H2. rewrite set_field_beyond by done. cbn.
  set (n := length (fields self)) in *.
  set (k := Z.to_nat (position - Z.of_nat n)).
  assert (Hk : (0 < k)%nat) by lia.
  split; [|split].
  - rewrite lookup_app_r by lia. rewrite lookup_app_l.
    + apply lookup_replicate_2. lia.
    + rewrite length_replicate. lia.
  - rewrite lookup_app_r by lia. rewrite lookup_app_r.
    + rewrite length_replicate.
      by replace (Z.to_nat position - length (fields self) - k)%nat
        with O by lia.
    + rewrite length_replicate. lia.
  - rewrite !length_app, length_replicate. cbn. lia.
Qed.

Lemma ensured_fields_length field_pos fs :
  field_pos <= Z.of_nat (length (ensured_fields field_pos fs)) /\
  (length fs <= length (ensured_fields field_pos fs))%nat.
Proof.
  unfold ensured_fields.
  destruct (Z.ltb_spec (Z.of_nat (length fs)) field_pos); [|lia].
  rewrite !length_app, length_replicate. cbn. lia.
Qed.

Lemma ensured_fields_lookup field_pos fs (i : nat) :
  (i < length fs)%nat -> ensured_fields field_pos fs !! i = fs !! i.
Proof.
  intros H. unfold ensured_fields.
  destruct (Z.ltb_spec (Z.of_nat (length fs)) field_pos); [|done].
  by rewrite lookup_app_l.
Qed.

(** [add_component] below position 1, in either argument. *)
Lemma add_component_invalid value field_pos comp_pos self :
  field_pos < 1 \/ comp_pos < 1 ->
  add_component value field_pos comp_pos self =
    (inl (ValueError "Positions must be >= 1"), self).
Proof.
  intros H. unfold add_component.
  destruct (Z.ltb_spec field_pos 1), (Z.ltb_spec comp_pos 1); try done; lia.
Qed.

(** [add_component] at positions from 1 on: no index is out of range, and
    only the field at [field_pos] is rewritten. *)
Lemma add_component_run value field_pos comp_pos self :
  1 <= field_pos -> 1 <= comp_pos ->
  let e := encoding self in
  let fs := ensured_fields field_pos (fields self) in
  exists field,
    fs !! Z.to_nat (field_pos - 1) = Some field /\
    add_component value field_pos comp_pos self =
      (inr tt,
       with_fields self
         (<[ Z.to_nat (field_pos - 1) :=
               PyStr.join (component_separator e)
                 (<[ Z.to_nat (comp_pos - 1) := component_text e value ]>
                    (pad_to comp_pos EmptyString
                       (components_of (component_separator e) field))) ]>
            fs)).
Proof.
  intros Hf Hc e fs.
  destruct (ensured_fields_length field_pos (fields self)) as [Hlen _].
  fold fs in Hlen.
  destruct (lookup_lt_is_Some_2 fs (Z.to_nat (field_pos - 1))) as [field Hfield];
    [lia|].
  exists field. split; [done|].
  unfold add_component.
  destruct (Z.ltb_spec field_pos 1); [lia|].
  destruct (Z.ltb_spec comp_pos 1); [lia|]. cbn [orb].
  unfold mbind at 1, py_bind at 1, get_fields. cbn.
  assert (Hstep :
    (if Z.of_nat (length (fields self)) <? field_pos
     then add_field (PyString EmptyString) field_pos
     else mret tt) self = (inr tt, with_fields self fs)).
  { subst fs. unfold ensured_fields.
    destruct (Z.ltb_spec (Z.of_nat (length (fields self))) field_pos).
    - by rewrite add_field_run.
    - unfold mret, py_ret. by rewrite with_fields_same. }
  unfold mbind at 1, py_bind at 1. rewrite Hstep.
  run_method.
  rewrite py_getitem_in_range by lia. rewrite Hfield. cbn.
  fold e. fold (components_of (component_separator e) field).
  fold (component_text e value).
  rewrite py_setitem_in_range.
  - cbn. by rewrite py_setitem_in_range by lia.
  - pose proof (pad_to_length comp_pos EmptyString
                  (components_of (component_separator e) field)).
    lia.
Qed.

(** A second [set_field] with the same arguments overwrites the entry at
    [position - 1] of what the first call left. *)
Lemma set_field_again value position self :
  1 <= position ->
  (set_field value position;; set_field value position) self =
    (inr tt,
     with_fields self
       (<[ Z.to_nat (position - 1) := stored_text (encoding self) value ]>
          (fields (set_field value position self).2))).
Proof.
  intros H. unfold mbind, py_bind.
  destruct (Z.lt_ge_cases (Z.of_nat (length (fields self))) position) as [Hlt|Hge].
  - destruct (set_field_beyond_lookup value position self H Hlt) as (_ & _ & Hlen).
    rewrite set_field_beyond in * by done. cbn in Hlen.
    rewrite set_field_within by (cbn; lia). done.
  - rewrite set_field_within by lia.
    rewrite set_field_within by (cbn; rewrite length_insert; lia). done.
Qed.

(** Within the list a repeated [set_field] changes nothing further. *)
Lemma set_field_again_within value position self :
  1 <= position <= Z.of_nat (length (fields self)) ->
  (set_field value position;; set_field value position) self =
    set_field value position self.
Proof.
  intros H. rewrite set_field_again by lia.
  rewrite set_field_within by done. cbn.
  by rewrite list_insert_insert_eq.
Qed.

(** Beyond the list it does: the first call leaves the requested position
    empty, the second one fills it. *)
Lemma set_field_again_beyond value position self :
  1 <= position -> Z.of_nat (length (fields self)) < position ->
  fields (set_field value position self).2 !! Z.to_nat (position - 1)
    = Some EmptyString /\
  fields ((set_field value position;; set_field value position) self).2
    !! Z.to_nat (position - 1)
    = Some (stored_text (encoding self) value).
Proof.
  intros H1 H2.
  destruct (set_field_beyond_lookup value position self H1 H2) as (H0 & _ & Hlen).
  split; [done|].
  rewrite set_field_again by done. cbn.
  apply list_lookup_insert_eq. lia.
Qed.

(** ** Splitting and joining *)

Section Strings.
Variable sep : ascii.

Lemma contains_app c (s t : string) :
  PyStr.contains c (s +:+ t) = PyStr.contains c s || PyStr.contains c t.
Proof. induction s as [|a s IH]; simpl; [done|]. by rewrite IH, orb_assoc. Qed.

Lemma split_not_nil (s : string) : PyStr.split sep s <> [].
Proof.
  destruct s as [|a s]; simpl; [done|].
  destruct (Ascii.eqb a sep); [done|].
  by destruct (PyStr.split sep s).
Qed.

(** A part between two separators holds no separator. *)
Lemma split_parts_clean (s : string) :
  Forall (fun part => PyStr.contains sep part = false) (PyStr.split sep s).
Proof.
  induction s as [|a s IH]; simpl.
  - by constructor.
  - destruct (Ascii.eqb a sep) eqn:Ha.
    + by constructor.
    + destruct (PyStr.split sep s) as [|w ws].
      * constructor; [|constructor]. simpl. by rewrite Ha.
      * inversion_clear IH as [|? ? Hw Hws].
        constructor; [|done]. simpl. by rewrite Ha.
Qed.

Lemma split_clean (s : string) :
  PyStr.contains sep s = false -> PyStr.split sep s = [s].
Proof.
  induction s as [|a s IH]; simpl; [done|].
  destruct (Ascii.eqb a sep); simpl; [done|].
  intros H. by rewrite IH.
Qed.

Lemma split_app_sep (s t : string) :
  PyStr.contains sep s = false ->
  PyStr.split sep (s +:+ String sep t) = s :: PyStr.split sep t.
Proof.
  induction s as [|a s IH]; simpl.
  - by rewrite Ascii.eqb_refl.
  - destruct (Ascii.eqb a sep); simpl; [done|].
    intros H. by rewrite IH.
Qed.

(** Splitting undoes joining when there is a part to join and no part holds
    the separator. *)
Lemma split_join (parts : list string) :
  parts <> [] ->
  Forall (fun part => PyStr.contains sep part = false) parts ->
  PyStr.split sep (PyStr.join sep parts) = parts.
Proof.
  intros Hne Hclean. unfold PyStr.join.
  induction Hclean as [|p parts Hp Hparts IH]; [done|].
  destruct parts as [|q parts].
  - by apply split_clean.
  - change (String.concat (String sep EmptyString) (p :: q :: parts))
      with (p +:+ String sep
                    (String.concat (String sep EmptyString) (q :: parts))).
    rewrite split_app_sep by done. f_equal. by apply IH.
Qed.

(** Text written in place of [c] that is free of [a] leaves a string free
    of [a], when the string was so or [c] is [a] itself. *)
Lemma replace_clean a c (r s : string) :
  PyStr.contains a r = false ->
  PyStr.contains a s = false \/ c = a ->
  PyStr.contains a (PyStr.replace c r s) = false.
Proof.
  intros Hr. induction s as [|b s IH]; simpl; [done|].
  intros Hs. destruct (Ascii.eqb_spec b c) as [->|Hbc].
  - rewrite contains_app, Hr. simpl. apply IH.
    destruct Hs as [Hs| ->]; [|by right].
    left. by apply orb_false_elim in Hs as [_ ?].
  - simpl. destruct Hs as [Hs| ->].
    + apply orb_false_elim in Hs as [-> Hs]. simpl. apply IH. by left.
    + destruct (Ascii.eqb_spec b a) as [->|_]; [done|]. simpl. apply IH. by right.
Qed.

End Strings.

(** With the separators of the source, escaped text holds no component
    separator. *)
Lemma escape_has_no_component_separator (s : string) :
  PyStr.contains HL7_SEPARATORS.component
    (_escape_hl7 HL7EncodingCharacters_init s) = false.
Proof.
  unfold _escape_hl7. destruct (PyStr.nonempty s); cbn [negb]; [|done].
  change (escape_map HL7EncodingCharacters_init)
    with [("|"%char, "\F\"); ("^"%char, "\S\"); ("~"%char, "\R\");
          ("\"%char, "\E\"); ("&"%char, "\T\")].
  cbn [fold_left].
  do 3 (apply replace_clean; [done|left]).
  apply replace_clean; [done|by right].
Qed.

(** ** [add_component], read back *)

(** After [add_component] at positions from 1 on, on a segment with the
    separators of the source, the field at [field_pos] splits into the
    components it had, padded up to [comp_pos], with the one at [comp_pos]
    replaced by the text stored for [value]. *)
Lemma add_component_read_back value field_pos comp_pos self :
  encoding self = HL7EncodingCharacters_init ->
  1 <= field_pos -> 1 <= comp_pos ->
  let sep := HL7_SEPARATORS.component in
  exists old new,
    ensured_fields field_pos (fields self) !! Z.to_nat (field_pos - 1)
      = Some old /\
    fields (add_component value field_pos comp_pos self).2
      !! Z.to_nat (field_pos - 1) = Some new /\
    PyStr.split sep new =
      <[ Z.to_nat (comp_pos - 1) :=
           component_text HL7EncodingCharacters_init value ]>
        (pad_to comp_pos EmptyString (components_of sep old)).
Proof.
  intros He Hf Hc sep.
  destruct (add_component_run value field_pos comp_pos self Hf Hc)
    as (old & Hold & ->).
  rewrite He. cbn [component_separator HL7EncodingCharacters_init]. fold sep.
  destruct (ensured_fields_length field_pos (fields self)) as [Hlen _].
  pose proof (pad_to_length comp_pos EmptyString (components_of sep old)) as Hpad.
  eexists old, _. split; [done|]. split.
  { cbn. apply list_lookup_insert_eq. lia. }
  apply split_join.
  - intros Hnil. apply (f_equal length) in Hnil.
    rewrite length_insert in Hnil. cbn in Hnil. lia.
  - apply Forall_insert.
    + rewrite pad_to_replicate. apply Forall_app. split.
      * unfold components_of. destruct (PyStr.nonempty old); [|done].
        apply split_parts_clean.
      * by apply Forall_replicate.
    + unfold component_text. destruct (truthy value); [|done].
      apply escape_has_no_component_separator.
Qed.

(** For a value that counts as true, the claim on component addressing
    holds: the field splits into at least [comp_pos] components, the one at
    [comp_pos] is the escaped text of the value, and the components that were
    there at other positions are kept. *)
Lemma add_component_truthy value field_pos comp_pos self :
  encoding self = HL7EncodingCharacters_init ->
  1 <= field_pos -> 1 <= comp_pos -> truthy value = true ->
  let sep := HL7_SEPARATORS.component in
  exists old new,
    ensured_fields field_pos (fields self) !! Z.to_nat (field_pos - 1)
      = Some old /\
    fields (add_component value field_pos comp_pos self).2
      !! Z.to_nat (field_pos - 1) = Some new /\
    comp_pos <= Z.of_nat (length (PyStr.split sep new)) /\
    PyStr.split sep new !! Z.to_nat (comp_pos - 1)
      = Some (_escape_hl7 HL7EncodingCharacters_init (py_str value)) /\
    (length (components_of sep old) <= length (PyStr.split sep new))%nat /\
    forall j : nat,
      (j < length (components_of sep old))%nat ->
      j <> Z.to_nat (comp_pos - 1) ->
      PyStr.split sep new !! j = components_of sep old !! j.
Proof.
  intros He Hf Hc Hv sep.
  destruct (add_component_read_back value field_pos comp_pos self He Hf Hc)
    as (old & new & Hold & Hnew & Hsplit).
  fold sep in Hsplit.
  pose proof (pad_to_length comp_pos EmptyString (components_of sep old)) as Hpad.
  exists old, new. rewrite Hsplit, length_insert.
  split; [done|]. split; [done|]. split; [lia|]. split; [|split].
  - unfold component_text. rewrite Hv. apply list_lookup_insert_eq. lia.
  - lia.
  - intros j Hj Hne. rewrite list_lookup_insert_ne by done.
    rewrite pad_to_replicate. by apply lookup_app_l.
Qed.

(** ** Claims on the segment operations *)

(** C1 (defect of the code).  On a segment without fields,
    [set_field("X", 1)] returns normally and leaves two fields, the empty
    string and [X]: position 1, the position asked for, reads as the empty
    string and not as the escaped value [X], which is found at position 2.  The padding loop of
    [add_field] runs up to and including the target position.  The branch of
    [set_field] for a position that exists writes at [position - 1]
    ([set_field_within]); [set_field_beyond_lookup] gives the general
    statement of the late write. *)
Theorem set_field_on_empty_segment_writes_one_late :
  (set_field (PyString "X") 1 empty_segment).1 = inr tt /\
  fields (set_field (PyString "X") 1 empty_segment).2 = [EmptyString; "X"] /\
  fields (set_field (PyString "X") 1 empty_segment).2 !! Z.to_nat (1 - 1)
    = Some EmptyString /\
  fields (set_field (PyString "X") 1 empty_segment).2 !! Z.to_nat (1 - 1)
    <> Some (_escape_hl7 HL7EncodingCharacters_init (py_str (PyString "X"))).
Proof. repeat split; discriminate. Qed.

(** C3 (defect of the code).  On a segment without fields, one call of
    [set_field("X", 1)] leaves the empty string and [X], and two calls leave
    [X] and [X]: the second call is not a repetition without effect, and the
    value is then stored twice.  [set_field_again_within] shows that the
    repetition changes nothing when the position exists beforehand, and
    [set_field_again_beyond] that otherwise the requested position reads
    empty after one call and holds the text after two. *)
Theorem set_field_twice_on_empty_segment_differs :
  fields (set_field (PyString "X") 1 empty_segment).2 = [EmptyString; "X"] /\
  fields ((set_field (PyString "X") 1;; set_field (PyString "X") 1)
            empty_segment).2 = ["X"; "X"] /\
  fields ((set_field (PyString "X") 1;; set_field (PyString "X") 1)
            empty_segment).2
    <> fields (set_field (PyString "X") 1 empty_segment).2.
Proof. repeat split; discriminate. Qed.

(** C4 (defect of the code).  On a segment without fields,
    [add_component(0, 1, 1)] returns normally, and component 1 of field 1
    then reads as the empty string, while [escape(str(0))] is ["0"], the
    text that [add_field] and [set_field] store for the same value: the
    test [if value] of [add_component] takes the number zero for an absent
    value.  [add_component_truthy] shows that the claim holds for the values
    that count as true. *)
Theorem add_component_drops_zero :
  (add_component (PyInt 0) 1 1 empty_segment).1 = inr tt /\
  fields (add_component (PyInt 0) 1 1 empty_segment).2 !! Z.to_nat (1 - 1)
    = Some EmptyString /\
  PyStr.split HL7_SEPARATORS.component EmptyString !! Z.to_nat (1 - 1)
    = Some EmptyString /\
  _escape_hl7 HL7EncodingCharacters_init (py_str (PyInt 0)) = "0" /\
  stored_text HL7EncodingCharacters_init (PyInt 0) = "0" /\
  component_text HL7EncodingCharacters_init (PyInt 0) = EmptyString.
Proof. repeat split. Qed.

(** C6.  [set_field] raises the invalid-position error ([ValueError]) exactly
    when [position < 1], and [add_component] exactly when [field_pos < 1] or
    [comp_pos < 1]; when the error is raised the segment is as it was before
    the call; for positions from 1 on both operations return normally. *)
Theorem invalid_position_raised_iff
    (value : PyValue) (position field_pos comp_pos : Z) (self : HL7Segment) :
  ((exists msg, (set_field value position self).1 = inl (ValueError msg))
     <-> position < 1) /\
  (position < 1 -> (set_field value position self).2 = self) /\
  (1 <= position -> (set_field value position self).1 = inr tt) /\
  ((exists msg,
      (add_component value field_pos comp_pos self).1 = inl (ValueError msg))
     <-> field_pos < 1 \/ comp_pos < 1) /\
  (field_pos < 1 \/ comp_pos < 1 ->
     (add_component value field_pos comp_pos self).2 = self) /\
  (1 <= field_pos /\ 1 <= comp_pos ->
     (add_component value field_pos comp_pos self).1 = inr tt).
Proof.
  assert (Hset : 1 <= position -> (set_field value position self).1 = inr tt).
  { intros H.
    destruct (Z.lt_ge_cases (Z.of_nat (length (fields self))) position).
    - by rewrite set_field_beyond.
    - by rewrite set_field_within by lia. }
  assert (Hcomp : 1 <= field_pos /\ 1 <= comp_pos ->
            (add_component value field_pos comp_pos self).1 = inr tt).
  { intros [Hf Hc].
    destruct (add_component_run value field_pos comp_pos self Hf Hc)
      as (field & _ & ->). done. }
  repeat split.
  - intros [msg Hmsg]. destruct (Z.lt_ge_cases position 1) as [|Hge]; [done|].
    rewrite Hset in Hmsg by done. discriminate.
  - intros H. rewrite set_field_invalid by done. eauto.
  - intros H. by rewrite set_field_invalid.
  - done.
  - intros [msg Hmsg].
    destruct (Z.lt_ge_cases field_pos 1) as [|Hf]; [by left|].
    destruct (Z.lt_ge_cases comp_pos 1) as [|Hc]; [by right|].
    rewrite Hcomp in Hmsg by done. discriminate.
  - intros H. rewrite add_component_invalid by done. eauto.
  - intros H. by rewrite add_component_invalid.
  - done.
Qed.

Lemma invalid_position_raised_iff_witness :
  (set_field (PyInt 7) 0 three_field_segment).2 = three_field_segment /\
  (set_field (PyInt 7) 3 three_field_segment).1 = inr tt /\
  (add_component (PyInt 7) 2 0 three_field_segment).2 = three_field_segment /\
  (add_component (PyInt 7) 2 3 three_field_segment).1 = inr tt.
Proof.
  destruct (invalid_position_raised_iff (PyInt 7) 0 2 0 three_field_segment)
    as (_ & Hs & _ & _ & Hc & _).
  destruct (invalid_position_raised_iff (PyInt 7) 3 2 3 three_field_segment)
    as (_ & _ & Hs' & _ & _ & Hc').
  split; [apply Hs; lia|].
  split; [apply Hs'; lia|].
  split; [apply Hc; right; lia|].
  apply Hc'; lia.
Defined.

(** C9.  Each of [add_field], [set_field] and [add_component] leaves the
    fields list at least as long as it was, and every field stored before
    the call, at a position other than the one written, reads the same after
    it ([add_field] only appends, so it keeps all of them). *)
Theorem segment_operations_keep_other_fields
    (value : PyValue) (position field_pos comp_pos : Z) (self : HL7Segment)
    (i : nat) :
  (i < length (fields self))%nat ->
  let after_add := fields (add_field value position self).2 in
  let after_set := fields (set_field value position self).2 in
  let after_comp := fields (add_component value field_pos comp_pos self).2 in
  ((length (fields self) <= length after_add)%nat /\
   after_add !! i = fields self !! i) /\
  ((length (fields self) <= length after_set)%nat /\
   (Z.of_nat i <> position - 1 -> after_set !! i = fields self !! i)) /\
  ((length (fields self) <= length after_comp)%nat /\
   (Z.of_nat i <> field_pos - 1 -> after_comp !! i = fields self !! i)).
Proof.
  intros Hi after_add after_set after_comp.
  split; [|split].
  - subst after_add. rewrite add_field_run. cbn. split.
    + rewrite length_app. lia.
    + by rewrite lookup_app_l.
  - subst after_set.
    destruct (Z.lt_ge_cases position 1) as [Hlow|Hpos].
    { by rewrite set_field_invalid. }
    destruct (Z.lt_ge_cases (Z.of_nat (length (fields self))) position)
      as [Hlt|Hge].
    + rewrite set_field_beyond by done. cbn. split.
      * rewrite length_app. lia.
      * intros _. by rewrite lookup_app_l.
    + rewrite set_field_within by lia. cbn. split.
      * by rewrite length_insert.
      * intros Hne. apply list_lookup_insert_ne. lia.
  - subst after_comp.
    destruct (Z.lt_ge_cases field_pos 1) as [Hlow|Hf].
    { rewrite add_component_invalid by (by left). done. }
    destruct (Z.lt_ge_cases comp_pos 1) as [Hlow|Hc].
    { rewrite add_component_invalid by (by right). done. }
    destruct (add_component_run value field_pos comp_pos self Hf Hc)
      as (field & _ & ->). cbn.
    destruct (ensured_fields_length field_pos (fields self)) as [_ Hlen].
    split.
    + by rewrite length_insert.
    + intros Hne. rewrite list_lookup_insert_ne by lia.
      by apply ensured_fields_lookup.
Qed.

Lemma segment_operations_keep_other_fields_witness :
  (1 < length (fields three_field_segment))%nat /\
  fields (add_field (PyInt 7) 5 three_field_segment).2 !! 1%nat = Some "b" /\
  fields (set_field (PyInt 7) 1 three_field_segment).2 !! 1%nat = Some "b" /\
  fields (add_component (PyInt 7) 3 2 three_field_segment).2 !! 1%nat
    = Some "b".
Proof.
  assert (Hi : (1 < length (fields three_field_segment))%nat) by (cbn; lia).
  destruct (segment_operations_keep_other_fields
              (PyInt 7) 5 3 2 three_field_segment 1 Hi)
    as ((_ & Ha) & _ & (_ & Hc)).
  destruct (segment_operations_keep_other_fields
              (PyInt 7) 1 3 2 three_field_segment 1 Hi)
    as (_ & (_ & Hs) & _).
  split; [exact Hi|].
  split; [exact Ha|].
  split; [apply Hs; lia|apply Hc; lia].
Defined.

(** ** Claims on escaping *)

(** A replacement of a character that does not occur changes nothing. *)
Lemma replace_absent c (r s : string) :
  PyStr.contains c s = false -> PyStr.replace c r s = s.
Proof.
  induction s as [|a s IH]; simpl; [done|].
  destruct (Ascii.eqb a c); simpl; [done|].
  intros H. by rewrite IH.
Qed.

(** Text without any of the five delimiters is its own escaped form, and so
    is the empty text. *)
Lemma escape_without_delimiter (s : string) :
  has_delimiter HL7EncodingCharacters_init s = false ->
  _escape_hl7 HL7EncodingCharacters_init s = s.
Proof.
  unfold has_delimiter, _escape_hl7.
  cbn [field_separator component_separator repetition_separator
         escape_character subcomponent_separator HL7EncodingCharacters_init].
  intros H.
  apply orb_false_elim in H as [H Hsub].
  apply orb_false_elim in H as [H Hesc].
  apply orb_false_elim in H as [H Hrep].
  apply orb_false_elim in H as [Hfield Hcomp].
  destruct (PyStr.nonempty s) eqn:Hs; cbn [negb].
  - change (escape_map HL7EncodingCharacters_init)
      with [(HL7_SEPARATORS.field, "\F\");
            (HL7_SEPARATORS.component, "\S\");
            (HL7_SEPARATORS.repetition, "\R\");
            (HL7_SEPARATORS.escape, "\E\");
            (HL7_SEPARATORS.subcomponent, "\T\")].
    cbn [fold_left].
    rewrite (replace_absent _ _ s) by done.
    rewrite (replace_absent _ _ s) by done.
    rewrite (replace_absent _ _ s) by done.
    rewrite (replace_absent _ _ s) by done.
    by apply replace_absent.
  - by destruct s.
Qed.

(** The escaped form of each delimiter on its own: only the escape character
    and the subcomponent separator, replaced last, come out as their
    tokens. *)
Example escape_of_each_delimiter :
  _escape_hl7 HL7EncodingCharacters_init "|" = "\E\F\E\" /\
  _escape_hl7 HL7EncodingCharacters_init "^" = "\E\S\E\" /\
  _escape_hl7 HL7EncodingCharacters_init "~" = "\E\R\E\" /\
  _escape_hl7 HL7EncodingCharacters_init "\" = "\E\" /\
  _escape_hl7 HL7EncodingCharacters_init "&" = "\T\".
Proof. repeat split. Qed.

(** No function from escaped text back to raw text undoes [_escape_hl7] on
    the strings that hold a delimiter: two such strings have the same
    escaped form. *)
Lemma escape_has_no_decoder :
  ~ exists decode : string -> string,
      forall s, has_delimiter HL7EncodingCharacters_init s = true ->
                decode (_escape_hl7 HL7EncodingCharacters_init s) = s.
Proof.
  intros [decode Hdecode].
  pose proof (Hdecode "|" eq_refl) as H1.
  pose proof (Hdecode "\F\" eq_refl) as H2.
  change (_escape_hl7 HL7EncodingCharacters_init "\F\")
    with (_escape_hl7 HL7EncodingCharacters_init "|") in H2.
  rewrite H1 in H2. discriminate.
Qed.

(** C2 (defect of the code).  The string ["|"] holds a delimiter and its
    escaped form is not the token [\F\] but [\E\F\E\]: the replacement of
    the escape character comes fourth and rewrites the escape characters of
    the tokens written for the field, component and repetition separators
    before it.  The string [\F\] has the same escaped form, so that no
    decoding whatsoever returns both strings ([escape_has_no_decoder]). *)
Theorem escape_rewrites_its_own_tokens :
  has_delimiter HL7EncodingCharacters_init "|" = true /\
  has_delimiter HL7EncodingCharacters_init "\F\" = true /\
  _escape_hl7 HL7EncodingCharacters_init "|" = "\E\F\E\" /\
  _escape_hl7 HL7EncodingCharacters_init "|"
    <> escape_token HL7_SEPARATORS.escape "F" /\
  _escape_hl7 HL7EncodingCharacters_init "\F\"
    = _escape_hl7 HL7EncodingCharacters_init "|".
Proof. repeat split; discriminate. Qed.

(** ** Claims on the message assembler *)

(** [add_field] keeps the tag and the encoding of the segment. *)
Lemma add_field_shape value position id e fs :
  exists fs',
    add_field value position {| segment_id := id; encoding := e; fields := fs |}
      = (inr tt, {| segment_id := id; encoding := e; fields := fs' |}).
Proof. rewrite add_field_run. eexists. reflexivity. Qed.

Lemma add_field_then_shape {A} value position (k : unit -> Method A) id e fs :
  exists fs',
    mbind k (add_field value position)
      {| segment_id := id; encoding := e; fields := fs |}
      = k tt {| segment_id := id; encoding := e; fields := fs' |}.
Proof.
  destruct (add_field_shape value position id e fs) as [fs' H].
  exists fs'. unfold mbind, py_bind. by rewrite H.
Qed.

(** One [add_field] of a sequence run on a segment. *)
Ltac step_add_field :=
  lazymatch goal with
  | |- context [ mbind ?k (add_field ?v ?p)
                   {| segment_id := ?id; encoding := ?e; fields := ?fs |} ] =>
      let fs' := fresh "fs" in
      let H := fresh "H" in
      destruct (add_field_then_shape v p k id e fs) as [fs' H];
      rewrite H; clear H; cbv beta
  end.

(** [add_msh_segment] never raises and appends one segment, tagged [MSH],
    after the segments that are there. *)
Lemma add_msh_segment_run now self :
  exists fs,
    HL7Builder.add_msh_segment now self =
      (inr tt,
       HL7Builder.with_segments self
         (HL7Builder.segments self
            ++ [ {| segment_id := "MSH";
                    encoding := HL7Builder.encoding self;
                    fields := fs |} ])).
Proof.
  unfold HL7Builder.add_msh_segment, HL7Builder.on_segment.
  unfold mbind at 1, py_bind at 1, HL7Builder.get_self.
  unfold mbind at 1, py_bind at 1.
  unfold HL7Segment_init.
  do 18 step_add_field.
  match goal with
  | |- context [ add_field ?v ?p
                   {| segment_id := ?id; encoding := ?e; fields := ?fs |} ] =>
      destruct (add_field_shape v p id e fs) as [fs' ->]
  end.
  exists fs'. reflexivity.
Qed.

(** With the header switched off, or a header among the segments, the
    message is the segments' texts joined by the segment delimiter, and the
    builder is left as it was. *)
Lemma build_message_as_is now self :
  HL7Config.include_msh (HL7Builder.config self) = false
  \/ HL7Builder.has_msh (HL7Builder.segments self) = true ->
  HL7Builder.build_message now self =
    (inr (PyStr.join SEGMENT_DELIMITER (map build (HL7Builder.segments self))),
     self).
Proof.
  intros H. unfold HL7Builder.build_message.
  unfold mbind, py_bind, HL7Builder.get_self, mret, py_ret.
  destruct H as [-> | ->]; [done|].
  by destruct (HL7Config.include_msh _).
Qed.

(** With the header switched on and no header among the segments, exactly
    one header is made, and it is put after the segments that are there. *)
Lemma build_message_synthesizes_header now self :
  HL7Config.include_msh (HL7Builder.config self) = true ->
  HL7Builder.has_msh (HL7Builder.segments self) = false ->
  exists fs,
    let msh := {| segment_id := "MSH"; encoding := HL7Builder.encoding self;
                  fields := fs |} in
    HL7Builder.build_message now self =
      (inr (PyStr.join SEGMENT_DELIMITER
              (map build (HL7Builder.segments self ++ [msh]))),
       HL7Builder.with_segments self (HL7Builder.segments self ++ [msh])).
Proof.
  intros Hon Hnone.
  destruct (add_msh_segment_run now self) as [fs Hfs].
  exists fs. cbn zeta. unfold HL7Builder.build_message.
  unfold mbind, py_bind, HL7Builder.get_self, mret, py_ret.
  rewrite Hon, Hnone. cbn [negb]. by rewrite Hfs.
Qed.

(** C5 (defect of the code).  A builder with the header switched on that
    holds one segment, tagged [PID], and no header: [build_message] makes
    exactly one header, but appends it, so the segments are [PID], [MSH] in
    this order and the message text begins with [PID], not with the header.
    [build_message_synthesizes_header] states the same for every builder
    without a header. *)
Theorem build_message_appends_synthesized_header :
  HL7Config.include_msh (HL7Builder.config builder_without_header) = true /\
  HL7Builder.has_msh (HL7Builder.segments builder_without_header) = false /\
  map segment_id
    (HL7Builder.segments
       (HL7Builder.build_message "20240101120000" builder_without_header).2)
    = ["PID"; "MSH"] /\
  exists text,
    (HL7Builder.build_message "20240101120000" builder_without_header).1
      = inr text /\
    PyStr.startswith text "PID" = true /\
    PyStr.startswith text "MSH" = false.
Proof.
  repeat split. eexists. split; [vm_compute; reflexivity|].
  split; reflexivity.
Qed.

(** C7.  A builder with the header switched off and no segment yet, to which
    three segments tagged [AAA], [BBB], [CCC] are appended in this order:
    [build_message] returns, for each segment in this order, its tag, the
    field separator and its fields joined by the field separator, with the
    segment delimiter (carriage return) between two segments and none at the
    end; the builder holds the same three segments afterwards. *)
Theorem build_message_three_segments
    (now : string) (self : HL7Builder.t)
    (e1 e2 e3 : HL7EncodingCharacters) (f1 f2 f3 : list string) :
  HL7Config.include_msh (HL7Builder.config self) = false ->
  HL7Builder.segments self = [] ->
  let aaa := {| segment_id := "AAA"; encoding := e1; fields := f1 |} in
  let bbb := {| segment_id := "BBB"; encoding := e2; fields := f2 |} in
  let ccc := {| segment_id := "CCC"; encoding := e3; fields := f3 |} in
  (HL7Builder.segments_append aaa;;
   HL7Builder.segments_append bbb;;
   HL7Builder.segments_append ccc;;
   HL7Builder.build_message now) self =
    (inr (("AAA" +:+ String (field_separator e1)
                       (PyStr.join (field_separator e1) f1))
          +:+ String SEGMENT_DELIMITER
            (("BBB" +:+ String (field_separator e2)
                          (PyStr.join (field_separator e2) f2))
             +:+ String SEGMENT_DELIMITER
               ("CCC" +:+ String (field_separator e3)
                            (PyStr.join (field_separator e3) f3)))),
     HL7Builder.with_segments self [aaa; bbb; ccc]).
Proof.
  intros Hoff Hnone aaa bbb ccc.
  unfold mbind, py_bind, HL7Builder.segments_append. cbn.
  rewrite build_message_as_is by (by left).
  rewrite Hnone. reflexivity.
Qed.

Lemma build_message_three_segments_witness :
  HL7Config.include_msh (HL7Builder.config empty_builder) = false /\
  HL7Builder.segments empty_builder = [] /\
  ((HL7Builder.segments_append
      {| segment_id := "AAA"; encoding := HL7EncodingCharacters_init;
         fields := ["1"; "x"] |};;
    HL7Builder.segments_append
      {| segment_id := "BBB"; encoding := HL7EncodingCharacters_init;
         fields := [] |};;
    HL7Builder.segments_append
      {| segment_id := "CCC"; encoding := HL7EncodingCharacters_init;
         fields := [EmptyString; "y"; EmptyString] |};;
    HL7Builder.build_message "20240101120000") empty_builder).1 =
    inr ("AAA|1|x" +:+ String SEGMENT_DELIMITER
           ("BBB|" +:+ String SEGMENT_DELIMITER "CCC||y|")).
Proof.
  split; [reflexivity|]. split; [reflexivity|].
  rewrite (build_message_three_segments "20240101120000" empty_builder
             HL7EncodingCharacters_init HL7EncodingCharacters_init
             HL7EncodingCharacters_init
             ["1"; "x"] [] [EmptyString; "y"; EmptyString]);
    reflexivity.
Defined.

(** ** Claims on the response reader *)

Ltac run_reader :=
  repeat (progress (unfold mbind, py_bind, mret, py_ret, set_message_type,
                      set_message_control_id, set_acknowledgment, set_status,
                      segments_append; cbn)).

Lemma item_run parts (i : Z) x r :
  0 <= i -> parts !! Z.to_nat i = Some x -> item parts i r = (inr x, r).
Proof.
  intros Hi Hx. unfold item.
  rewrite py_getitem_in_range, Hx; [done|].
  apply lookup_lt_Some in Hx. lia.
Qed.

(** The guarded access never raises. *)
Lemma item_or_empty_run parts (i : Z) r :
  0 <= i ->
  item_or_empty parts i r =
    (inr (default EmptyString (parts !! Z.to_nat i)), r).
Proof.
  intros Hi. unfold item_or_empty.
  destruct (Z.ltb_spec i (Z.of_nat (length parts))) as [Hlt|Hge].
  - destruct (lookup_lt_is_Some_2 parts (Z.to_nat i)) as [x Hx]; [lia|].
    rewrite Hx. by apply item_run.
  - by rewrite lookup_ge_None_2 by lia.
Qed.

(** A line is not a header line and an acknowledgment line at once. *)
Lemma startswith_MSH_not_MSA line :
  PyStr.startswith line "MSH" = true -> PyStr.startswith line "MSA" = false.
Proof.
  unfold PyStr.startswith. intros H.
  destruct (String.prefix "MSA" line) eqn:E; [|done].
  apply String.prefix_correct in H, E. cbn in H, E. congruence.
Qed.

(** One round of the loop: it never raises, appends the first three
    characters of the line to the segments, and moves the status and the
    acknowledgment as [status_after_line] and [acknowledgment_after_line]
    say. *)
Lemma parse_line_run line r :
  exists r',
    parse_line line r = (inr tt, r') /\
    r_segments r' = r_segments r ++ [PyStr.take 3 line] /\
    r_status r' = status_after_line line (r_status r) /\
    r_acknowledgment r' =
      acknowledgment_after_line line (r_acknowledgment r).
Proof.
  unfold parse_line, status_after_line, acknowledgment_after_line.
  destruct (PyStr.startswith line "MSH") eqn:Hmsh.
  - rewrite (startswith_MSH_not_MSA _ Hmsh).
    unfold mbind at 1, py_bind at 1. unfold mbind at 1, py_bind at 1.
    rewrite item_or_empty_run by lia. run_reader.
    rewrite item_or_empty_run by lia.
    eexists. done.
  - destruct (PyStr.startswith line "MSA") eqn:Hmsa; [|eexists; done].
    destruct (Z.leb_spec 2 (Z.of_nat (length (PyStr.split "|" line))))
      as [Hlen|Hlen].
    + destruct (lookup_lt_is_Some_2 (PyStr.split "|" line) 1) as [c Hc]; [lia|].
      cbn zeta. rewrite Hc.
      unfold mbind at 1, py_bind at 1. unfold mbind at 1, py_bind at 1.
      rewrite (item_run _ 1 c) by done.
      unfold mbind at 1, py_bind at 1. rewrite item_or_empty_run by lia.
      unfold mbind at 1, py_bind at 1. rewrite item_or_empty_run by lia.
      run_reader.
      rewrite (item_run _ 1 c) by done.
      destruct (String.eqb c "AA"); [eexists; done|].
      rewrite (item_run _ 1 c) by done.
      destruct (String.eqb c "AE"); [eexists; done|].
      rewrite (item_run _ 1 c) by done.
      destruct (String.eqb c "AR"); eexists; done.
    + cbn zeta. rewrite lookup_ge_None_2 by lia. eexists. done.
Qed.

(** The loop over the lines. *)
Lemma parse_lines_run lines r :
  exists r',
    for_each lines parse_line r = (inr tt, r') /\
    r_segments r' = r_segments r ++ map (PyStr.take 3) lines /\
    r_status r' = fold_left (fun st line => status_after_line line st)
                    lines (r_status r) /\
    r_acknowledgment r' =
      fold_left (fun a line => acknowledgment_after_line line a)
        lines (r_acknowledgment r).
Proof.
  revert r. induction lines as [|line lines IH]; intros r; cbn.
  - exists r. by rewrite app_nil_r.
  - destruct (parse_line_run line r) as (r1 & Hrun & Hsegs & Hst & Hack).
    destruct (IH r1) as (r' & Hrun' & Hsegs' & Hst' & Hack').
    exists r'. unfold mbind, py_bind. rewrite Hrun, Hrun'.
    split; [done|]. split; [|split].
    + rewrite Hsegs', Hsegs, <- app_assoc. done.
    + rewrite Hst', Hst. done.
    + rewrite Hack', Hack. done.
Qed.

(** Lines other than acknowledgment lines leave the status and the
    acknowledgment alone. *)
Lemma status_after_other_lines lines st :
  Forall (fun line => PyStr.startswith line "MSA" = false) lines ->
  fold_left (fun st line => status_after_line line st) lines st = st.
Proof.
  intros H. revert st. induction H as [|line lines Hline _ IH]; intros st; cbn.
  - done.
  - rewrite IH. unfold status_after_line. by rewrite Hline.
Qed.

Lemma acknowledgment_after_other_lines lines a :
  Forall (fun line => PyStr.startswith line "MSA" = false) lines ->
  fold_left (fun a line => acknowledgment_after_line line a) lines a = a.
Proof.
  intros H. revert a. induction H as [|line lines Hline _ IH]; intros a; cbn.
  - done.
  - rewrite IH. unfold acknowledgment_after_line. by rewrite Hline.
Qed.

(** A line that does not begin with [MSA] has no code in the sense of
    [has_code], and a line without a code has none of the three codes that
    the reader knows. *)
Lemma has_code_other_line line :
  PyStr.startswith line "MSA" = false -> has_code line = false.
Proof. intros H. unfold has_code. by rewrite H. Qed.

Lemma has_known_code_has_code line :
  has_code line = false -> has_known_code line = false.
Proof.
  unfold has_code, has_known_code.
  destruct (PyStr.startswith line "MSA"); [|done].
  by destruct (ack_code_of line).
Qed.

Lemma has_known_code_other_code line :
  ack_code_of line <> Some "AA" -> ack_code_of line <> Some "AE" ->
  ack_code_of line <> Some "AR" -> has_known_code line = false.
Proof.
  intros H1 H2 H3. unfold has_known_code.
  destruct (ack_code_of line) as [c|]; [|by rewrite andb_false_r].
  destruct (String.eqb_spec c "AA") as [->|_]; [done|].
  destruct (String.eqb_spec c "AE") as [->|_]; [done|].
  destruct (String.eqb_spec c "AR") as [->|_]; [done|].
  by rewrite andb_false_r.
Qed.

(** The status moves at the lines with one of the three codes only, and the
    acknowledgment at the lines with a code only. *)
Lemma status_after_line_unknown_code line st :
  has_known_code line = false -> status_after_line line st = st.
Proof.
  unfold has_known_code, status_after_line, ack_code_of.
  destruct (PyStr.startswith line "MSA"); [|done].
  destruct (PyStr.split "|" line !! 1%nat) as [c|]; [|done].
  destruct (String.eqb c "AA"); [done|].
  destruct (String.eqb c "AE"); [done|].
  by destruct (String.eqb c "AR").
Qed.

Lemma acknowledgment_after_line_without_code line a :
  has_code line = false -> acknowledgment_after_line line a = a.
Proof.
  unfold has_code, acknowledgment_after_line, ack_code_of.
  destruct (PyStr.startswith line "MSA"); [|done]. cbn zeta.
  by destruct (PyStr.split "|" line !! 1%nat).
Qed.

Lemma status_after_lines_unknown_code lines st :
  Forall (fun line => has_known_code line = false) lines ->
  fold_left (fun st line => status_after_line line st) lines st = st.
Proof.
  intros H. revert st. induction H as [|line lines Hline _ IH]; intros st; cbn.
  - done.
  - by rewrite IH, status_after_line_unknown_code.
Qed.

Lemma acknowledgment_after_lines_without_code lines a :
  Forall (fun line => has_code line = false) lines ->
  fold_left (fun a line => acknowledgment_after_line line a) lines a = a.
Proof.
  intros H. revert a. induction H as [|line lines Hline _ IH]; intros a; cbn.
  - done.
  - by rewrite IH, acknowledgment_after_line_without_code.
Qed.

(** The lines of a message either hold no line with one of the three codes,
    or have a last such line. *)
Lemma last_line_with_known_code lines :
  Forall (fun line => has_known_code line = false) lines \/
  exists before line after,
    lines = before ++ line :: after /\
    has_known_code line = true /\
    Forall (fun l => has_known_code l = false) after.
Proof.
  induction lines as [|l lines IH]; [by left|].
  destruct IH as [Hnone|(before & line & after & -> & Hline & Hafter)].
  - destruct (has_known_code l) eqn:Hl.
    + right. exists [], l, lines. done.
    + left. by constructor.
  - right. exists (l :: before), line, after. done.
Qed.

(** The reader on a message: it returns a result, whose segments, status and
    acknowledgment are those the loop builds from the initial result. *)
Lemma parse_hl7_response_run hl7_message :
  let lines := PyStr.split SEGMENT_DELIMITER hl7_message in
  exists result,
    parse_hl7_response hl7_message = inr result /\
    r_segments result = map (PyStr.take 3) lines /\
    r_status result =
      fold_left (fun st line => status_after_line line st) lines "unknown" /\
    r_acknowledgment result =
      fold_left (fun a line => acknowledgment_after_line line a) lines None.
Proof.
  intros lines. unfold parse_hl7_response. fold lines.
  edestruct (parse_lines_run lines) as (r' & -> & Hsegs & Hst & Hack).
  exists r'. done.
Qed.

(** C10.  On every message text [parse_hl7_response] returns a result and
    raises nothing, and the result's segments are the first three characters
    (fewer when the line is shorter) of each line of the text split at the
    segment delimiter, one entry per line and in the order of the lines. *)
Theorem parse_hl7_response_total (hl7_message : string) :
  exists result,
    parse_hl7_response hl7_message = inr result /\
    r_segments result =
      map (PyStr.take 3) (PyStr.split SEGMENT_DELIMITER hl7_message) /\
    length (r_segments result) =
      length (PyStr.split SEGMENT_DELIMITER hl7_message).
Proof.
  destruct (parse_hl7_response_run hl7_message) as (result & Hrun & Hsegs & _).
  exists result. split; [done|]. split; [done|].
  by rewrite Hsegs, length_map.
Qed.

(** C8.  The reader splits the text at the segment delimiter and returns a
    result for every text.  The status is set by the acknowledgment lines,
    the lines that begin with [MSA], from their code: it is [accepted] for
    the code [AA], [error] for [AE] and [rejected] for [AR], where the line
    that counts is the last one with one of these three codes.  Any other
    code and a line without a code leave the status as it is: the status is
    [unknown] when no acknowledgment line has one of the three codes, whatever
    the number of acknowledgment lines, and so also when there is no
    acknowledgment line.  One of the two cases holds for every text.  The
    acknowledgment of the result carries the code of the last acknowledgment
    line that has a code, and there is none when no such line exists. *)
Theorem parse_hl7_response_status (hl7_message : string) :
  exists result,
    parse_hl7_response hl7_message = inr result /\
    (Forall (fun l => has_known_code l = false)
       (PyStr.split SEGMENT_DELIMITER hl7_message) ->
     r_status result = "unknown") /\
    (forall before line after,
       PyStr.split SEGMENT_DELIMITER hl7_message = before ++ line :: after ->
       PyStr.startswith line "MSA" = true ->
       Forall (fun l => has_known_code l = false) after ->
       (ack_code_of line = Some "AA" -> r_status result = "accepted") /\
       (ack_code_of line = Some "AE" -> r_status result = "error") /\
       (ack_code_of line = Some "AR" -> r_status result = "rejected")) /\
    (Forall (fun l => has_known_code l = false)
       (PyStr.split SEGMENT_DELIMITER hl7_message) \/
     exists before line after,
       PyStr.split SEGMENT_DELIMITER hl7_message = before ++ line :: after /\
       has_known_code line = true /\
       Forall (fun l => has_known_code l = false) after) /\
    (Forall (fun l => has_code l = false)
       (PyStr.split SEGMENT_DELIMITER hl7_message) ->
     r_acknowledgment result = None) /\
    (forall before line after c,
       PyStr.split SEGMENT_DELIMITER hl7_message = before ++ line :: after ->
       PyStr.startswith line "MSA" = true ->
       ack_code_of line = Some c ->
       Forall (fun l => has_code l = false) after ->
       exists a, r_acknowledgment result = Some a /\ ack_code a = c).
Proof.
  destruct (parse_hl7_response_run hl7_message)
    as (result & Hrun & _ & Hst & Hack).
  exists result. split; [done|]. split; [|split; [|split; [|split]]].
  - intros Hnone. by rewrite Hst, status_after_lines_unknown_code.
  - intros before line after Hlines Hmsa Hafter.
    rewrite Hlines, fold_left_app in Hst. cbn [fold_left] in Hst.
    rewrite status_after_lines_unknown_code in Hst by done.
    unfold status_after_line in Hst. rewrite Hmsa in Hst.
    unfold ack_code_of.
    repeat split; intros Hc; rewrite Hc in Hst; exact Hst.
  - apply last_line_with_known_code.
  - intros Hnone. by rewrite Hack, acknowledgment_after_lines_without_code.
  - intros before line after c Hlines Hmsa Hc Hafter.
    rewrite Hlines, fold_left_app in Hack. cbn [fold_left] in Hack.
    rewrite acknowledgment_after_lines_without_code in Hack by done.
    unfold acknowledgment_after_line in Hack. rewrite Hmsa in Hack.
    cbn zeta in Hack. unfold ack_code_of in Hc. rewrite Hc in Hack.
    eexists. split; [exact Hack|done].
Qed.

Lemma parse_hl7_response_status_witness :
  exists result,
    parse_hl7_response repeated_acknowledgment_message = inr result /\
    r_status result = "accepted" /\
    exists a, r_acknowledgment result = Some a /\ ack_code a = "XX".
Proof.
  destruct (parse_hl7_response_status repeated_acknowledgment_message)
    as (result & Hrun & _ & Hstatus & _ & _ & Hcode).
  exists result. split; [exact Hrun|]. split.
  - destruct (Hstatus [acknowledgment_header_line] "MSA|AA|MSG1"
                ["MSA|XX|MSG2"]) as (Haccepted & _).
    + reflexivity.
    + reflexivity.
    + repeat constructor.
    + apply Haccepted. reflexivity.
  - apply (Hcode [acknowledgment_header_line; "MSA|AA|MSG1"] "MSA|XX|MSG2" []).
    + reflexivity.
    + reflexivity.
    + reflexivity.
    + constructor.
Defined.

(** Two acknowledgment lines: the acknowledgment is that of the second
    line, the status that of the first, whose code is the last one of the
    three that the reader knows. *)
Example parse_two_acknowledgment_lines :
  parse_hl7_response ("MSA|AA" +:+ String SEGMENT_DELIMITER "MSA|XX") =
    inr {| r_segments := ["MSA"; "MSA"];
           r_acknowledgment :=
             Some {| ack_code := "XX"; ack_message := EmptyString;
                     ack_control_id := EmptyString |};
           r_status := "accepted";
           r_message_type := None;
           r_message_control_id := None |}.
Proof. reflexivity. Qed.

(** Two acknowledgment lines with codes that the reader does not know leave
    the status [unknown]; of two lines with codes that it knows, the second
    one decides. *)
Example parse_repeated_acknowledgment_lines :
  parse_hl7_response ("MSA|XX" +:+ String SEGMENT_DELIMITER "MSA|YY") =
    inr {| r_segments := ["MSA"; "MSA"];
           r_acknowledgment :=
             Some {| ack_code := "YY"; ack_message := EmptyString;
                     ack_control_id := EmptyString |};
           r_status := "unknown";
           r_message_type := None;
           r_message_control_id := None |} /\
  parse_hl7_response ("MSA|AA" +:+ String SEGMENT_DELIMITER "MSA|AE") =
    inr {| r_segments := ["MSA"; "MSA"];
           r_acknowledgment :=
             Some {| ack_code := "AE"; ack_message := EmptyString;
                     ack_control_id := EmptyString |};
           r_status := "error";
           r_message_type := None;
           r_message_control_id := None |}.
Proof. split; reflexivity. Qed.

(** The inputs at the edges: the empty text, a line of two characters, a
    header line of two parts and an acknowledgment line of one part. *)
Example parse_short_inputs :
  parse_hl7_response EmptyString =
    inr {| r_segments := [EmptyString]; r_acknowledgment := None;
           r_status := "unknown"; r_message_type := None;
           r_message_control_id := None |} /\
  parse_hl7_response "MS" =
    inr {| r_segments := ["MS"]; r_acknowledgment := None;
           r_status := "unknown"; r_message_type := None;
           r_message_control_id := None |} /\
  parse_hl7_response "MSH|x" =
    inr {| r_segments := ["MSH"]; r_acknowledgment := None;
           r_status := "unknown"; r_message_type := Some EmptyString;
           r_message_control_id := Some EmptyString |} /\
  parse_hl7_response "MSA" =
    inr {| r_segments := ["MSA"]; r_acknowledgment := None;
           r_status := "unknown"; r_message_type := None;
           r_message_control_id := None |}.
Proof. repeat split. Qed.

(** * Further properties *)

(** ** Escaping, character by character *)

Lemma append_cons a (s t : string) : String a s +:+ t = String a (s +:+ t).
Proof. reflexivity. Qed.

Lemma append_assoc (r s t : string) : (r +:+ s) +:+ t = r +:+ (s +:+ t).
Proof.
  induction r as [|a r IH]; [done|]. by rewrite !append_cons, IH.
Qed.

Lemma replace_app c (r s t : string) :
  PyStr.replace c r (s +:+ t) = PyStr.replace c r s +:+ PyStr.replace c r t.
Proof.
  induction s as [|a s IH]; [done|].
  rewrite append_cons. simpl.
  destruct (Ascii.eqb a c).
  - by rewrite append_assoc, IH.
  - by rewrite append_cons, IH.
Qed.

(** The five replacements of [_escape_hl7], in the order of the dict. *)
Lemma escape_as_replacements (s : string) :
  _escape_hl7 HL7EncodingCharacters_init s =
    PyStr.replace "&" "\T\"
      (PyStr.replace "\" "\E\"
         (PyStr.replace "~" "\R\"
            (PyStr.replace "^" "\S\" (PyStr.replace "|" "\F\" s)))).
Proof. by destruct s. Qed.

Lemma escape_one_character (a : ascii) :
  _escape_hl7 HL7EncodingCharacters_init (String a EmptyString) = escape_char a.
Proof.
  rewrite escape_as_replacements. unfold escape_char.
  unfold HL7_SEPARATORS.field, HL7_SEPARATORS.component,
    HL7_SEPARATORS.repetition, HL7_SEPARATORS.escape,
    HL7_SEPARATORS.subcomponent.
  destruct (Ascii.eqb a "|") eqn:E1;
    [apply Ascii.eqb_eq in E1 as ->; reflexivity|].
  destruct (Ascii.eqb a "^") eqn:E2;
    [apply Ascii.eqb_eq in E2 as ->; reflexivity|].
  destruct (Ascii.eqb a "~") eqn:E3;
    [apply Ascii.eqb_eq in E3 as ->; reflexivity|].
  destruct (Ascii.eqb a "\") eqn:E4;
    [apply Ascii.eqb_eq in E4 as ->; reflexivity|].
  destruct (Ascii.eqb a "&") eqn:E5;
    [apply Ascii.eqb_eq in E5 as ->; reflexivity|].
  simpl. rewrite E1. simpl. rewrite E2. simpl. rewrite E3. simpl.
  rewrite E4. simpl. by rewrite E5.
Qed.

Lemma escape_append (s t : string) :
  _escape_hl7 HL7EncodingCharacters_init (s +:+ t) =
    _escape_hl7 HL7EncodingCharacters_init s
      +:+ _escape_hl7 HL7EncodingCharacters_init t.
Proof. rewrite !escape_as_replacements. by rewrite !replace_app. Qed.

Lemma escape_as_escape_each (s : string) :
  _escape_hl7 HL7EncodingCharacters_init s = escape_each s.
Proof.
  induction s as [|a s IH]; [done|].
  change (String a s) with (String a EmptyString +:+ s).
  rewrite escape_append, escape_one_character, IH. done.
Qed.

(** The text of a character is never empty. *)
Lemma escape_char_not_empty a (x : string) : escape_char a +:+ x <> EmptyString.
Proof.
  unfold escape_char.
  repeat (match goal with |- context [if ?b then _ else _] => destruct b end);
    discriminate.
Qed.

(** Which character, other than the escape character, a text stands for can
    be read off the text. *)
Lemma escape_char_cancel a b (x y : string) :
  a <> HL7_SEPARATORS.escape -> b <> HL7_SEPARATORS.escape ->
  escape_char a +:+ x = escape_char b +:+ y -> a = b /\ x = y.
Proof.
  unfold escape_char, HL7_SEPARATORS.field, HL7_SEPARATORS.component,
    HL7_SEPARATORS.repetition, HL7_SEPARATORS.escape,
    HL7_SEPARATORS.subcomponent.
  intros Ha Hb.
  destruct (Ascii.eqb_spec a "|") as [->|A1];
    [|destruct (Ascii.eqb_spec a "^") as [->|A2];
      [|destruct (Ascii.eqb_spec a "~") as [->|A3];
        [|destruct (Ascii.eqb_spec a "\") as [->|A4];
          [done|destruct (Ascii.eqb_spec a "&") as [->|A5]]]]];
  (destruct (Ascii.eqb_spec b "|") as [->|B1];
    [|destruct (Ascii.eqb_spec b "^") as [->|B2];
      [|destruct (Ascii.eqb_spec b "~") as [->|B3];
        [|destruct (Ascii.eqb_spec b "\") as [->|B4];
          [done|destruct (Ascii.eqb_spec b "&") as [->|B5]]]]]);
  cbv [String.append]; intros H; split; congruence.
Qed.

Lemma escape_each_injective (s1 s2 : string) :
  PyStr.contains HL7_SEPARATORS.escape s1 = false ->
  PyStr.contains HL7_SEPARATORS.escape s2 = false ->
  escape_each s1 = escape_each s2 -> s1 = s2.
Proof.
  revert s2. induction s1 as [|a s1 IH]; intros [|b s2]; simpl.
  - done.
  - intros _ _ H. symmetry in H. by apply escape_char_not_empty in H.
  - intros _ _ H. by apply escape_char_not_empty in H.
  - intros H1 H2 H.
    apply orb_false_elim in H1 as [Ha H1].
    apply orb_false_elim in H2 as [Hb H2].
    apply Ascii.eqb_neq in Ha, Hb.
    destruct (escape_char_cancel a b _ _ Ha Hb H) as [-> Htl].
    f_equal. by apply IH.
Qed.

(** X1.  [_escape_hl7] works character by character: the escaped text is
    the texts of the characters one after the other, where the field,
    component and repetition separators stand as [\E\F\E\], [\E\S\E\] and
    [\E\R\E\], the escape character as [\E\], the subcomponent separator as
    [\T\], and every other character as itself. *)
Theorem escape_character_by_character (s : string) :
  _escape_hl7 HL7EncodingCharacters_init s = escape_each s.
Proof. apply escape_as_escape_each. Qed.

(** X2.  The escaped text of two texts put together is the two escaped
    texts put together. *)
Theorem escape_of_concatenation (s t : string) :
  _escape_hl7 HL7EncodingCharacters_init (s +:+ t) =
    _escape_hl7 HL7EncodingCharacters_init s
      +:+ _escape_hl7 HL7EncodingCharacters_init t.
Proof. apply escape_append. Qed.

(** X3.  Escaped text holds no field, component, repetition or subcomponent
    separator, whatever the text. *)
Theorem escaped_text_has_no_separator (s : string) :
  PyStr.contains HL7_SEPARATORS.field
    (_escape_hl7 HL7EncodingCharacters_init s) = false /\
  PyStr.contains HL7_SEPARATORS.component
    (_escape_hl7 HL7EncodingCharacters_init s) = false /\
  PyStr.contains HL7_SEPARATORS.repetition
    (_escape_hl7 HL7EncodingCharacters_init s) = false /\
  PyStr.contains HL7_SEPARATORS.subcomponent
    (_escape_hl7 HL7EncodingCharacters_init s) = false.
Proof.
  rewrite escape_as_replacements. repeat split.
  - do 4 (apply replace_clean; [done|left]).
    apply replace_clean; [done|by right].
  - do 3 (apply replace_clean; [done|left]).
    apply replace_clean; [done|by right].
  - do 2 (apply replace_clean; [done|left]).
    apply replace_clean; [done|by right].
  - apply replace_clean; [done|by right].
Qed.

(** X4.  Two texts without the escape character that have the same escaped
    text are the same text: on such texts escaping loses nothing. *)
Theorem escape_injective_without_escape_character (s1 s2 : string) :
  PyStr.contains HL7_SEPARATORS.escape s1 = false ->
  PyStr.contains HL7_SEPARATORS.escape s2 = false ->
  _escape_hl7 HL7EncodingCharacters_init s1
    = _escape_hl7 HL7EncodingCharacters_init s2 ->
  s1 = s2.
Proof.
  rewrite !escape_as_escape_each. apply escape_each_injective.
Qed.

Lemma escape_injective_without_escape_character_witness :
  PyStr.contains HL7_SEPARATORS.escape "Doe^John|x" = false /\
  _escape_hl7 HL7EncodingCharacters_init "Doe^John|x"
    = "Doe\E\S\E\John\E\F\E\x" /\
  "Doe^John|x" = "Doe^John|x".
Proof.
  split; [reflexivity|]. split; [reflexivity|].
  apply (escape_injective_without_escape_character "Doe^John|x" "Doe^John|x");
    reflexivity.
Defined.

(** X5.  A text without any of the five delimiters, the empty text among
    them, is its own escaped text. *)
Theorem escape_keeps_text_without_delimiter (s : string) :
  has_delimiter HL7EncodingCharacters_init s = false ->
  _escape_hl7 HL7EncodingCharacters_init s = s.
Proof. apply escape_without_delimiter. Qed.

Lemma escape_keeps_text_without_delimiter_witness :
  has_delimiter HL7EncodingCharacters_init "30 TAB" = false /\
  _escape_hl7 HL7EncodingCharacters_init "30 TAB" = "30 TAB".
Proof.
  split; [reflexivity|].
  apply (escape_keeps_text_without_delimiter "30 TAB"). reflexivity.
Defined.

(** ** Fields and the field separator *)

Lemma escape_free_of_field_separator (s : string) :
  PyStr.contains HL7_SEPARATORS.field
    (_escape_hl7 HL7EncodingCharacters_init s) = false.
Proof.
  rewrite escape_as_replacements.
  do 4 (apply replace_clean; [done|left]).
  apply replace_clean; [done|by right].
Qed.

(** The parts of a text free of [c] are free of [c]. *)
Lemma split_parts_free_of c sep (s : string) :
  PyStr.contains c s = false -> free_of c (PyStr.split sep s).
Proof.
  unfold free_of. induction s as [|a s IH]; simpl.
  - by repeat constructor.
  - intros H. apply orb_false_elim in H as [Ha Hs].
    destruct (Ascii.eqb a sep).
    + constructor; [done|by apply IH].
    + specialize (IH Hs). destruct (PyStr.split sep s) as [|w ws].
      * constructor; [|constructor]. simpl. by rewrite Ha.
      * inversion_clear IH as [|? ? Hw Hws].
        constructor; [|done]. simpl. by rewrite Ha, Hw.
Qed.

(** Parts free of [c], joined by another character, give a text free of
    [c]. *)
Lemma join_free_of c sep (parts : list string) :
  c <> sep -> free_of c parts -> PyStr.contains c (PyStr.join sep parts) = false.
Proof.
  intros Hne Hparts. unfold PyStr.join.
  induction Hparts as [|p parts Hp Hparts IH]; [done|].
  destruct parts as [|q parts]; [done|].
  change (String.concat (String sep EmptyString) (p :: q :: parts))
    with (p +:+ String sep
                  (String.concat (String sep EmptyString) (q :: parts))).
  rewrite contains_app, Hp. cbn [orb PyStr.contains]. rewrite IH.
  destruct (Ascii.eqb_spec sep c); [congruence|done].
Qed.

Lemma stored_text_free_of_field_separator value :
  PyStr.contains HL7_SEPARATORS.field
    (stored_text HL7EncodingCharacters_init value) = false.
Proof. destruct value; try done; apply escape_free_of_field_separator. Qed.

Lemma component_text_free_of_field_separator value :
  PyStr.contains HL7_SEPARATORS.field
    (component_text HL7EncodingCharacters_init value) = false.
Proof.
  unfold component_text. destruct (truthy value); [|done].
  apply escape_free_of_field_separator.
Qed.

Lemma ensured_fields_free_of c field_pos fs :
  free_of c fs -> free_of c (ensured_fields field_pos fs).
Proof.
  intros H. unfold ensured_fields.
  destruct (Z.of_nat (length fs) <? field_pos); [|done].
  apply Forall_app. split; [done|].
  apply Forall_app. split; [by apply Forall_replicate|by repeat constructor].
Qed.

(** X6.  On a segment with the separators of the source whose fields hold no
    field separator, [add_field], [set_field] and [add_component] leave
    fields that hold no field separator, whatever the value and the
    positions. *)
Theorem operations_keep_fields_free_of_field_separator
    (value : PyValue) (position field_pos comp_pos : Z) (self : HL7Segment) :
  encoding self = HL7EncodingCharacters_init ->
  free_of HL7_SEPARATORS.field (fields self) ->
  free_of HL7_SEPARATORS.field (fields (add_field value position self).2) /\
  free_of HL7_SEPARATORS.field (fields (set_field value position self).2) /\
  free_of HL7_SEPARATORS.field
    (fields (add_component value field_pos comp_pos self).2).
Proof.
  intros He Hfree.
  assert (Hadd : free_of HL7_SEPARATORS.field
                   (fields (add_field value position self).2)).
  { rewrite add_field_run, He. cbn.
    apply Forall_app. split; [done|].
    apply Forall_app. split; [by apply Forall_replicate|].
    constructor; [apply stored_text_free_of_field_separator|constructor]. }
  split; [done|]. split.
  - destruct (Z.lt_ge_cases position 1) as [Hlow|Hpos].
    { by rewrite set_field_invalid. }
    destruct (Z.lt_ge_cases (Z.of_nat (length (fields self))) position)
      as [Hlt|Hge].
    + rewrite set_field_beyond by done.
      by rewrite add_field_run in Hadd.
    + rewrite set_field_within by lia. rewrite He. cbn.
      apply Forall_insert; [done|].
      apply stored_text_free_of_field_separator.
  - destruct (Z.lt_ge_cases field_pos 1) as [Hlow|Hf].
    { rewrite add_component_invalid by (by left). done. }
    destruct (Z.lt_ge_cases comp_pos 1) as [Hlow|Hc].
    { rewrite add_component_invalid by (by right). done. }
    destruct (add_component_run value field_pos comp_pos self Hf Hc)
      as (old & Hold & ->).
    rewrite He. cbn.
    pose proof (ensured_fields_free_of _ field_pos _ Hfree) as Hens.
    apply Forall_insert; [done|].
    apply join_free_of; [done|].
    apply Forall_insert; [|apply component_text_free_of_field_separator].
    rewrite pad_to_replicate.
    apply Forall_app. split; [|by apply Forall_replicate].
    unfold components_of. destruct (PyStr.nonempty old); [|constructor].
    apply split_parts_free_of.
    eapply Forall_lookup_1 in Hens; [|exact Hold]. done.
Qed.

Lemma operations_keep_fields_free_of_field_separator_witness :
  free_of HL7_SEPARATORS.field (fields three_field_segment) /\
  free_of HL7_SEPARATORS.field
    (fields (set_field (PyString "a|b") 2 three_field_segment).2).
Proof.
  assert (H : free_of HL7_SEPARATORS.field (fields three_field_segment))
    by (repeat constructor).
  split; [exact H|].
  destruct (operations_keep_fields_free_of_field_separator
              (PyString "a|b") 2 1 1 three_field_segment eq_refl H)
    as (_ & Hset & _).
  exact Hset.
Defined.

(** X7.  The text of a segment splits back at the field separator into the
    tag and the fields, when neither the tag nor a field holds the field
    separator and there is a field; without a field it splits into the tag
    and one empty text. *)
Theorem build_splits_back (self : HL7Segment) :
  PyStr.contains (field_separator (encoding self)) (segment_id self) = false ->
  free_of (field_separator (encoding self)) (fields self) ->
  (fields self <> [] ->
   PyStr.split (field_separator (encoding self)) (build self)
     = segment_id self :: fields self) /\
  (fields self = [] ->
   PyStr.split (field_separator (encoding self)) (build self)
     = [segment_id self; EmptyString]).
Proof.
  intros Hid Hfields. unfold build. cbn zeta.
  rewrite split_app_sep by done. split.
  - intros Hne. f_equal. by apply split_join.
  - intros ->. done.
Qed.

Lemma build_splits_back_witness :
  PyStr.split "|" (build three_field_segment) = ["PID"; "a"; "b"; "c"].
Proof.
  destruct (build_splits_back three_field_segment) as [H _].
  - reflexivity.
  - repeat constructor.
  - apply H. discriminate.
Defined.

(** ** Consecutive calls of [add_field] *)

Lemma add_fields_nil self : add_fields [] self = (inr tt, self).
Proof. reflexivity. Qed.

Lemma add_fields_cons v p items self :
  add_fields ((v, p) :: items) self =
    add_fields items
      (with_fields self
         (fields self
            ++ replicate (Z.to_nat (p - Z.of_nat (length (fields self))))
                 EmptyString
            ++ [stored_text (encoding self) v])).
Proof.
  unfold add_fields. cbn [for_each]. unfold mbind, py_bind. cbn [fst snd].
  by rewrite add_field_run.
Qed.

Lemma add_fields_ascending_run items : forall self,
  ascending_from (Z.of_nat (length (fields self))) (items.*2) = true ->
  exists fs,
    add_fields items self = (inr tt, with_fields self fs) /\
    (forall i : nat, (i < length (fields self))%nat ->
       fs !! i = fields self !! i) /\
    (forall v p, (v, p) ∈ items ->
       fs !! Z.to_nat p = Some (stored_text (encoding self) v)) /\
    (forall i : nat,
       (length (fields self) <= i < length fs)%nat ->
       Z.of_nat i ∉ items.*2 -> fs !! i = Some EmptyString) /\
    (forall v p, last items = Some (v, p) -> Z.of_nat (length fs) = p + 1) /\
    (length (fields self) <= length fs)%nat.
Proof.
  induction items as [|[v p] items IH]; intros self Hasc.
  - exists (fields self). rewrite add_fields_nil, with_fields_same.
    split; [done|]. split; [done|].
    split; [intros v p Hin; by apply elem_of_nil in Hin|].
    split; [intros i Hi; lia|].
    split; [intros v p Hl; discriminate|done].
  - cbn in Hasc. apply andb_prop in Hasc as [Hle Hasc].
    apply Z.leb_le in Hle.
    rewrite add_fields_cons.
    set (n := length (fields self)) in *.
    set (k := Z.to_nat (p - Z.of_nat n)).
    set (text := stored_text (encoding self) v).
    set (self1 := with_fields self (fields self ++ replicate k EmptyString ++ [text])).
    assert (Hlen1 : Z.of_nat (length (fields self1)) = p + 1).
    { cbn. rewrite !length_app, length_replicate. cbn. lia. }
    destruct (IH self1) as (fs & Hrun & Hold & Hitems & Hgaps & Hlast & Hgrow).
    { by rewrite Hlen1. }
    exists fs. split; [exact Hrun|].
    assert (Hfirst : forall i : nat, (i < length (fields self1))%nat ->
              fs !! i = (fields self ++ replicate k EmptyString ++ [text]) !! i).
    { intros i Hi. by rewrite Hold. }
    split; [|split; [|split; [|split]]].
    + intros i Hi. rewrite Hfirst by lia. by apply lookup_app_l.
    + intros v' p' Hin. apply elem_of_cons in Hin as [[= -> ->]|Hin].
      * rewrite Hfirst by lia.
        rewrite lookup_app_r by lia. rewrite lookup_app_r.
        -- rewrite length_replicate.
           by replace (Z.to_nat p - length (fields self) - k)%nat
             with O by lia.
        -- rewrite length_replicate. lia.
      * by apply Hitems.
    + intros i [Hlo Hhi] Hnot. cbn in Hnot.
      apply not_elem_of_cons in Hnot as [Hne Hnot].
      destruct (decide (i < length (fields self1))%nat) as [Hin1|Hout1].
      * rewrite Hfirst by done.
        rewrite lookup_app_r by lia. rewrite lookup_app_l.
        -- apply lookup_replicate_2. lia.
        -- rewrite length_replicate. lia.
      * apply Hgaps; [lia|done].
    + intros v' p' Hl. destruct items as [|item items].
      * cbn in Hl. injection Hl as -> ->.
        rewrite add_fields_nil in Hrun. injection Hrun as <-. exact Hlen1.
      * apply (Hlast v' p'). exact Hl.
    + cbn in Hgrow. rewrite !length_app in Hgrow. lia.
Qed.

(** X8.  Consecutive calls of [add_field] whose positions go up strictly and
    start at the number of fields or later: every call returns normally, the
    fields that were there are kept, each value is stored (as its escaped
    text, the empty text for [None]) at the index of its position counted
    from 0, which is one place after the position counted from 1, every
    index in between reads as the empty text, and the number of fields is
    the last position plus one. *)
Theorem add_fields_ascending
    (items : list (PyValue * Z)) (self : HL7Segment) :
  ascending_from (Z.of_nat (length (fields self))) (items.*2) = true ->
  (add_fields items self).1 = inr tt /\
  (forall i : nat, (i < length (fields self))%nat ->
     fields (add_fields items self).2 !! i = fields self !! i) /\
  (forall v p, (v, p) ∈ items ->
     fields (add_fields items self).2 !! Z.to_nat p
       = Some (stored_text (encoding self) v)) /\
  (forall i : nat,
     (length (fields self) <= i < length (fields (add_fields items self).2))%nat ->
     Z.of_nat i ∉ items.*2 ->
     fields (add_fields items self).2 !! i = Some EmptyString) /\
  (forall v p, last items = Some (v, p) ->
     Z.of_nat (length (fields (add_fields items self).2)) = p + 1).
Proof.
  intros Hasc.
  destruct (add_fields_ascending_run items self Hasc)
    as (fs & -> & Hold & Hitems & Hgaps & Hlast & _).
  repeat split; done.
Qed.

Lemma add_fields_ascending_witness :
  ascending_from 0 [1; 2; 5] = true /\
  fields (add_fields [(PyString "1", 1); (PyString "DA", 2); (PyInt 0, 5)]
            empty_segment).2
    !! 2%nat = Some "DA" /\
  Z.of_nat
    (length (fields (add_fields
                       [(PyString "1", 1); (PyString "DA", 2); (PyInt 0, 5)]
                       empty_segment).2)) = 6.
Proof.
  split; [reflexivity|].
  destruct (add_fields_ascending
              [(PyString "1", 1); (PyString "DA", 2); (PyInt 0, 5)]
              empty_segment eq_refl)
    as (_ & _ & Hitems & _ & Hlast).
  split.
  - apply (Hitems (PyString "DA") 2). apply list_elem_of_further, list_elem_of_here.
  - apply (Hlast (PyInt 0) 5). reflexivity.
Defined.

(** ** [set_field] and [add_component] on what is there *)

(** X9.  [set_field] at a position from 1 up to the number of fields returns
    normally, keeps the number of fields, stores the text of the value at
    that position and keeps every other field; a second call with the same
    arguments changes nothing. *)
Theorem set_field_existing_position
    (value : PyValue) (position : Z) (self : HL7Segment) :
  1 <= position <= Z.of_nat (length (fields self)) ->
  (set_field value position self).1 = inr tt /\
  length (fields (set_field value position self).2) = length (fields self) /\
  fields (set_field value position self).2 !! Z.to_nat (position - 1)
    = Some (stored_text (encoding self) value) /\
  (forall i : nat, i <> Z.to_nat (position - 1) ->
     fields (set_field value position self).2 !! i = fields self !! i) /\
  set_field value position (set_field value position self).2
    = (inr tt, (set_field value position self).2).
Proof.
  intros H. rewrite set_field_within by done. cbn.
  split; [done|]. split; [apply length_insert|].
  split; [apply list_lookup_insert_eq; lia|].
  split; [intros i Hi; by apply list_lookup_insert_ne|].
  rewrite set_field_within by (cbn; rewrite length_insert; lia).
  cbn. unfold with_fields. cbn. by rewrite list_insert_insert_eq.
Qed.

Lemma set_field_existing_position_witness :
  (1 <= 2 <= Z.of_nat (length (fields three_field_segment))) /\
  fields (set_field (PyString "x^y") 2 three_field_segment).2 !! 1%nat
    = Some "x\E\S\E\y".
Proof.
  assert (H : 1 <= 2 <= Z.of_nat (length (fields three_field_segment)))
    by (cbn; lia).
  split; [exact H|].
  destruct (set_field_existing_position
              (PyString "x^y") 2 three_field_segment H)
    as (_ & _ & Hread & _).
  exact Hread.
Defined.

(** X10.  [add_component] on a field that is there, at positions from 1 on
    and with the separators of the source: only that field changes, and it
    then splits at the component separator into the components it had (none
    for an empty field), followed by empty ones up to [comp_pos] where they
    were fewer, with the component at [comp_pos] replaced by the escaped text
    of the value, or by the empty text for a value that counts as false. *)
Theorem add_component_on_existing_field
    (value : PyValue) (field_pos comp_pos : Z) (self : HL7Segment)
    (old : string) :
  encoding self = HL7EncodingCharacters_init ->
  1 <= field_pos -> 1 <= comp_pos ->
  fields self !! Z.to_nat (field_pos - 1) = Some old ->
  exists new,
    add_component value field_pos comp_pos self =
      (inr tt,
       with_fields self (<[ Z.to_nat (field_pos - 1) := new ]> (fields self)))
    /\
    PyStr.split HL7_SEPARATORS.component new =
      <[ Z.to_nat (comp_pos - 1) :=
           component_text HL7EncodingCharacters_init value ]>
        (components_of HL7_SEPARATORS.component old
           ++ replicate
                (Z.to_nat
                   (comp_pos
                    - Z.of_nat
                        (length (components_of HL7_SEPARATORS.component old))))
                EmptyString).
Proof.
  intros He Hf Hc Hold.
  pose proof (lookup_lt_Some _ _ _ Hold) as Hlen.
  destruct (add_component_run value field_pos comp_pos self Hf Hc)
    as (old' & Hold' & Hrun).
  assert (Hens : ensured_fields field_pos (fields self) = fields self).
  { unfold ensured_fields.
    destruct (Z.ltb_spec (Z.of_nat (length (fields self))) field_pos);
      [lia|done]. }
  rewrite Hens in Hold', Hrun.
  assert (old' = old) as -> by congruence.
  rewrite He in Hrun.
  cbn [component_separator HL7EncodingCharacters_init] in Hrun.
  rewrite pad_to_replicate in Hrun.
  eexists. split; [exact Hrun|].
  apply split_join.
  - intros Hnil. apply (f_equal length) in Hnil.
    rewrite length_insert, length_app, length_replicate in Hnil.
    cbn in Hnil. lia.
  - apply Forall_insert.
    + apply Forall_app. split; [|by apply Forall_replicate].
      unfold components_of. destruct (PyStr.nonempty old); [|constructor].
      apply split_parts_clean.
    + unfold component_text. destruct (truthy value); [|done].
      apply escape_has_no_component_separator.
Qed.

Lemma add_component_on_existing_field_witness :
  fields three_field_segment !! Z.to_nat (2 - 1) = Some "b" /\
  exists new,
    add_component (PyString "x") 2 3 three_field_segment =
      (inr tt,
       with_fields three_field_segment
         (<[ 1%nat := new ]> (fields three_field_segment))) /\
    PyStr.split HL7_SEPARATORS.component new = ["b"; EmptyString; "x"].
Proof.
  split; [reflexivity|].
  destruct (add_component_on_existing_field
              (PyString "x") 2 3 three_field_segment "b")
    as (new & Hrun & Hsplit); [reflexivity|lia|lia|reflexivity|].
  exists new. split; [exact Hrun|exact Hsplit].
Defined.

(** ** The message, built twice and read back *)

Lemma has_msh_app segs segs' :
  HL7Builder.has_msh (segs ++ segs') =
    HL7Builder.has_msh segs || HL7Builder.has_msh segs'.
Proof. apply existsb_app. Qed.

(** What one call of [build_message] does, and what a second call does
    after it. *)
Lemma build_message_run (now now' : string) (self : HL7Builder.t) :
  exists text added,
    HL7Builder.build_message now self =
      (inr text,
       HL7Builder.with_segments self (HL7Builder.segments self ++ added)) /\
    (added = [] \/
     exists fs, added = [ {| segment_id := "MSH";
                             encoding := HL7Builder.encoding self;
                             fields := fs |} ] /\
                HL7Config.include_msh (HL7Builder.config self) = true /\
                HL7Builder.has_msh (HL7Builder.segments self) = false) /\
    text =
      PyStr.join SEGMENT_DELIMITER
        (map build (HL7Builder.segments self ++ added)) /\
    HL7Builder.build_message now'
      (HL7Builder.with_segments self (HL7Builder.segments self ++ added)) =
      (inr text,
       HL7Builder.with_segments self (HL7Builder.segments self ++ added)).
Proof.
  destruct (HL7Config.include_msh (HL7Builder.config self)) eqn:Hon;
    [destruct (HL7Builder.has_msh (HL7Builder.segments self)) eqn:Hhas|].
  - exists (PyStr.join SEGMENT_DELIMITER (map build (HL7Builder.segments self))), [].
    rewrite app_nil_r.
    replace (HL7Builder.with_segments self (HL7Builder.segments self))
      with self by (by destruct self).
    rewrite !build_message_as_is by (by right). repeat split. by left.
  - destruct (build_message_synthesizes_header now self Hon Hhas) as [fs Hrun].
    cbn zeta in Hrun. eexists _, _. split; [exact Hrun|].
    split; [right; eauto|]. split; [done|].
    rewrite build_message_as_is; [done|].
    right. cbn. rewrite has_msh_app. cbn. apply orb_true_r.
  - exists (PyStr.join SEGMENT_DELIMITER (map build (HL7Builder.segments self))), [].
    rewrite app_nil_r.
    replace (HL7Builder.with_segments self (HL7Builder.segments self))
      with self by (by destruct self).
    rewrite !build_message_as_is by (by left). repeat split. by left.
Qed.

(** X11.  [build_message] never raises, keeps the segments that are there in
    their order and adds at most one segment after them, a header and only
    when the header is switched on and none is there; a second call returns
    the same text as the first and leaves the builder as the first call
    left it, so that no second header is made. *)
Theorem build_message_twice (now now' : string) (self : HL7Builder.t) :
  exists text added,
    HL7Builder.build_message now self =
      (inr text,
       HL7Builder.with_segments self (HL7Builder.segments self ++ added)) /\
    (added = [] \/
     exists fs, added = [ {| segment_id := "MSH";
                             encoding := HL7Builder.encoding self;
                             fields := fs |} ] /\
                HL7Config.include_msh (HL7Builder.config self) = true /\
                HL7Builder.has_msh (HL7Builder.segments self) = false) /\
    text =
      PyStr.join SEGMENT_DELIMITER
        (map build (HL7Builder.segments self ++ added)) /\
    HL7Builder.build_message now'
      (HL7Builder.with_segments self (HL7Builder.segments self ++ added)) =
      (inr text,
       HL7Builder.with_segments self (HL7Builder.segments self ++ added)).
Proof. apply build_message_run. Qed.

(** ** The header line in the reader *)

Lemma parse_line_header line r :
  exists r',
    parse_line line r = (inr tt, r') /\
    r_message_type r' = message_type_after_line line (r_message_type r) /\
    r_message_control_id r' =
      message_control_id_after_line line (r_message_control_id r).
Proof.
  unfold parse_line, message_type_after_line, message_control_id_after_line.
  destruct (PyStr.startswith line "MSH") eqn:Hmsh.
  - unfold mbind at 1, py_bind at 1. unfold mbind at 1, py_bind at 1.
    rewrite item_or_empty_run by lia. run_reader.
    rewrite item_or_empty_run by lia.
    eexists. done.
  - destruct (PyStr.startswith line "MSA") eqn:Hmsa; [|eexists; done].
    destruct (Z.leb_spec 2 (Z.of_nat (length (PyStr.split "|" line))))
      as [Hlen|Hlen]; [|eexists; done].
    destruct (lookup_lt_is_Some_2 (PyStr.split "|" line) 1) as [c Hc]; [lia|].
    unfold mbind at 1, py_bind at 1. unfold mbind at 1, py_bind at 1.
    rewrite (item_run _ 1 c) by done.
    unfold mbind at 1, py_bind at 1. rewrite item_or_empty_run by lia.
    unfold mbind at 1, py_bind at 1. rewrite item_or_empty_run by lia.
    run_reader.
    rewrite (item_run _ 1 c) by done.
    destruct (String.eqb c "AA"); [eexists; done|].
    rewrite (item_run _ 1 c) by done.
    destruct (String.eqb c "AE"); [eexists; done|].
    rewrite (item_run _ 1 c) by done.
    destruct (String.eqb c "AR"); eexists; done.
Qed.

Lemma parse_lines_header lines r :
  exists r',
    for_each lines parse_line r = (inr tt, r') /\
    r_message_type r' =
      fold_left (fun t line => message_type_after_line line t)
        lines (r_message_type r) /\
    r_message_control_id r' =
      fold_left (fun t line => message_control_id_after_line line t)
        lines (r_message_control_id r).
Proof.
  revert r. induction lines as [|line lines IH]; intros r; cbn.
  - by exists r.
  - destruct (parse_line_header line r) as (r1 & Hrun & Htype & Hid).
    destruct (IH r1) as (r' & Hrun' & Htype' & Hid').
    exists r'. unfold mbind, py_bind. rewrite Hrun, Hrun'.
    split; [done|]. by rewrite Htype', Htype, Hid', Hid.
Qed.

Lemma header_fields_after_other_lines lines t :
  Forall (fun line => PyStr.startswith line "MSH" = false) lines ->
  fold_left (fun t line => message_type_after_line line t) lines t = t /\
  fold_left (fun t line => message_control_id_after_line line t) lines t = t.
Proof.
  intros H. revert t. induction H as [|line lines Hline _ IH]; intros t; cbn.
  - done.
  - unfold message_type_after_line at 2, message_control_id_after_line at 2.
    rewrite Hline. apply IH.
Qed.

(** X12.  What the reader stores from header lines.  When no line begins
    with [MSH] the result has no message type and no control id.  Otherwise
    they are the ninth and the tenth of the parts between ["|"] of the last
    line that begins with [MSH], each the empty text when that line has
    fewer parts. *)
Theorem parse_hl7_response_header (hl7_message : string) :
  exists result,
    parse_hl7_response hl7_message = inr result /\
    (Forall (fun l => PyStr.startswith l "MSH" = false)
       (PyStr.split SEGMENT_DELIMITER hl7_message) ->
     r_message_type result = None /\ r_message_control_id result = None) /\
    (forall before line after,
       PyStr.split SEGMENT_DELIMITER hl7_message = before ++ line :: after ->
       PyStr.startswith line "MSH" = true ->
       Forall (fun l => PyStr.startswith l "MSH" = false) after ->
       r_message_type result
         = Some (default EmptyString (PyStr.split "|" line !! 8%nat)) /\
       r_message_control_id result
         = Some (default EmptyString (PyStr.split "|" line !! 9%nat))).
Proof.
  unfold parse_hl7_response.
  edestruct (parse_lines_header (PyStr.split SEGMENT_DELIMITER hl7_message))
    as (result & -> & Htype & Hid).
  cbn in Htype, Hid.
  exists result. split; [done|]. split.
  - intros Hnone.
    destruct (header_fields_after_other_lines _ None Hnone) as [H1 H2].
    by rewrite Htype, Hid, H1, H2.
  - intros before line after Hlines Hmsh Hafter.
    rewrite Hlines, fold_left_app in Htype, Hid. cbn in Htype, Hid.
    unfold message_type_after_line at 2 in Htype.
    unfold message_control_id_after_line at 2 in Hid.
    rewrite Hmsh in Htype, Hid.
    destruct (header_fields_after_other_lines after
                (Some (default EmptyString (PyStr.split "|" line !! 8%nat)))
                Hafter) as [H1 _].
    destruct (header_fields_after_other_lines after
                (Some (default EmptyString (PyStr.split "|" line !! 9%nat)))
                Hafter) as [_ H2].
    by rewrite Htype, Hid, H1, H2.
Qed.

Lemma parse_hl7_response_header_witness :
  exists result,
    parse_hl7_response acknowledgment_message = inr result /\
    r_message_type result = Some "ACK" /\
    r_message_control_id result = Some "MSG1".
Proof.
  destruct (parse_hl7_response_header acknowledgment_message)
    as (result & Hrun & _ & Hline).
  exists result. split; [exact Hrun|].
  apply (Hline [] acknowledgment_header_line ["MSA|AA|MSG1"]).
  - reflexivity.
  - reflexivity.
  - repeat constructor.
Defined.

(** ** The tags of a built message, read back *)

Lemma take_of_append (s t : string) :
  PyStr.take (String.length s) (s +:+ t) = s.
Proof.
  unfold PyStr.take. induction s as [|a s IH]; simpl.
  - by destruct t.
  - by rewrite IH.
Qed.

(** The reader on the joined texts of segments with tags of three characters
    and texts without the segment delimiter. *)
Lemma parse_of_built_segments (segs : list HL7Segment) :
  segs <> [] ->
  Forall (fun s => String.length (segment_id s) = 3%nat /\
                   PyStr.contains SEGMENT_DELIMITER (build s) = false) segs ->
  exists result,
    parse_hl7_response (PyStr.join SEGMENT_DELIMITER (map build segs))
      = inr result /\
    r_segments result = map segment_id segs.
Proof.
  intros Hne Hsegs.
  destruct (parse_hl7_response_run
              (PyStr.join SEGMENT_DELIMITER (map build segs)))
    as (result & Hrun & Hresult & _).
  cbn zeta in Hresult.
  exists result. split; [exact Hrun|].
  rewrite Hresult, split_join.
  - rewrite map_map. apply map_ext_Forall.
    eapply Forall_impl; [exact Hsegs|].
    intros s [Hlen _]. cbn beta. unfold build. cbn zeta.
    rewrite <- Hlen. apply take_of_append.
  - by destruct segs.
  - apply Forall_map. eapply Forall_impl; [exact Hsegs|].
    by intros s [_ Hclean].
Qed.

(** X13.  The reader applied to the text that [build_message] returns: when
    every segment of the message has a tag of three characters and a text
    without the segment delimiter, the segments of the result are the tags of
    the segments of the message, in their order; for a message without any
    segment the result has one segment, the empty text. *)
Theorem parse_reads_back_segment_tags (now : string) (self : HL7Builder.t) :
  Forall (fun s => String.length (segment_id s) = 3%nat /\
                   PyStr.contains SEGMENT_DELIMITER (build s) = false)
    (HL7Builder.segments (HL7Builder.build_message now self).2) ->
  exists text result,
    (HL7Builder.build_message now self).1 = inr text /\
    parse_hl7_response text = inr result /\
    (HL7Builder.segments (HL7Builder.build_message now self).2 <> [] ->
     r_segments result =
       map segment_id
         (HL7Builder.segments (HL7Builder.build_message now self).2)) /\
    (HL7Builder.segments (HL7Builder.build_message now self).2 = [] ->
     r_segments result = [EmptyString]).
Proof.
  destruct (build_message_run now now self)
    as (text & added & -> & _ & -> & _).
  cbn [fst snd HL7Builder.segments HL7Builder.with_segments].
  set (segs := HL7Builder.segments self ++ added).
  intros Hsegs.
  clearbody segs. destruct segs as [|seg rest].
  - eexists _, _. split; [done|]. split; [reflexivity|]. split; done.
  - destruct (parse_of_built_segments (seg :: rest)) as (result & Hrun & Hres);
      [done|done|].
    eexists _, result. split; [done|]. split; [exact Hrun|]. split; done.
Qed.

Lemma parse_reads_back_segment_tags_witness :
  exists text result,
    (HL7Builder.build_message "20240101120000" builder_without_header).1
      = inr text /\
    parse_hl7_response text = inr result /\
    r_segments result = ["PID"; "MSH"].
Proof.
  destruct (parse_reads_back_segment_tags "20240101120000"
              builder_without_header)
    as (text & result & Hbuild & Hparse & Hsegs & _).
  - vm_compute.
    repeat (constructor; [split; vm_compute; reflexivity|]). constructor.
  - exists text, result. split; [exact Hbuild|]. split; [exact Hparse|].
    rewrite Hsegs; [vm_compute; reflexivity|].
    intros H. vm_compute in H. discriminate.
Defined.

(** ** Running the catalog *)

Lemma add_field_bind_fields {A} value position (k : unit -> Method A) id e fs :
  mbind k (add_field value position)
    {| segment_id := id; encoding := e; fields := fs |} =
  k tt {| segment_id := id; encoding := e;
          fields := fs
            ++ replicate (Z.to_nat (position - Z.of_nat (length fs)))
                 EmptyString
            ++ [stored_text e value] |}.
Proof. unfold mbind, py_bind. by rewrite add_field_run. Qed.

Lemma add_field_fields value position id e fs :
  add_field value position {| segment_id := id; encoding := e; fields := fs |} =
  (inr tt,
   {| segment_id := id; encoding := e;
      fields := fs
        ++ replicate (Z.to_nat (position - Z.of_nat (length fs))) EmptyString
        ++ [stored_text e value] |}).
Proof. by rewrite add_field_run. Qed.

Lemma ret_bind {S A B} (a : A) (k : A -> Py S B) (s : S) :
  mbind k (mret a) s = k a s.
Proof. reflexivity. Qed.

(** The number of empty texts that a call pads with, computed. *)
Ltac compute_padding :=
  lazymatch goal with
  | |- context [replicate (Z.to_nat (?p - Z.of_nat (length ?fs))) ?x] =>
      let k := eval vm_compute in (Z.to_nat (p - Z.of_nat (length fs))) in
      change (replicate (Z.to_nat (p - Z.of_nat (length fs))) x)
        with (replicate k x)
  end;
  cbn [replicate app].

(** Runs the calls of [add_field] of a method on a segment whose fields are
    listed. *)
Ltac run_add_fields :=
  repeat first
    [ rewrite add_field_bind_fields; compute_padding
    | rewrite add_field_fields; compute_padding
    | rewrite ret_bind ].

(** [add_nte_segment] appends one segment with these four fields. *)
Lemma add_nte_segment_run comment set_id source self :
  add_nte_segment comment set_id source self =
    (inr tt,
     HL7Builder.with_segments self
       (HL7Builder.segments self ++
        [ {| segment_id := "NTE"; encoding := HL7Builder.encoding self;
             fields :=
               [ EmptyString;
                 _escape_hl7 (HL7Builder.encoding self) (py_str (PyInt set_id));
                 _escape_hl7 (HL7Builder.encoding self) source;
                 _escape_hl7 (HL7Builder.encoding self) comment ] |} ])).
Proof.
  unfold add_nte_segment, HL7Builder.on_segment, HL7Segment_init.
  unfold mbind at 1, py_bind at 1, HL7Builder.get_self.
  unfold mbind at 1, py_bind at 1.
  run_add_fields. reflexivity.
Qed.

Ltac start_segment :=
  unfold HL7Builder.on_segment, HL7Segment_init;
  unfold mbind at 1, py_bind at 1, HL7Builder.get_self;
  unfold mbind at 1, py_bind at 1.

Lemma with_segments_twice self segs segs' :
  HL7Builder.with_segments (HL7Builder.with_segments self segs) segs' =
    HL7Builder.with_segments self segs'.
Proof. reflexivity. Qed.

Lemma with_segments_same self :
  HL7Builder.with_segments self (HL7Builder.segments self) = self.
Proof. by destruct self. Qed.

Lemma enumerate_cons {A} (x : A) l start :
  enumerate (x :: l) start = (start, x) :: enumerate l (start + 1).
Proof.
  unfold enumerate. cbn [length].
  rewrite seqZ_cons by lia. cbn. do 3 f_equal; lia.
Qed.

(** [add_pv1_segment] appends one segment of 51 fields. *)
Lemma add_pv1_segment_run patient_class self :
  add_pv1_segment patient_class self =
    (inr tt,
     HL7Builder.with_segments self
       (HL7Builder.segments self ++
        [ {| segment_id := "PV1"; encoding := HL7Builder.encoding self;
             fields :=
               [ EmptyString;
                 _escape_hl7 (HL7Builder.encoding self) "1";
                 _escape_hl7 (HL7Builder.encoding self) patient_class ]
               ++ replicate 48 EmptyString |} ])).
Proof.
  unfold add_pv1_segment. start_segment.
  run_add_fields.
  let l := eval vm_compute in (py_range 3 51) in
  change (py_range 3 51) with l.
  cbn [for_each]. run_add_fields. reflexivity.
Qed.

(** A loop whose body appends segments that depend on the encoding of the
    builder and on the item appends them for each item in turn. *)
Lemma for_each_appends {A} (body : A -> Py HL7Builder.t unit)
    (made : HL7EncodingCharacters -> A -> list HL7Segment) (l : list A) :
  (forall x self,
     body x self =
       (inr tt,
        HL7Builder.with_segments self
          (HL7Builder.segments self ++ made (HL7Builder.encoding self) x))) ->
  forall self,
    for_each l body self =
      (inr tt,
       HL7Builder.with_segments self
         (HL7Builder.segments self
            ++ concat (map (made (HL7Builder.encoding self)) l))).
Proof.
  intros Hbody. induction l as [|x l IH]; intros self.
  - cbn. by rewrite app_nil_r, with_segments_same.
  - cbn [for_each map concat]. unfold mbind, py_bind.
    rewrite Hbody, IH.
    cbn [HL7Builder.segments HL7Builder.with_segments HL7Builder.encoding].
    by rewrite <- app_assoc.
Qed.

Lemma concat_map_singleton {A B} (f : A -> B) (l : list A) :
  concat (map (fun x => [f x]) l) = map f l.
Proof. induction l as [|x l IH]; cbn; [done|]. by rewrite IH. Qed.

(** [add_allergy_segments] appends one segment for each allergy, numbered
    from 1. *)
Lemma add_allergy_segments_run allergies self :
  add_allergy_segments allergies self =
    (inr tt,
     HL7Builder.with_segments self
       (HL7Builder.segments self
          ++ map (allergy_segment (HL7Builder.encoding self))
               (enumerate allergies 1))).
Proof.
  unfold add_allergy_segments.
  rewrite (for_each_appends _ (fun e item => [allergy_segment e item])).
  - by rewrite concat_map_singleton.
  - intros item self'. start_segment. run_add_fields. reflexivity.
Qed.

(** ** [_format_name] *)

Lemma py_getitem_last {A} (l : list A) x :
  last l = Some x -> py_getitem l (-1) = Some x.
Proof.
  intros Hlast. rewrite last_lookup in Hlast.
  pose proof (lookup_lt_Some _ _ _ Hlast) as Hlt.
  unfold py_getitem, py_index. cbn [Z.ltb Z.compare].
  destruct (Z.leb_spec 0 (-1 + Z.of_nat (length l))); [|lia].
  destruct (Z.ltb_spec (-1 + Z.of_nat (length l)) (Z.of_nat (length l)));
    [|lia].
  cbn [andb]. rewrite <- Hlast. f_equal. lia.
Qed.

Lemma py_getitem_head {A} (l : list A) x :
  head l = Some x -> py_getitem l 0 = Some x.
Proof. destruct l; [done|]. intros [= ->]. reflexivity. Qed.

(** [_format_name] never raises: it returns [formatted_name]. *)
Lemma format_name_run {S} (name : string) (s : S) :
  _format_name name s = (inr (formatted_name name), s).
Proof.
  unfold _format_name, formatted_name. cbv zeta.
  destruct (Z.leb_spec 2 (Z.of_nat (length (split_whitespace name))))
    as [Hlen|Hlen]; [|done].
  destruct (split_whitespace name) as [|first rest] eqn:Hparts;
    [cbn in Hlen; lia|].
  destruct (last (first :: rest)) as [lst|] eqn:Hlast.
  - unfold py_item, mbind, py_bind.
    rewrite (py_getitem_last _ _ Hlast). unfold mret, py_ret. cbv beta iota.
    rewrite (py_getitem_head _ first) by done. reflexivity.
  - by apply last_None in Hlast.
Qed.

Lemma format_name_bind {S A} (name : string) (k : string -> Py S A) (s : S) :
  mbind k (_format_name name) s = k (formatted_name name) s.
Proof. unfold mbind, py_bind. by rewrite format_name_run. Qed.

Lemma slice_1_m1_middle {A} (first lst : A) middle :
  slice_1_m1 (first :: middle ++ [lst]) = middle.
Proof.
  unfold slice_1_m1.
  change (drop 1 (first :: middle ++ [lst])) with (middle ++ [lst]).
  apply take_app_length'. cbn [length]. rewrite length_app. cbn [length]. lia.
Qed.

Lemma append_empty_r (s : string) : s +:+ EmptyString = s.
Proof. induction s as [|a s IH]; [done|]. by rewrite append_cons, IH. Qed.

Lemma words_after_word (word w rest : string) :
  has_space w = false ->
  words_after word (w +:+ rest) = words_after (word +:+ w) rest.
Proof.
  revert word. induction w as [|a w IH]; intros word H.
  - change (EmptyString +:+ rest) with rest. by rewrite append_empty_r.
  - cbn [has_space] in H. apply orb_false_elim in H as [Ha Hw].
    rewrite append_cons. cbn [words_after]. rewrite Ha, IH by done.
    by rewrite append_assoc.
Qed.

Lemma split_whitespace_two_words (w1 w2 : string) :
  has_space w1 = false -> has_space w2 = false ->
  PyStr.nonempty w1 = true -> PyStr.nonempty w2 = true ->
  split_whitespace (w1 +:+ String " " w2) = [w1; w2].
Proof.
  intros H1 H2 N1 N2. unfold split_whitespace.
  rewrite words_after_word by done.
  change (EmptyString +:+ w1) with w1.
  cbn [words_after]. change (is_space " ") with true. cbv iota. rewrite N1.
  rewrite <- (append_empty_r w2) at 1.
  rewrite words_after_word by done.
  change (EmptyString +:+ w2) with w2. cbn [words_after]. by rewrite N2.
Qed.

(** X14.  [_format_name] never raises.  A name of fewer than two words is
    returned as it is, white space included.  A name of two words or more is
    returned as its last word, its first word and the words in between,
    joined by ["^"]: for two words, the second, the first and an empty third
    component. *)
Theorem format_name_words {S} (name : string) (s : S) :
  (Z.of_nat (length (split_whitespace name)) < 2 ->
   _format_name name s = (inr name, s)) /\
  (forall first middle lst,
     split_whitespace name = first :: middle ++ [lst] ->
     _format_name name s =
       (inr (lst +:+ "^" +:+ first +:+ "^" +:+ PyStr.join "^" middle), s)) /\
  (forall w1 w2,
     name = w1 +:+ String " " w2 ->
     has_space w1 = false -> has_space w2 = false ->
     PyStr.nonempty w1 = true -> PyStr.nonempty w2 = true ->
     _format_name name s = (inr (w2 +:+ "^" +:+ w1 +:+ "^"), s)).
Proof.
  assert (Hwords : forall first middle lst,
            split_whitespace name = first :: middle ++ [lst] ->
            _format_name name s =
              (inr (lst +:+ "^" +:+ first +:+ "^" +:+ PyStr.join "^" middle),
               s)).
  { intros first middle lst Hparts.
    rewrite format_name_run. unfold formatted_name. cbv zeta.
    rewrite Hparts, slice_1_m1_middle.
    destruct (Z.leb_spec 2 (Z.of_nat (length (first :: middle ++ [lst]))))
      as [_|Hlen].
    - rewrite app_comm_cons, last_snoc. reflexivity.
    - cbn in Hlen. rewrite length_app in Hlen. cbn in Hlen. lia. }
  split; [|split; [exact Hwords|]].
  - intros Hlen. rewrite format_name_run. unfold formatted_name. cbv zeta.
    by destruct (Z.leb_spec 2 (Z.of_nat (length (split_whitespace name))));
      [lia|].
  - intros w1 w2 -> H1 H2 N1 N2.
    rewrite (Hwords w1 [] w2); [reflexivity|].
    by apply split_whitespace_two_words.
Qed.

Lemma format_name_words_witness :
  _format_name "John Doe" empty_segment = (inr "Doe^John^", empty_segment) /\
  _format_name " Madonna " empty_segment = (inr " Madonna ", empty_segment).
Proof.
  destruct (format_name_words "John Doe" empty_segment) as (_ & _ & Htwo).
  destruct (format_name_words " Madonna " empty_segment) as (Hone & _).
  split.
  - apply (Htwo "John" "Doe"); reflexivity.
  - apply Hone. vm_compute. reflexivity.
Defined.

Section CatalogProperties.
Variables Decimal datetime date : Type.
Variable Decimal_str : Decimal -> string.
Variable Decimal_bool : Decimal -> bool.
Variable strftime_datetime : datetime -> string.
Variable strftime_date : date -> string.

Local Abbreviation format_date :=
  (_format_hl7_date datetime date strftime_datetime strftime_date).
Local Abbreviation diagnosis_segments :=
  (add_diagnosis_segments datetime date strftime_datetime strftime_date).
Local Abbreviation orc_segment :=
  (add_orc_segment datetime date strftime_datetime strftime_date).
Local Abbreviation rxe_segment :=
  (add_rxe_segment Decimal datetime date Decimal_str
     strftime_datetime strftime_date).
Local Abbreviation rxd_segment :=
  (add_rxd_segment Decimal datetime date Decimal_str Decimal_bool
     strftime_datetime strftime_date).
Local Abbreviation pid_segment :=
  (add_pid_segment Decimal datetime date Decimal_str Decimal_bool
     strftime_datetime strftime_date).
Local Abbreviation pid_segment_obx :=
  (add_pid_segment_obx Decimal datetime date Decimal_str
     strftime_datetime strftime_date).

(** [add_diagnosis_segments] appends one segment of 22 fields for each
    diagnosis, numbered from 1. *)
Lemma add_diagnosis_segments_run (now : Z -> datetime) diagnoses self :
  diagnosis_segments now diagnoses self =
    (inr tt,
     HL7Builder.with_segments self
       (HL7Builder.segments self
          ++ map (diagnosis_segment (HL7Builder.encoding self)
                    (fun idx => strftime_datetime (now idx)))
               (enumerate diagnoses 1))).
Proof.
  unfold add_diagnosis_segments.
  rewrite (for_each_appends _
             (fun e item =>
                [diagnosis_segment e (fun idx => strftime_datetime (now idx))
                   item])).
  - by rewrite concat_map_singleton.
  - intros item self'. start_segment. run_add_fields. reflexivity.
Qed.

(** [add_rxr_segment] appends one segment of 7 fields, with or without a
    site. *)
Lemma add_rxr_segment_run route site self :
  add_rxr_segment route site self =
    (inr tt,
     HL7Builder.with_segments self
       (HL7Builder.segments self ++
        [ {| segment_id := "RXR"; encoding := HL7Builder.encoding self;
             fields := rxr_fields (HL7Builder.encoding self) route site |} ])).
Proof.
  unfold add_rxr_segment, rxr_fields. start_segment.
  destruct site as [[|a site]|]; cbn [truthy_str PyStr.nonempty optional_text];
    run_add_fields; reflexivity.
Qed.

(** [add_orc_segment] appends one segment of 17 fields, whichever of the
    optional arguments are given. *)
Lemma add_orc_segment_run
    now order_control placer_order_number filler_order_number order_status
    response_flag timing_quantity parent_order datetime_of_transaction
    entered_by verified_by ordering_provider self :
  orc_segment now order_control placer_order_number filler_order_number
    order_status response_flag timing_quantity parent_order
    datetime_of_transaction entered_by verified_by ordering_provider self =
    (inr tt,
     HL7Builder.with_segments self
       (HL7Builder.segments self ++
        [ {| segment_id := "ORC"; encoding := HL7Builder.encoding self;
             fields :=
               orc_fields (HL7Builder.encoding self) order_control
                 placer_order_number filler_order_number order_status
                 response_flag timing_quantity parent_order
                 (strftime_datetime (default now datetime_of_transaction))
                 entered_by verified_by ordering_provider |} ])).
Proof.
  unfold add_orc_segment, orc_fields. start_segment.
  destruct (truthy_list timing_quantity), entered_by, verified_by,
    ordering_provider, datetime_of_transaction;
    cbv beta iota; run_add_fields; reflexivity.
Qed.

(** [add_rxe_segment] appends a segment of 31 fields and, after it, the
    route segment of the medication. *)
Lemma add_rxe_segment_run
    medication give_per give_rate give_units give_strength
    give_strength_units provider_instructions delivery_instructions self :
  rxe_segment medication give_per give_rate give_units give_strength
    give_strength_units provider_instructions delivery_instructions self =
    (inr tt,
     HL7Builder.with_segments self
       (HL7Builder.segments self ++
        [ {| segment_id := "RXE"; encoding := HL7Builder.encoding self;
             fields :=
               rxe_fields Decimal datetime date Decimal_str strftime_datetime
                 strftime_date (HL7Builder.encoding self) medication give_per
                 give_rate give_units give_strength give_strength_units |};
          {| segment_id := "RXR"; encoding := HL7Builder.encoding self;
             fields :=
               rxr_fields (HL7Builder.encoding self)
                 (MedicationItem.route medication) None |} ])).
Proof.
  unfold add_rxe_segment, rxe_fields. start_segment.
  cbv zeta. run_add_fields. cbv beta iota.
  unfold mbind, py_bind, HL7Builder.segments_append.
  rewrite add_rxr_segment_run.
  cbn [HL7Builder.segments HL7Builder.with_segments HL7Builder.encoding
         fst snd].
  rewrite <- app_assoc.
  destruct give_rate, give_units, give_strength, give_strength_units;
    reflexivity.
Qed.

(** [add_rxd_segment] appends one segment of 39 fields. *)
Lemma add_rxd_segment_run
    now medication dispense_number quantity_dispensed fill_datetime
    days_supply self :
  rxd_segment now medication dispense_number quantity_dispensed fill_datetime
    days_supply self =
    (inr tt,
     HL7Builder.with_segments self
       (HL7Builder.segments self ++
        [ {| segment_id := "RXD"; encoding := HL7Builder.encoding self;
             fields :=
               rxd_fields Decimal datetime Decimal_str Decimal_bool
                 (HL7Builder.encoding self) medication dispense_number
                 quantity_dispensed
                 (strftime_datetime (default now fill_datetime)) |} ])).
Proof.
  unfold add_rxd_segment, rxd_fields. start_segment.
  run_add_fields. destruct fill_datetime; reflexivity.
Qed.

(** An observation segment of [add_pid_segment]: 17 fields, numbered one
    more than the observation segments that are there. *)
Lemma add_pid_segment_obx_run code value units now self :
  pid_segment_obx code value units now self =
    (inr tt,
     HL7Builder.with_segments self
       (HL7Builder.segments self ++
        [ {| segment_id := "OBX"; encoding := HL7Builder.encoding self;
             fields :=
               obx_fields Decimal Decimal_str (HL7Builder.encoding self)
                 (obx_count (HL7Builder.segments self) + 1) code value units
                 (strftime_datetime now) |} ])).
Proof.
  unfold add_pid_segment_obx, obx_fields, obx_count. start_segment.
  run_add_fields. reflexivity.
Qed.

Lemma obx_count_app segs segs' :
  obx_count (segs ++ segs') = obx_count segs + obx_count segs'.
Proof. unfold obx_count. rewrite List.filter_app, length_app. lia. Qed.

Lemma obx_count_observation_segments e n code measurement units now :
  obx_count
    (observation_segments Decimal datetime Decimal_str Decimal_bool
       strftime_datetime e n code measurement units now) =
  Z.of_nat
    (length
       (observation_segments Decimal datetime Decimal_str Decimal_bool
          strftime_datetime e n code measurement units now)).
Proof.
  unfold observation_segments.
  destruct measurement as [w|]; [destruct (Decimal_bool w)|]; reflexivity.
Qed.

(** [add_pid_segment] appends the patient segment of 31 fields and, after
    it, an observation segment for the weight and one for the height, each
    only when the measurement is there and counts as true. *)
Lemma add_pid_segment_run now_weight now_height patient self :
  pid_segment now_weight now_height patient self =
    (inr tt,
     HL7Builder.with_segments self
       (HL7Builder.segments self
          ++ patient_segments Decimal datetime date Decimal_str Decimal_bool
               strftime_datetime strftime_date
               (HL7Builder.encoding self) (HL7Builder.config self)
               (obx_count (HL7Builder.segments self))
               now_weight now_height patient)).
Proof.
  unfold add_pid_segment, patient_segments, pid_fields. start_segment.
  repeat first
    [ rewrite add_field_bind_fields; compute_padding
    | rewrite add_field_fields; compute_padding
    | rewrite format_name_bind ].
  cbv beta iota.
  unfold mbind at 1, py_bind at 1.
  unfold mbind at 1, py_bind at 1.
  unfold HL7Builder.segments_append at 1. cbv beta iota. cbn [snd].
  set (pid := {| segment_id := "PID" |}).
  set (self1 := HL7Builder.with_segments self (HL7Builder.segments self ++ [pid])).
  assert (Hcount1 : obx_count (HL7Builder.segments self1)
                    = obx_count (HL7Builder.segments self)).
  { subst self1. cbn [HL7Builder.segments HL7Builder.with_segments].
    rewrite obx_count_app. change (obx_count [pid]) with 0. lia. }
  assert (Hweight : exists added,
    added = observation_segments Decimal datetime Decimal_str Decimal_bool
              strftime_datetime (HL7Builder.encoding self)
              (obx_count (HL7Builder.segments self) + 1)
              "3141-9^Body weight Measured^LN"
              (PatientInfo.weight_kg patient) "kg" now_weight /\
    match PatientInfo.weight_kg patient with
    | Some w =>
        if Decimal_bool w
        then pid_segment_obx "3141-9^Body weight Measured^LN" w "kg" now_weight
        else mret tt
    | None => mret tt
    end self1 =
      (inr tt,
       HL7Builder.with_segments self
         (HL7Builder.segments self ++ pid :: added))).
  { eexists. split; [reflexivity|]. unfold observation_segments.
    destruct (PatientInfo.weight_kg patient) as [w|];
      [destruct (Decimal_bool w)|].
    - rewrite add_pid_segment_obx_run, Hcount1. subst self1.
      cbn [HL7Builder.segments HL7Builder.with_segments HL7Builder.encoding].
      by rewrite <- app_assoc.
    - subst self1. reflexivity.
    - subst self1. reflexivity. }
  destruct Hweight as (weight & Hw & ->). rewrite <- Hw.
  cbv beta iota.
  set (self2 := HL7Builder.with_segments self
                  (HL7Builder.segments self ++ pid :: weight)).
  assert (Hcount2 : obx_count (HL7Builder.segments self2)
                    = obx_count (HL7Builder.segments self)
                      + Z.of_nat (length weight)).
  { subst self2. cbn [HL7Builder.segments HL7Builder.with_segments].
    rewrite obx_count_app.
    change (pid :: weight) with ([pid] ++ weight).
    rewrite obx_count_app. change (obx_count [pid]) with 0.
    rewrite Hw, obx_count_observation_segments. lia. }
  unfold observation_segments at 1.
  destruct (PatientInfo.height_cm patient) as [h|];
    [destruct (Decimal_bool h)|].
  - rewrite add_pid_segment_obx_run, Hcount2. subst self2.
    cbn [HL7Builder.segments HL7Builder.with_segments HL7Builder.encoding].
    rewrite <- app_assoc. reflexivity.
  - subst self2. by rewrite app_nil_r.
  - subst self2. by rewrite app_nil_r.
Qed.

(** [add_msh_segment] appends the header of 21 fields. *)
Lemma add_msh_segment_fields now self :
  HL7Builder.add_msh_segment now self =
    (inr tt,
     HL7Builder.with_segments self
       (HL7Builder.segments self ++
        [ {| segment_id := "MSH"; encoding := HL7Builder.encoding self;
             fields :=
               msh_fields (HL7Builder.encoding self) (HL7Builder.config self)
                 (HL7Builder.message_control_id self) now |} ])).
Proof.
  unfold HL7Builder.add_msh_segment, msh_fields. start_segment.
  cbv zeta. run_add_fields. reflexivity.
Qed.

Local Abbreviation created_segments :=
  (prescription_segments Decimal datetime date Decimal_str Decimal_bool
     strftime_datetime strftime_date).
Local Abbreviation create_on_builder :=
  (create_hl7_prescription_on_builder Decimal datetime date Decimal_str
     Decimal_bool strftime_datetime strftime_date).
Local Abbreviation create :=
  (create_hl7_prescription Decimal datetime date Decimal_str
     Decimal_bool strftime_datetime strftime_date).

Lemma obx_count_header e fs :
  obx_count [ {| segment_id := "MSH"; encoding := e; fields := fs |} ] = 0.
Proof. reflexivity. Qed.

(** What [create_hl7_prescription] does on its builder: it never raises,
    appends the segments of [prescription_segments], and returns the text of
    all segments; [build_message] adds nothing, since a header is there. *)
Lemma create_hl7_prescription_on_builder_run clock hl7_data config self :
  let segs :=
    HL7Builder.segments self
      ++ created_segments (HL7Builder.encoding self) (HL7Builder.config self)
           (HL7Builder.message_control_id self)
           (obx_count (HL7Builder.segments self)) clock hl7_data config in
  create_on_builder clock hl7_data config self =
    (inr (PyStr.join SEGMENT_DELIMITER (map build segs)),
     HL7Builder.with_segments self segs).
Proof.
  intros segs. subst segs. unfold create_hl7_prescription_on_builder.
  cbv zeta.
  unfold mbind at 1, py_bind at 1. rewrite add_msh_segment_fields.
  unfold mbind at 1, py_bind at 1. rewrite add_pid_segment_run.
  cbn [HL7Builder.segments HL7Builder.with_segments HL7Builder.encoding
         HL7Builder.config HL7Builder.message_control_id].
  rewrite obx_count_app, obx_count_header, Z.add_0_r.
  unfold mbind at 1, py_bind at 1. rewrite add_pv1_segment_run.
  unfold mbind at 1, py_bind at 1. rewrite add_orc_segment_run.
  cbn [HL7Builder.segments HL7Builder.with_segments HL7Builder.encoding
         HL7Builder.config HL7Builder.message_control_id default].
  unfold mbind at 1, py_bind at 1.
  match goal with
  | |- context [match PatientInfo.diagnoses ?p with
                | [] => mret tt | _ :: _ => ?m end ?st] =>
      replace (match PatientInfo.diagnoses p with
               | [] => mret tt | _ :: _ => m end st)
        with (m st)
        by (rewrite add_diagnosis_segments_run;
            destruct (PatientInfo.diagnoses p);
            [cbn; by rewrite app_nil_r|by rewrite add_diagnosis_segments_run])
  end.
  rewrite add_diagnosis_segments_run.
  cbn [HL7Builder.segments HL7Builder.with_segments HL7Builder.encoding].
  unfold mbind at 1, py_bind at 1.
  match goal with
  | |- context [match PatientInfo.allergies ?p with
                | [] => mret tt | _ :: _ => ?m end ?st] =>
      replace (match PatientInfo.allergies p with
               | [] => mret tt | _ :: _ => m end st)
        with (m st)
        by (rewrite add_allergy_segments_run;
            destruct (PatientInfo.allergies p);
            [cbn; by rewrite app_nil_r|by rewrite add_allergy_segments_run])
  end.
  rewrite add_allergy_segments_run.
  cbn [HL7Builder.segments HL7Builder.with_segments HL7Builder.encoding].
  unfold mbind at 1, py_bind at 1.
  set (info := HL7Data.prescription_info hl7_data).
  set (nte := if truthy_str (PrescriptionInfo.clinical_notes info)
              then [ {| segment_id := "NTE";
                        encoding := HL7Builder.encoding self;
                        fields :=
                          [ EmptyString;
                            _escape_hl7 (HL7Builder.encoding self)
                              (py_str (PyInt 1));
                            _escape_hl7 (HL7Builder.encoding self) "P";
                            _escape_hl7 (HL7Builder.encoding self)
                              (default EmptyString
                                 (PrescriptionInfo.clinical_notes info)) ] |} ]
              else []).
  match goal with
  | |- context [(if truthy_str _ then ?m else mret tt) ?st] =>
      replace ((if truthy_str (PrescriptionInfo.clinical_notes info)
                then m else mret tt) st)
        with (inr tt : PyExn + unit,
              HL7Builder.with_segments self (HL7Builder.segments st ++ nte))
        by (subst nte; destruct (truthy_str _);
            [by rewrite add_nte_segment_run
            |by rewrite app_nil_r])
  end.
  cbn [HL7Builder.segments HL7Builder.with_segments HL7Builder.encoding].
  unfold mbind at 1, py_bind at 1.
  rewrite (for_each_appends _
             (medication_segments Decimal datetime date Decimal_str
                Decimal_bool strftime_datetime strftime_date
                (HL7Config.message_type config) (Clock.at_dispense clock))).
  - cbn [HL7Builder.segments HL7Builder.with_segments HL7Builder.encoding].
    rewrite build_message_as_is.
    + cbn [HL7Builder.segments HL7Builder.with_segments].
      unfold prescription_segments. cbv zeta. fold info. fold nte.
      rewrite <- !app_assoc. reflexivity.
    + right. cbn [HL7Builder.segments HL7Builder.with_segments].
      rewrite <- !app_assoc. rewrite has_msh_app. apply orb_true_iff. right.
      reflexivity.
  - intros item self'. unfold medication_segments.
    unfold mbind, py_bind. rewrite add_rxe_segment_run.
    destruct (MessageType_eqb (HL7Config.message_type config) RDE).
    + rewrite add_rxd_segment_run.
      cbn [HL7Builder.segments HL7Builder.with_segments HL7Builder.encoding
             default].
      by rewrite <- app_assoc.
    + by rewrite app_nil_r.
Qed.

Lemma map_segment_id_observation e n code measurement units now :
  map segment_id
    (observation_segments Decimal datetime Decimal_str Decimal_bool
       strftime_datetime e n code measurement units now) =
  if truthy_decimal Decimal Decimal_bool measurement then ["OBX"] else [].
Proof.
  unfold observation_segments, truthy_decimal.
  destruct measurement as [w|]; [destruct (Decimal_bool w)|]; reflexivity.
Qed.

Lemma map_const_replicate {A B} (f : A -> B) (b : B) (l : list A) :
  (forall x, f x = b) -> map f l = replicate (length l) b.
Proof.
  intros Hf. induction l as [|x l IH]; cbn; [done|]. by rewrite Hf, IH.
Qed.

Lemma enumerate_length {A} (l : list A) start :
  length (enumerate l start) = length l.
Proof.
  unfold enumerate. rewrite length_zip_with, length_seqZ. lia.
Qed.

Lemma enumerate_snd {A} (l : list A) start : (enumerate l start).*2 = l.
Proof.
  unfold enumerate. apply snd_zip. rewrite length_seqZ. lia.
Qed.

Lemma medication_segments_tags message_type now e l :
  map segment_id
    (concat
       (map (medication_segments Decimal datetime date Decimal_str
               Decimal_bool strftime_datetime strftime_date
               message_type now e) l)) =
  concat
    (map (fun _ : MedicationItem.t Decimal datetime =>
            [ "RXE"; "RXR" ]
            ++ (if MessageType_eqb message_type RDE then ["RXD"] else []))
       (l.*2)).
Proof.
  induction l as [|item l IH]; [done|].
  cbn [map concat fmap list_fmap]. rewrite map_app, IH. f_equal.
  unfold medication_segments. rewrite map_app.
  by destruct (MessageType_eqb _ _).
Qed.

Lemma prescription_segments_tags e cfg control_id count clock hl7_data config :
  map segment_id
    (created_segments e cfg control_id count clock hl7_data config) =
  prescription_tags Decimal datetime date Decimal_bool hl7_data config.
Proof.
  unfold prescription_segments, prescription_tags, patient_segments.
  cbv zeta.
  rewrite !map_app. cbn [map segment_id app].
  rewrite !map_app, !map_segment_id_observation.
  rewrite medication_segments_tags, enumerate_snd.
  rewrite !map_map.
  rewrite (map_const_replicate _ "DG1") by done.
  rewrite (map_const_replicate _ "AL1") by done.
  rewrite !enumerate_length.
  rewrite <- !app_assoc. cbn [app].
  by destruct (truthy_str _).
Qed.

End CatalogProperties.

(** ** The segments of the catalog *)

Section CatalogTheorems.
Variables Decimal datetime date : Type.
Variable Decimal_str : Decimal -> string.
Variable Decimal_bool : Decimal -> bool.
Variable strftime_datetime : datetime -> string.
Variable strftime_date : date -> string.

(** X15.  The header that [add_msh_segment] appends to a new builder: one
    segment tagged [MSH] of 21 fields, of which the first two are empty, the
    third holds the five encoding characters in escaped form, and the
    eleventh holds the control id, which is the one of the configuration
    when that is given and not empty, and [MSG] followed by the time stamp
    otherwise. *)
Theorem add_msh_segment_on_new_builder (now timestamp : string)
    (cfg : HL7Config.t) :
  let control_id :=
    match HL7Config.message_control_id cfg with
    | Some id => if PyStr.nonempty id then id else "MSG" +:+ timestamp
    | None => "MSG" +:+ timestamp
    end in
  let fs := msh_fields HL7EncodingCharacters_init cfg control_id now in
  HL7Builder.add_msh_segment now (HL7Builder.init timestamp cfg) =
    (inr tt,
     HL7Builder.with_segments (HL7Builder.init timestamp cfg)
       [ {| segment_id := "MSH"; encoding := HL7EncodingCharacters_init;
            fields := fs |} ]) /\
  length fs = 21%nat /\
  fs !! 0%nat = Some EmptyString /\
  fs !! 1%nat = Some EmptyString /\
  fs !! 2%nat = Some "\E\F\E\\E\S\E\\E\R\E\\E\\T\" /\
  fs !! 10%nat = Some (_escape_hl7 HL7EncodingCharacters_init control_id).
Proof.
  intros control_id fs. split; [|repeat split].
  rewrite add_msh_segment_fields. reflexivity.
Qed.

(** X16.  [add_pv1_segment] never raises and appends, after the segments
    that are there, one segment tagged [PV1] of 51 fields: an empty one, the
    escaped texts of ["1"] and of the patient class, and 48 empty ones. *)
Theorem add_pv1_segment_layout (patient_class : string) (self : HL7Builder.t) :
  add_pv1_segment patient_class self =
    (inr tt,
     HL7Builder.with_segments self
       (HL7Builder.segments self ++
        [ {| segment_id := "PV1"; encoding := HL7Builder.encoding self;
             fields :=
               [ EmptyString;
                 _escape_hl7 (HL7Builder.encoding self) "1";
                 _escape_hl7 (HL7Builder.encoding self) patient_class ]
               ++ replicate 48 EmptyString |} ])).
Proof. apply add_pv1_segment_run. Qed.

(** X17.  [add_orc_segment] never raises and appends one segment tagged
    [ORC] that has 17 fields whichever optional arguments are given: the
    value of each position that is written stands at the index of its
    position, the places of the arguments that are left out (timing,
    entering, verifying and ordering provider) are empty, and the time is
    that of the transaction when one is given and the reading of the clock
    otherwise. *)
Theorem add_orc_segment_layout
    (now : datetime)
    (order_control placer_order_number filler_order_number order_status
       response_flag : string)
    (timing_quantity : option (list string)) (parent_order : string)
    (datetime_of_transaction : option datetime)
    (entered_by verified_by ordering_provider : option PrescribingProvider.t)
    (self : HL7Builder.t) :
  add_orc_segment datetime date strftime_datetime strftime_date
    now order_control placer_order_number filler_order_number
    order_status response_flag timing_quantity parent_order
    datetime_of_transaction entered_by verified_by ordering_provider self =
    (inr tt,
     HL7Builder.with_segments self
       (HL7Builder.segments self ++
        [ {| segment_id := "ORC"; encoding := HL7Builder.encoding self;
             fields :=
               orc_fields (HL7Builder.encoding self) order_control
                 placer_order_number filler_order_number order_status
                 response_flag timing_quantity parent_order
                 (strftime_datetime (default now datetime_of_transaction))
                 entered_by verified_by ordering_provider |} ])) /\
  length
    (orc_fields (HL7Builder.encoding self) order_control
       placer_order_number filler_order_number order_status
       response_flag timing_quantity parent_order
       (strftime_datetime (default now datetime_of_transaction))
       entered_by verified_by ordering_provider) = 17%nat.
Proof. split; [apply add_orc_segment_run|reflexivity]. Qed.

(** X18.  [add_rxr_segment] never raises and appends one segment tagged
    [RXR] of 7 fields, with or without a site: the second field is the
    escaped text of the route, its name in the table of routes (the route
    itself when the table does not have it) and [HL70162], joined by ["^"];
    the third is the escaped site, or empty when the site is left out or
    empty. *)
Theorem add_rxr_segment_layout
    (route : string) (site : option string) (self : HL7Builder.t) :
  add_rxr_segment route site self =
    (inr tt,
     HL7Builder.with_segments self
       (HL7Builder.segments self ++
        [ {| segment_id := "RXR"; encoding := HL7Builder.encoding self;
             fields := rxr_fields (HL7Builder.encoding self) route site |} ]))
  /\
  length (rxr_fields (HL7Builder.encoding self) route site) = 7%nat.
Proof. split; [apply add_rxr_segment_run|reflexivity]. Qed.

(** X19.  [add_rxe_segment] never raises and appends two segments: one
    tagged [RXE] of 31 fields and, after it, the segment [RXR] of the route
    of the medication, without a site. *)
Theorem add_rxe_segment_layout
    (medication : MedicationItem.t Decimal datetime) (give_per : string)
    (give_rate give_units give_strength give_strength_units
       provider_instructions delivery_instructions : option string)
    (self : HL7Builder.t) :
  add_rxe_segment Decimal datetime date Decimal_str strftime_datetime
    strftime_date medication give_per give_rate give_units give_strength
    give_strength_units provider_instructions delivery_instructions self =
    (inr tt,
     HL7Builder.with_segments self
       (HL7Builder.segments self ++
        [ {| segment_id := "RXE"; encoding := HL7Builder.encoding self;
             fields :=
               rxe_fields Decimal datetime date Decimal_str strftime_datetime
                 strftime_date (HL7Builder.encoding self) medication give_per
                 give_rate give_units give_strength give_strength_units |};
          {| segment_id := "RXR"; encoding := HL7Builder.encoding self;
             fields :=
               rxr_fields (HL7Builder.encoding self)
                 (MedicationItem.route medication) None |} ])) /\
  length
    (rxe_fields Decimal datetime date Decimal_str strftime_datetime
       strftime_date (HL7Builder.encoding self) medication give_per
       give_rate give_units give_strength give_strength_units) = 31%nat.
Proof. split; [apply add_rxe_segment_run|reflexivity]. Qed.

(** X20.  [add_rxd_segment] never raises and appends one segment tagged
    [RXD] of 39 fields; the quantity in it is the dispensed quantity when one
    is given and counts as true, and the quantity of the medication
    otherwise; the time is that of the fill when one is given and the
    reading of the clock otherwise. *)
Theorem add_rxd_segment_layout
    (now : datetime) (medication : MedicationItem.t Decimal datetime)
    (dispense_number : Z) (quantity_dispensed : option Decimal)
    (fill_datetime : option datetime) (days_supply : option Z)
    (self : HL7Builder.t) :
  add_rxd_segment Decimal datetime date Decimal_str Decimal_bool
    strftime_datetime strftime_date now medication dispense_number
    quantity_dispensed fill_datetime days_supply self =
    (inr tt,
     HL7Builder.with_segments self
       (HL7Builder.segments self ++
        [ {| segment_id := "RXD"; encoding := HL7Builder.encoding self;
             fields :=
               rxd_fields Decimal datetime Decimal_str Decimal_bool
                 (HL7Builder.encoding self) medication dispense_number
                 quantity_dispensed
                 (strftime_datetime (default now fill_datetime)) |} ])) /\
  length
    (rxd_fields Decimal datetime Decimal_str Decimal_bool
       (HL7Builder.encoding self) medication dispense_number
       quantity_dispensed
       (strftime_datetime (default now fill_datetime))) = 39%nat.
Proof. split; [apply add_rxd_segment_run|reflexivity]. Qed.

(** X21.  [add_pid_segment] never raises and appends the patient segment,
    tagged [PID] and of 31 fields, with the formatted name in escaped form
    at index 5, and after it one observation segment for the weight and one
    for the height, each only when the measurement is given and counts as
    true; the observation segments are numbered on from the observation
    segments that the builder holds. *)
Theorem add_pid_segment_layout
    (now_weight now_height : datetime)
    (patient : PatientInfo.t Decimal date) (self : HL7Builder.t) :
  add_pid_segment Decimal datetime date Decimal_str Decimal_bool
    strftime_datetime strftime_date now_weight now_height patient self =
    (inr tt,
     HL7Builder.with_segments self
       (HL7Builder.segments self
          ++ patient_segments Decimal datetime date Decimal_str Decimal_bool
               strftime_datetime strftime_date
               (HL7Builder.encoding self) (HL7Builder.config self)
               (obx_count (HL7Builder.segments self))
               now_weight now_height patient)) /\
  map segment_id
    (patient_segments Decimal datetime date Decimal_str Decimal_bool
       strftime_datetime strftime_date
       (HL7Builder.encoding self) (HL7Builder.config self)
       (obx_count (HL7Builder.segments self))
       now_weight now_height patient) =
    [ "PID" ]
    ++ (if truthy_decimal Decimal Decimal_bool (PatientInfo.weight_kg patient)
        then ["OBX"] else [])
    ++ (if truthy_decimal Decimal Decimal_bool (PatientInfo.height_cm patient)
        then ["OBX"] else []) /\
  length
    (pid_fields (HL7Builder.encoding self) (HL7Builder.config self)
       (PatientInfo.patient_id patient) (PatientInfo.name patient)
       (strftime_date (PatientInfo.date_of_birth patient))
       (PatientInfo.gender patient)) = 31%nat.
Proof.
  split; [apply add_pid_segment_run|]. split; [|reflexivity].
  unfold patient_segments. cbv zeta. cbn [map segment_id app].
  by rewrite map_app, !map_segment_id_observation.
Qed.

(** X22.  [add_allergy_segments] never raises and appends, after the
    segments that are there, one segment tagged [AL1] of 7 fields for each
    allergy, in the order of the list and numbered from 1. *)
Theorem add_allergy_segments_layout
    (allergies : list string) (self : HL7Builder.t) :
  add_allergy_segments allergies self =
    (inr tt,
     HL7Builder.with_segments self
       (HL7Builder.segments self
          ++ map (allergy_segment (HL7Builder.encoding self))
               (enumerate allergies 1))) /\
  (enumerate allergies 1).*1 = seqZ 1 (Z.of_nat (length allergies)) /\
  (enumerate allergies 1).*2 = allergies.
Proof.
  split; [apply add_allergy_segments_run|].
  split; [|apply enumerate_snd].
  unfold enumerate. apply fst_zip. rewrite length_seqZ. lia.
Qed.

(** X23.  [add_diagnosis_segments] never raises and appends one segment
    tagged [DG1] of 22 fields for each diagnosis, in the order of the list
    and numbered from 1, each with its own reading of the clock. *)
Theorem add_diagnosis_segments_layout
    (now : Z -> datetime) (diagnoses : list (string * string))
    (self : HL7Builder.t) :
  add_diagnosis_segments datetime date strftime_datetime strftime_date
    now diagnoses self =
    (inr tt,
     HL7Builder.with_segments self
       (HL7Builder.segments self
          ++ map (diagnosis_segment (HL7Builder.encoding self)
                    (fun idx => strftime_datetime (now idx)))
               (enumerate diagnoses 1))) /\
  (forall item,
     length
       (fields
          (diagnosis_segment (HL7Builder.encoding self)
             (fun idx => strftime_datetime (now idx)) item)) = 22%nat).
Proof. split; [apply add_diagnosis_segments_run|reflexivity]. Qed.

Local Abbreviation created_segments :=
  (prescription_segments Decimal datetime date Decimal_str Decimal_bool
     strftime_datetime strftime_date).
Local Abbreviation create :=
  (create_hl7_prescription Decimal datetime date Decimal_str
     Decimal_bool strftime_datetime strftime_date).
Local Abbreviation created_tags :=
  (prescription_tags Decimal datetime date Decimal_bool).

Lemma create_hl7_prescription_run clock hl7_data config :
  create clock hl7_data config =
    inr (PyStr.join SEGMENT_DELIMITER
           (map build
              (created_segments HL7EncodingCharacters_init
                 (default HL7Config.default config)
                 (HL7Builder.message_control_id
                    (HL7Builder.init (Clock.control_id_timestamp clock)
                       (default HL7Config.default config)))
                 0 clock hl7_data (default HL7Config.default config)))).
Proof.
  unfold create_hl7_prescription. cbv zeta.
  rewrite (create_hl7_prescription_on_builder_run Decimal datetime date
             Decimal_str Decimal_bool strftime_datetime strftime_date).
  reflexivity.
Qed.

Lemma prescription_tags_length hl7_data config :
  Forall (fun tag => String.length tag = 3%nat) (created_tags hl7_data config).
Proof.
  unfold prescription_tags. cbv zeta.
  repeat (apply Forall_app; split).
  - by repeat constructor.
  - destruct (truthy_decimal _ _ _); by repeat constructor.
  - destruct (truthy_decimal _ _ _); by repeat constructor.
  - by repeat constructor.
  - by apply Forall_replicate.
  - by apply Forall_replicate.
  - destruct (truthy_str _); by repeat constructor.
  - apply Forall_concat, Forall_map, Forall_forall. intros medication _.
    destruct (MessageType_eqb _ _); by repeat constructor.
Qed.

(** X24.  [add_nte_segment] never raises and appends one segment tagged
    [NTE] of four fields: an empty one and the escaped texts of the set id,
    the source and the comment. *)
Theorem add_nte_segment_layout
    (comment : string) (set_id : Z) (source : string) (self : HL7Builder.t) :
  add_nte_segment comment set_id source self =
    (inr tt,
     HL7Builder.with_segments self
       (HL7Builder.segments self ++
        [ {| segment_id := "NTE"; encoding := HL7Builder.encoding self;
             fields :=
               [ EmptyString;
                 _escape_hl7 (HL7Builder.encoding self) (py_str (PyInt set_id));
                 _escape_hl7 (HL7Builder.encoding self) source;
                 _escape_hl7 (HL7Builder.encoding self) comment ] |} ])).
Proof. apply add_nte_segment_run. Qed.

(** X25.  [create_hl7_prescription] never raises.  Its text is the texts of
    its segments joined by the segment delimiter, where the segments are, in
    this order: the header, the patient segment with an observation for the
    weight and one for the height where these are given and count as true,
    the visit and the order segment, one diagnosis segment for each
    diagnosis, one allergy segment for each allergy, a note when the
    clinical notes are given and not empty, and for each medication the
    order, its route and, for the message type [RDE], the dispense record.
    There is one header and the text begins with it, also when the
    configuration switches the header off. *)
Theorem create_hl7_prescription_segments
    (clock : Clock.t datetime) (hl7_data : HL7Data.t Decimal datetime date)
    (config : option HL7Config.t) :
  let cfg := default HL7Config.default config in
  let segs :=
    created_segments HL7EncodingCharacters_init cfg
      (HL7Builder.message_control_id
         (HL7Builder.init (Clock.control_id_timestamp clock) cfg))
      0 clock hl7_data cfg in
  create clock hl7_data config =
    inr (PyStr.join SEGMENT_DELIMITER (map build segs)) /\
  map segment_id segs = created_tags hl7_data cfg /\
  PyStr.startswith (PyStr.join SEGMENT_DELIMITER (map build segs)) "MSH|"
    = true.
Proof.
  intros cfg segs. split; [apply create_hl7_prescription_run|].
  split; [apply prescription_segments_tags|].
  subst segs. unfold prescription_segments, patient_segments. cbv zeta.
  cbn [app map].
  match goal with
  | |- PyStr.startswith (PyStr.join _ (_ :: _ :: ?rest)) _ = true =>
      generalize rest
  end.
  intros rest. reflexivity.
Qed.

(** X26.  The text of [create_hl7_prescription], read by
    [parse_hl7_response]: when no segment text holds the segment delimiter,
    the segments of the result are the tags of the segments of the
    prescription, in their order. *)
Theorem create_hl7_prescription_read_back
    (clock : Clock.t datetime) (hl7_data : HL7Data.t Decimal datetime date)
    (config : option HL7Config.t) (text : string) :
  create clock hl7_data config = inr text ->
  Forall (fun s => PyStr.contains SEGMENT_DELIMITER (build s) = false)
    (created_segments HL7EncodingCharacters_init
       (default HL7Config.default config)
       (HL7Builder.message_control_id
          (HL7Builder.init (Clock.control_id_timestamp clock)
             (default HL7Config.default config)))
       0 clock hl7_data (default HL7Config.default config)) ->
  exists result,
    parse_hl7_response text = inr result /\
    r_segments result =
      created_tags hl7_data (default HL7Config.default config).
Proof.
  rewrite create_hl7_prescription_run. intros [= <-] Hclean.
  set (segs := created_segments _ _ _ _ _ _ _) in *.
  pose proof (prescription_segments_tags Decimal datetime date Decimal_str
                Decimal_bool strftime_datetime strftime_date
                HL7EncodingCharacters_init
                (default HL7Config.default config)
                (HL7Builder.message_control_id
                   (HL7Builder.init (Clock.control_id_timestamp clock)
                      (default HL7Config.default config)))
                0 clock hl7_data (default HL7Config.default config))
    as Htags.
  fold segs in Htags.
  destruct (parse_of_built_segments segs) as (result & Hrun & Hres).
  - intros Hnil. rewrite Hnil in Htags. discriminate.
  - apply Forall_and. split; [|done].
    apply (Forall_map segment_id (fun tag => String.length tag = 3%nat)).
    rewrite Htags. apply prescription_tags_length.
  - exists result. split; [done|]. by rewrite Hres.
Qed.

End CatalogTheorems.

Lemma create_hl7_prescription_read_back_witness :
  exists text result,
    example_create None = inr text /\
    parse_hl7_response text = inr result /\
    r_segments result =
      [ "MSH"; "PID"; "OBX"; "PV1"; "ORC"; "DG1"; "AL1"; "AL1"; "NTE";
        "RXE"; "RXR"; "RXD" ].
Proof.
  pose proof (create_hl7_prescription_run Z string string
                (fun d => py_str (PyInt d)) (fun d => negb (d =? 0))
                (fun t => t) (fun t => t) example_clock example_data None)
    as Hrun.
  destruct (create_hl7_prescription_read_back Z string string
              (fun d => py_str (PyInt d)) (fun d => negb (d =? 0))
              (fun t => t) (fun t => t) example_clock example_data None _
              Hrun)
    as (result & Hparse & Hsegs).
  - vm_compute. repeat (constructor; [vm_compute; reflexivity|]). constructor.
  - eexists _, result. split; [exact Hrun|]. split; [exact Hparse|].
    rewrite Hsegs. vm_compute. reflexivity.
Defined.
